(** * Flight search agent: the tool-calling dialogue, its capabilities and its hosts

    A shallow embedding of [flight_agent/agent.py] (the constructor of
    [FlightSearchAgent], [process_query] and [_run_async_impl]), of
    [flight_agent/tools/search_flights_tool.py] (the first capability
    [unified_search_flights] with [get_sky_ids_for_airports], and the
    three functions that go to the network), of [flight_agent/config.py],
    and of the two hosts [app.py] and [main.py].

    The language model, the chat session and the constructors of the
    Vertex AI client, the ADK base class and the HTTP providers are not
    code of the repository.  They are oracles: a reply is a function of
    everything the program has asked so far, which covers every
    sequence of replies a run can meet. *)

From Stdlib Require Import String Ascii List ZArith Bool Lia DecimalString.
Import ListNotations.
Open Scope string_scope.
Set Warnings "-register-all".

(** ** The Python values the program handles *)

Module Py.

(** JSON-like values.  A float is carried by the text [repr] prints for
    it, which is never empty: the first character and the others. *)
Inductive pyval : Type :=
| VNone
| VBool (b : bool)
| VInt (z : Z)
| VFloat (repr_head : ascii) (repr_tail : string)
| VStr (s : string)
| VList (items : list pyval)
| VDict (entries : list (string * pyval)).

(** A dict with string keys, in insertion order; a key is read at its
    first binding. *)
Definition dict : Type := list (string * pyval).

(** An exception deriving from [Exception]: its class and what [str(e)]
    gives. *)
Record pyexn : Type := Exn { exn_type : string; exn_text : string }.

(** A call either returns or raises. *)
Inductive result (A : Type) : Type :=
| Ok (a : A)
| Raise (e : pyexn).
Arguments Ok {A} a.
Arguments Raise {A} e.

Definition rbind {A B : Type} (r : result A) (k : A -> result B) : result B :=
  match r with
  | Ok a => k a
  | Raise e => Raise e
  end.

(** What [str()] prints between the brackets of a list and the braces of
    a dict is the interpreter's business ([repr] of every element). *)
Class Builtins : Type :=
  { list_body : list pyval -> string;
    dict_body : list (string * pyval) -> string }.

Definition nl : string := String (ascii_of_nat 10) EmptyString.

Definition float_repr (h : ascii) (t : string) : string := String h t.

(** [bool(v)] *)
Definition py_truthy (v : pyval) : bool :=
  match v with
  | VNone => false
  | VBool b => b
  | VInt z => negb (Z.eqb z 0)
  | VFloat h t =>
      negb (String.eqb (float_repr h t) "0.0" || String.eqb (float_repr h t) "-0.0")
  | VStr s => negb (String.eqb s "")
  | VList items => match items with [] => false | _ :: _ => true end
  | VDict entries => match entries with [] => false | _ :: _ => true end
  end.

(** [str(v)], which is what an f-string field [{v}] inserts. *)
Definition py_str `{B : Builtins} (v : pyval) : string :=
  match v with
  | VNone => "None"
  | VBool true => "True"
  | VBool false => "False"
  | VInt z => NilZero.string_of_int (Z.to_int z)
  | VFloat h t => float_repr h t
  | VStr s => s
  | VList items => "[" ++ list_body items ++ "]"
  | VDict entries => "{" ++ dict_body entries ++ "}"
  end.

Definition nat_str (n : nat) : string := NilZero.string_of_uint (Nat.to_uint n).

Fixpoint lookup {V : Type} (key : string) (entries : list (string * V)) : option V :=
  match entries with
  | [] => None
  | (k, v) :: rest => if String.eqb k key then Some v else lookup key rest
  end.

(** [d.get(key)] *)
Definition dict_get (d : dict) (key : string) : pyval :=
  match lookup key d with
  | Some v => v
  | None => VNone
  end.

Definition KeyError (key : string) : pyexn :=
  Exn "KeyError" ("'" ++ key ++ "'").

Definition TypeError (text : string) : pyexn := Exn "TypeError" text.

(** [v[key]] for a string key (messages as CPython 3.11 words them). *)
Definition getitem (v : pyval) (key : string) : result pyval :=
  match v with
  | VDict entries =>
      match lookup key entries with
      | Some x => Ok x
      | None => Raise (KeyError key)
      end
  | VStr _ => Raise (TypeError "string indices must be integers, not 'str'")
  | VList _ => Raise (TypeError "list indices must be integers or slices, not str")
  | VNone => Raise (TypeError "'NoneType' object is not subscriptable")
  | VBool _ => Raise (TypeError "'bool' object is not subscriptable")
  | VInt _ => Raise (TypeError "'int' object is not subscriptable")
  | VFloat _ _ => Raise (TypeError "'float' object is not subscriptable")
  end.

(** The elements a [for] loop over [v] visits.  A str yields its
    characters (here its bytes, each a str), a dict its keys. *)
Definition iterate (v : pyval) : result (list pyval) :=
  match v with
  | VList items => Ok items
  | VStr s => Ok (map (fun c => VStr (String c EmptyString)) (list_ascii_of_string s))
  | VDict entries => Ok (map (fun kv => VStr (fst kv)) entries)
  | VNone => Raise (TypeError "'NoneType' object is not iterable")
  | VBool _ => Raise (TypeError "'bool' object is not iterable")
  | VInt _ => Raise (TypeError "'int' object is not iterable")
  | VFloat _ _ => Raise (TypeError "'float' object is not iterable")
  end.

(** Code that talks to the outside: it extends the log of what it asked,
    and returns, raises, or is still looping when the fuel is spent
    ([None]). *)
Definition Run (E A : Type) : Type := list E -> list E * option (result A).

Definition ret {E A : Type} (a : A) : Run E A :=
  fun log => (log, Some (Ok a)).

Definition bind {E A B : Type} (m : Run E A) (k : A -> Run E B) : Run E B :=
  fun log =>
    match m log with
    | (log', Some (Ok a)) => k a log'
    | (log', Some (Raise e)) => (log', Some (Raise e))
    | (log', None) => (log', None)
    end.

Definition lift {E A : Type} (r : result A) : Run E A :=
  fun log => (log, Some r).

Definition starved {E A : Type} : Run E A :=
  fun log => (log, None).

(** One request to an oracle: the oracle sees the log so far, and the
    request is logged whether it returns or raises. *)
Definition ask {E A : Type} (request : E) (oracle : list E -> result A) : Run E A :=
  fun log => ((log ++ [request])%list, Some (oracle log)).

End Py.

Import Py.

Declare Scope run_scope.
Delimit Scope run_scope with run.
Notation "x <- m ;; k" := (bind m (fun x => k))
  (at level 100, m at next level, right associativity) : run_scope.

Declare Scope result_scope.
Delimit Scope result_scope with result.
Notation "x <- r ;; k" := (rbind r (fun x => k))
  (at level 100, r at next level, right associativity) : result_scope.

(** ** flight_agent/tools/search_flights_tool.py: the first capability *)

Module SearchFlightsTool.

(** One location as [lookup_sky_scrapper_location] copies it out of the
    provider's answer ([loc.get(...)]: the value, or None). *)
Record Location : Type :=
  { name : pyval; iata : pyval; skyId : pyval; entityId : pyval; type_ : pyval }.

(** What [lookup_sky_scrapper_location] returns: [{"error": message}]
    (no API key, or nothing found) or [{"results": results}]. *)
Inductive LookupInfo : Type :=
| InfoError (message : string)
| InfoResults (results : list Location).

(** The keyword arguments of [search_flights_sky_scrapper]. *)
Record SkyScrapperArgs : Type :=
  { originSkyId : pyval; destinationSkyId : pyval;
    originEntityId : pyval; destinationEntityId : pyval;
    sky_departure_date : pyval; sky_return_date : pyval;
    sky_cabinClass : pyval; sky_adults : pyval; sky_sortBy : pyval;
    sky_currency : pyval; sky_market : pyval; sky_countryCode : pyval;
    sky_preferences : pyval }.

(** The parameters of [unified_search_flights], bound. *)
Record SearchArgs : Type :=
  { origin : pyval; destination : pyval;
    departure_date : pyval; return_date : pyval;
    cabinClass : pyval; adults : pyval; sortBy : pyval;
    currency : pyval; market : pyval; countryCode : pyval;
    preferences : pyval }.

(** The two functions of the module that go to the network. *)
Inductive Request : Type :=
| LocationLookup (query : pyval)
| FlightSearch (args : SkyScrapperArgs).

Class Providers : Type :=
  { lookup_sky_scrapper_location : list Request -> pyval -> result LookupInfo;
    search_flights_sky_scrapper : list Request -> SkyScrapperArgs -> result pyval }.

(** ["error" in info or not info.get("results")] *)
Definition unresolved (info : LookupInfo) : bool :=
  match info with
  | InfoError _ => true
  | InfoResults [] => true
  | InfoResults (_ :: _) => false
  end.

Section Tool.
Context `{B : Builtins} `{P : Providers}.
Open Scope run_scope.

Definition get_sky_ids_for_airports (origin destination : pyval) : Run Request dict :=
  origin_info <- ask (LocationLookup origin) (fun log => lookup_sky_scrapper_location log origin) ;;
  destination_info <-
    ask (LocationLookup destination) (fun log => lookup_sky_scrapper_location log destination) ;;
  match origin_info with
  | InfoError _ | InfoResults [] =>
      ret [("error", VStr ("Could not find Sky Scrapper location for origin: " ++ py_str origin))]
  | InfoResults (o :: _) =>
      match destination_info with
      | InfoError _ | InfoResults [] =>
          ret [("error",
                VStr ("Could not find Sky Scrapper location for destination: "
                        ++ py_str destination))]
      | InfoResults (d :: _) =>
          ret [("originSkyId", skyId o);
               ("originEntityId", entityId o);
               ("destinationSkyId", skyId d);
               ("destinationEntityId", entityId d)]
      end
  end.

Definition unified_search_flights (a : SearchArgs) : Run Request pyval :=
  ids <- get_sky_ids_for_airports (origin a) (destination a) ;;
  match lookup "error" ids with
  | Some error => ret (VDict [("error", error)])
  | None =>
      oSky <- lift (getitem (VDict ids) "originSkyId") ;;
      dSky <- lift (getitem (VDict ids) "destinationSkyId") ;;
      oEnt <- lift (getitem (VDict ids) "originEntityId") ;;
      dEnt <- lift (getitem (VDict ids) "destinationEntityId") ;;
      let args :=
        {| originSkyId := oSky; destinationSkyId := dSky;
           originEntityId := oEnt; destinationEntityId := dEnt;
           sky_departure_date := departure_date a; sky_return_date := return_date a;
           sky_cabinClass := cabinClass a; sky_adults := adults a;
           sky_sortBy := sortBy a; sky_currency := currency a;
           sky_market := market a; sky_countryCode := countryCode a;
           sky_preferences := preferences a |} in
      ask (FlightSearch args) (fun log => search_flights_sky_scrapper log args)
  end.

End Tool.

End SearchFlightsTool.

(** ** flight_agent/agent.py: the dialogue *)

Module Agent.

(** The two [Tool] objects the agent can offer to the model. *)
Inductive VertexTool : Type :=
| SEARCH_FLIGHTS_VERTEX_TOOL
| SEARCH_GOOGLE_FLIGHTS_VERTEX_TOOL.

Record FunctionCall : Type := { fc_name : string; fc_args : dict }.

(** What [function_response.response] holds.  On a [Part] of the SDK,
    built by [Part.from_function_response] or received from the model,
    it is a proto-plus [MapComposite] over the response: a mapping, but
    not an instance of [dict].  [Plain v] is the attribute of an object
    that is not the SDK's and holds the Python value [v] itself. *)
Inductive ResponseValue : Type :=
| MapComposite (response : pyval)
| Plain (v : pyval).

Record FunctionResponse : Type := { fr_name : string; fr_response : ResponseValue }.

(** A content part, read the way the agent probes it: [text] is there or
    not ([hasattr]); [function_call] and [function_response] are [None]
    when the attribute is missing or falsy. *)
Record Part : Type :=
  { text : option string;
    function_call : option FunctionCall;
    function_response : option FunctionResponse }.

Record Candidate : Type := { parts : list Part }.

Record GenerationResponse : Type := { candidates : list Candidate }.

(** [Part.from_function_response(name=..., response=...)] *)
Definition from_function_response (name : string) (response : pyval) : Part :=
  {| text := None;
     function_call := None;
     function_response :=
       Some {| fr_name := name; fr_response := MapComposite response |} |}.

(** What [send_message_async] is given: the query, a str by the
    signature of [process_query]; the part that carries the result of a
    tool; or a query that is not a str, which only a caller that does
    not look at the type can hand over (app.py). *)
Inductive Content : Type :=
| UserQuery (user_query : string)
| ToolResult (response_content_part : Part)
| OtherQuery (user_query : pyval).

(** What the agent does to the outside: a message to the chat session
    with its [tools=] argument ([None]: the argument is left out, and the
    model was built without tools, so none is offered), or a call of a
    tool function with its keyword arguments. *)
Inductive Event : Type :=
| EvSend (content : Content) (tools : option (list VertexTool))
| EvCall (function_name : string) (function_args : dict).

Definition Log : Type := list Event.

(** A tool function of the registry, called with [**function_args]. *)
Definition ToolFunction : Type := Log -> dict -> result pyval.

(** The chat session, and the two functions agent.py finds in
    [AVAILABLE_FLIGHT_TOOLS], each called with keyword arguments (what
    the first one does inside is module [SearchFlightsTool]). *)
Class World : Type :=
  { send_message_async : Log -> Content -> option (list VertexTool) -> result GenerationResponse;
    unified_search_flights : ToolFunction;
    search_google_flights_serpapi : ToolFunction }.

(** The ways [process_query] ends: the joined text (line 130), the fixed
    apology (line 133), the end of the function body without a [return],
    or the [except] branch (line 136). *)
Inductive Outcome : Type :=
| Answer (final_response_text : string)
| Apology
| Nothing
| Failure (e : pyexn).

Definition apology : string :=
  "Sorry, I couldn't generate a response for that query after processing.".

(** The Python value the caller gets. *)
Definition returned (o : Outcome) : pyval :=
  match o with
  | Answer final_response_text => VStr final_response_text
  | Apology => VStr apology
  | Nothing => VNone
  | Failure e => VStr ("An error occurred while processing your request: " ++ exn_text e)
  end.

(** The agent: [self._chat], unset until the first query; the session
    stands for the log of what the agent has done since it started. *)
Record FlightSearchAgent : Type := { chat : option Log }.

Definition flights_header : string :=
  nl ++ "Here are the best flight options I found for you:".

(** The fields of a flight that line 121 reads, as both tool functions
    build them (search_flights_tool.py, lines 57-68 and 225-236). *)
Record FlightRecord : Type :=
  { airline : pyval; origin : pyval; destination : pyval;
    departure_time : pyval; arrival_time : pyval; stops : pyval;
    price_usd : pyval; currency : pyval; notes : pyval }.

(** Reading those fields off a value, in the order line 121 does. *)
Definition flight_fields (f : pyval) : result FlightRecord :=
  (airline <- getitem f "airline" ;;
   origin <- getitem f "origin" ;;
   destination <- getitem f "destination" ;;
   departure_time <- getitem f "departure_time" ;;
   arrival_time <- getitem f "arrival_time" ;;
   stops <- getitem f "stops" ;;
   price_usd <- getitem f "price_usd" ;;
   currency <- getitem f "currency" ;;
   notes <- getitem f "notes" ;;
   Ok {| airline := airline; origin := origin; destination := destination;
         departure_time := departure_time; arrival_time := arrival_time;
         stops := stops; price_usd := price_usd; currency := currency;
         notes := notes |})%result.

Section Agent.
Context `{B : Builtins} `{W : World}.

Definition AVAILABLE_FLIGHT_TOOLS : list (string * ToolFunction) :=
  [("search_flights", unified_search_flights);
   ("search_google_flights", search_google_flights_serpapi)].

(** The condition of the [while]: the function call of the first part of
    the first candidate, if all three are there. *)
Definition requested_call (response : GenerationResponse) : option FunctionCall :=
  match candidates response with
  | [] => None
  | c :: _ =>
      match parts c with
      | [] => None
      | p :: _ => function_call p
      end
  end.

Definition send (content : Content) (tools : option (list VertexTool))
  : Run Event GenerationResponse :=
  ask (EvSend content tools) (fun log => send_message_async log content tools).

Definition call (function_name : string) (function_to_call : ToolFunction)
  (function_args : dict) : Run Event pyval :=
  ask (EvCall function_name function_args) (fun log => function_to_call log function_args).

(** The [while] loop of [process_query] (lines 60-103); [fuel] bounds
    the number of tool calls. *)
Fixpoint tool_loop (fuel : nat) (response : GenerationResponse)
  : Run Event GenerationResponse :=
  match requested_call response with
  | None => ret response
  | Some fc =>
      match fuel with
      | O => starved
      | S fuel' =>
          let function_name := fc_name fc in
          match lookup function_name AVAILABLE_FLIGHT_TOOLS with
          | Some function_to_call =>
              let function_args := fc_args fc in
              (tool_response_data <- call function_name function_to_call function_args ;;
               let response_content_part :=
                 from_function_response function_name tool_response_data in
               if String.eqb function_name "search_flights" then
                 response <- send (ToolResult response_content_part)
                                  (Some [SEARCH_GOOGLE_FLIGHTS_VERTEX_TOOL]) ;;
                 tool_loop fuel' response
               else if String.eqb function_name "search_google_flights" then
                 response <- send (ToolResult response_content_part) None ;;
                 tool_loop fuel' response
               else
                 response <- send (ToolResult response_content_part) None ;;
                 tool_loop fuel' response)%run
          | None =>
              let response_content_part :=
                from_function_response function_name
                  (VDict [("error", VStr ("Unknown function " ++ function_name))]) in
              send (ToolResult response_content_part) None
          end
      end
  end.

(** The f-string of line 121. *)
Definition format_flight (idx : nat) (f : pyval) : result string :=
  (airline <- getitem f "airline" ;;
   origin <- getitem f "origin" ;;
   destination <- getitem f "destination" ;;
   departure_time <- getitem f "departure_time" ;;
   arrival_time <- getitem f "arrival_time" ;;
   stops <- getitem f "stops" ;;
   price_usd <- getitem f "price_usd" ;;
   currency <- getitem f "currency" ;;
   notes <- getitem f "notes" ;;
   Ok (nat_str idx ++ ". Airline: " ++ py_str airline ++ nl
       ++ "   Route: " ++ py_str origin ++ " → " ++ py_str destination ++ nl
       ++ "   Departure: " ++ py_str departure_time ++ nl
       ++ "   Arrival: " ++ py_str arrival_time ++ nl
       ++ "   Stops: " ++ py_str stops ++ nl
       ++ "   Price: $" ++ py_str price_usd ++ " " ++ py_str currency ++ nl
       ++ "   Flight Number: " ++ py_str notes))%result.

(** The text of line 121 for a flight whose fields are all there. *)
Definition listing_entry (idx : nat) (r : FlightRecord) : string :=
  nat_str idx ++ ". Airline: " ++ py_str (airline r) ++ nl
  ++ "   Route: " ++ py_str (origin r) ++ " → " ++ py_str (destination r) ++ nl
  ++ "   Departure: " ++ py_str (departure_time r) ++ nl
  ++ "   Arrival: " ++ py_str (arrival_time r) ++ nl
  ++ "   Stops: " ++ py_str (stops r) ++ nl
  ++ "   Price: $" ++ py_str (price_usd r) ++ " " ++ py_str (currency r) ++ nl
  ++ "   Flight Number: " ++ py_str (notes r).

(** [for idx, f in enumerate(flights, idx): text_parts.append(...)] *)
Fixpoint format_flights (idx : nat) (flights : list pyval) : result (list string) :=
  match flights with
  | [] => Ok []
  | f :: rest =>
      (line <- format_flight idx f ;;
       lines <- format_flights (S idx) rest ;;
       Ok (line :: lines))%result
  end.

(** Lines 112-126: what a function response whose payload is a dict adds
    to [text_parts]. *)
Definition render_payload (payload : dict) : result (list string) :=
  let flights := dict_get payload "flights" in
  let summary := dict_get payload "summary" in
  let error := dict_get payload "error" in
  if py_truthy error then
    Ok ["Sorry, there was a problem: " ++ py_str error]
  else if py_truthy flights then
    (records <- iterate flights ;;
     lines <- format_flights 1 records ;;
     Ok (flights_header :: lines
           ++ (if py_truthy summary then [nl ++ "Summary: " ++ py_str summary] else [])))%result
  else if py_truthy summary then
    Ok [py_str summary]
  else
    Ok [].

(** Lines 109-126: what one part adds to [text_parts].  The test
    [isinstance(part.function_response.response, dict)] of line 111
    holds for a dict and for nothing else. *)
Definition part_text_parts (part : Part) : result (list string) :=
  let from_text :=
    match text part with
    | Some t => if py_truthy (VStr t) then [t] else []
    | None => []
    end in
  match function_response part with
  | Some fr =>
      match fr_response fr with
      | Plain (VDict payload) =>
          (rendered <- render_payload payload ;; Ok (from_text ++ rendered)%list)%result
      | _ => Ok from_text
      end
  | None => Ok from_text
  end.

Fixpoint collect_text_parts (ps : list Part) : result (list string) :=
  match ps with
  | [] => Ok []
  | part :: rest =>
      (here <- part_text_parts part ;;
       later <- collect_text_parts rest ;;
       Ok (here ++ later)%list)%result
  end.

(** Lines 105-133: from the last response to the value returned. *)
Definition extract_final_text (response : GenerationResponse) : result Outcome :=
  match candidates response with
  | [] => Ok Nothing
  | c :: _ =>
      match parts c with
      | [] => Ok Nothing
      | ps =>
          (text_parts <- collect_text_parts ps ;;
           match text_parts with
           | [] => Ok Apology
           | _ :: _ => Ok (Answer (String.concat (nl ++ nl) text_parts))
           end)%result
      end
  end.

(** Lines 56-103: the first message, which offers [search_flights]
    alone, and the loop; the result is the response the loop ends on. *)
Definition conversation (fuel : nat) (user_query : string) : Run Event GenerationResponse :=
  (response <- send (UserQuery user_query) (Some [SEARCH_FLIGHTS_VERTEX_TOOL]) ;;
   tool_loop fuel response)%run.

(** The body of the [try] (lines 56-133). *)
Definition dialogue (fuel : nat) (user_query : string) : Run Event Outcome :=
  (response <- conversation fuel user_query ;;
   lift (extract_final_text response))%run.

(** [start_session], when [self._chat] is still unset: a session that
    has seen nothing. *)
Definition start_session (self : FlightSearchAgent) : FlightSearchAgent :=
  {| chat := Some [] |}.

Definition session_log (self : FlightSearchAgent) : Log :=
  match chat self with
  | Some log => log
  | None => []
  end.

(** [process_query]: the agent afterwards, and how the call ended
    ([None]: the loop was still running when the fuel was spent). *)
Definition process_query (fuel : nat) (self : FlightSearchAgent) (user_query : string)
  : FlightSearchAgent * option Outcome :=
  let self := match chat self with Some _ => self | None => start_session self end in
  match dialogue fuel user_query (session_log self) with
  | (log, Some (Ok outcome)) => ({| chat := Some log |}, Some outcome)
  | (log, Some (Raise e)) => ({| chat := Some log |}, Some (Failure e))
  | (log, None) => ({| chat := Some log |}, None)
  end.

End Agent.

End Agent.

(** ** Scripted worlds, to run the agent on *)

Module Scenarios.
Import Agent.

Definition plain : Builtins :=
  {| list_body := fun _ => "..."; dict_body := fun _ => "..." |}.

Fixpoint sends (log : Log) : nat :=
  match log with
  | [] => 0
  | EvSend _ _ :: rest => S (sends rest)
  | EvCall _ _ :: rest => sends rest
  end.

Definition script_over : result GenerationResponse :=
  Raise (Exn "RuntimeError" "the script has no further reply").

(** The model answers its n-th message with the n-th reply of the
    script; the two tool functions return what they are given. *)
Definition scripted (replies : list (result GenerationResponse))
  (first second : result pyval) : World :=
  {| send_message_async := fun log _ _ => nth (sends log) replies script_over;
     unified_search_flights := fun _ _ => first;
     search_google_flights_serpapi := fun _ _ => second |}.

Definition says (t : string) : Part :=
  {| text := Some t; function_call := None; function_response := None |}.

Definition asks_for (name : string) (args : dict) : Part :=
  {| text := None;
     function_call := Some {| fc_name := name; fc_args := args |};
     function_response := None |}.

Definition reply (ps : list Part) : GenerationResponse :=
  {| candidates := [ {| parts := ps |} ] |}.

Definition fresh : FlightSearchAgent := {| chat := None |}.

Definition query : string := "flights NYC to LON on 2025-06-01".

Definition trip : dict :=
  [("origin", VStr "NYC"); ("destination", VStr "LON");
   ("departure_date", VStr "2025-06-01")].

Definition no_flights : pyval :=
  VDict [("flights", VList []); ("summary", VStr "Found 0 flights.")].

(** The model answers with a candidate that has no parts. *)
Definition silent_world : World :=
  scripted [Ok (reply [])] (Ok no_flights) (Ok no_flights).

(** The model answers with no candidate at all. *)
Definition blocked_world : World :=
  scripted [Ok {| candidates := [] |}] (Ok no_flights) (Ok no_flights).

(** The model answers the query with text and calls no tool. *)
Definition chatty_reply : GenerationResponse :=
  reply [says "Which airport do you want to leave from?"].

Definition chatty_world : World :=
  scripted [Ok chatty_reply] (Ok no_flights) (Ok no_flights).

(** The model asks for the second tool at once. *)
Definition out_of_order_world : World :=
  scripted [Ok (reply [asks_for "search_google_flights" trip]);
            Ok (reply [says "I found no flights for that day."])]
    (Ok no_flights) (Ok no_flights).

(** The model asks for a function the registry does not have. *)
Definition unknown_world : World :=
  scripted [Ok (reply [asks_for "book_hotel" []]);
            Ok (reply [says "I can only search for flights."])]
    (Ok no_flights) (Ok no_flights).

(** The model calls the first tool and only then asks for a function
    the registry does not have. *)
Definition late_unknown_world : World :=
  scripted [Ok (reply [asks_for "search_flights" trip]);
            Ok (reply [asks_for "book_hotel" []]);
            Ok (reply [says "I can only search for flights."])]
    (Ok no_flights) (Ok no_flights).

(** The model announces the call in a text part and puts the function
    call second. *)
Definition text_first_reply : GenerationResponse :=
  reply [says "Let me look that up."; asks_for "search_flights" trip].

Definition text_first_world : World :=
  scripted [Ok text_first_reply] (Ok no_flights) (Ok no_flights).

(** The first provider is rate limited; the model goes on to the second
    tool and then sums up. *)
Definition rate_limited : pyval := VDict [("error", VStr "rate limited")].

Definition rate_limited_world : World :=
  scripted [Ok (reply [asks_for "search_flights" trip]);
            Ok (reply [asks_for "search_google_flights" trip]);
            Ok (reply [says "The first search failed; the second found nothing."])]
    (Ok rate_limited) (Ok no_flights).

(** A flight as the tool functions build it. *)
Definition flight (airline origin destination departure arrival : string)
  (stops : Z) (price : pyval) (notes : string) : pyval :=
  VDict [("airline", VStr airline); ("origin", VStr origin);
         ("destination", VStr destination); ("departure_time", VStr departure);
         ("arrival_time", VStr arrival); ("duration_hours", VNone);
         ("stops", VInt stops); ("price_usd", price);
         ("currency", VStr "USD"); ("notes", VStr notes)].

Definition two_flights : list pyval :=
  [flight "British Airways" "JFK" "LHR" "2025-06-01 18:30" "2025-06-02 06:45" 0
     (VInt 612) "BA112";
   flight "Icelandair" "JFK" "LHR" "2025-06-01 20:10" "2025-06-02 11:05" 1
     VNone "FI614"].

Definition found_two : dict :=
  [("flights", VList two_flights);
   ("summary", VStr "Found 2 flights from NYC to LON on 2025-06-01.")].

(** A part of the SDK that carries the result of a tool. *)
Definition echoes (name : string) (payload : dict) : Part :=
  from_function_response name (VDict payload).

(** A final response that carries the result of a search and then the
    model's closing sentence. *)
Definition listing_reply : GenerationResponse :=
  reply [echoes "search_flights" found_two;
         says "Based on both searches, option 1 is best value."].

(** The same with an error in place of the flights. *)
Definition failed_reply : GenerationResponse :=
  reply [echoes "search_flights" [("error", VStr "rate limited")];
         says "Please try again later."].

(** The model calls the first tool and then asks the same question as
    in [chatty_world]. *)
Definition late_chatty_world : World :=
  scripted [Ok (reply [asks_for "search_flights" trip]); Ok chatty_reply]
    (Ok no_flights) (Ok no_flights).

End Scenarios.

(** ** Scripted providers, to run the first capability on *)

Module ToolScenarios.
Import SearchFlightsTool.

Definition london : Location :=
  {| name := VStr "London"; iata := VStr "LON"; skyId := VStr "LOND";
     entityId := VStr "27544008"; type_ := VStr "CITY" |}.

(** The provider knows every place but Atlantis and El Dorado. *)
Definition providers : Providers :=
  {| lookup_sky_scrapper_location := fun _ query =>
       match query with
       | VStr "Atlantis" =>
           Ok (InfoError "Sky Scrapper could not find location for: Atlantis (tried: ['ATLANTIS', 'Atlantis'])")
       | VStr "El Dorado" =>
           Ok (InfoError "Sky Scrapper could not find location for: El Dorado (tried: ['EL DORADO', 'El Dorado'])")
       | _ => Ok (InfoResults [london])
       end;
     search_flights_sky_scrapper := fun _ _ =>
       Ok (VDict [("flights", VList []); ("summary", VStr "Found 0 flights.")]) |}.

Definition search (origin destination : string) : SearchArgs :=
  {| origin := VStr origin; destination := VStr destination;
     departure_date := VStr "2025-06-01"; return_date := VNone;
     cabinClass := VStr "economy"; adults := VInt 1; sortBy := VStr "best";
     currency := VStr "USD"; market := VStr "en-US"; countryCode := VStr "US";
     preferences := VNone |}.

End ToolScenarios.

(** ** More of the interpreter, for the provider functions and the hosts *)

Module Interp.

(** [type(v).__name__] *)
Definition type_name (v : pyval) : string :=
  match v with
  | VNone => "NoneType"
  | VBool _ => "bool"
  | VInt _ => "int"
  | VFloat _ _ => "float"
  | VStr _ => "str"
  | VList _ => "list"
  | VDict _ => "dict"
  end.

(** What reading a missing attribute raises. *)
Definition AttributeError (v : pyval) (attribute : string) : pyexn :=
  Exn "AttributeError"
    ("'" ++ type_name v ++ "' object has no attribute '" ++ attribute ++ "'").

(** [v.get(key, default)]: only a dict has the method. *)
Definition get_default (v : pyval) (key : string) (default : pyval) : result pyval :=
  match v with
  | VDict entries =>
      match lookup key entries with
      | Some x => Ok x
      | None => Ok default
      end
  | _ => Raise (AttributeError v "get")
  end.

(** [v == s] for a str [s]. *)
Definition is_str (v : pyval) (s : string) : bool :=
  match v with
  | VStr t => String.eqb t s
  | _ => false
  end.

(** A comprehension or an appending loop whose body can raise: the
    first exception ends it. *)
Fixpoint map_result {A B : Type} (f : A -> result B) (l : list A) : result (list B) :=
  match l with
  | [] => Ok []
  | x :: rest =>
      (y <- f x ;; ys <- map_result f rest ;; Ok (y :: ys))%result
  end.

(** A loop that appends several items per round. *)
Fixpoint flat_map_result {A B : Type} (f : A -> result (list B)) (l : list A)
  : result (list B) :=
  match l with
  | [] => Ok []
  | x :: rest =>
      (ys <- f x ;; zs <- flat_map_result f rest ;; Ok (ys ++ zs)%list)%result
  end.

(** [try: m except Exception as e: handler(e)] *)
Definition catch {E A : Type} (m : Run E A) (handler : pyexn -> Run E A) : Run E A :=
  fun log =>
    match m log with
    | (log', Some (Raise e)) => handler e log'
    | (log', Some (Ok a)) => (log', Some (Ok a))
    | (log', None) => (log', None)
    end.

(** What is left to the interpreter: the str methods (which follow
    Unicode), the length of a str in characters, [round(d / 60, 2)], and
    [+] on operands that are not two lists. *)
Class Interpreter : Type :=
  { strip : string -> string;
    upper : string -> string;
    lower : string -> string;
    title : string -> string;
    isalpha : string -> bool;
    str_len : string -> nat;
    round_hours : pyval -> result pyval;
    add_other : pyval -> pyval -> result pyval }.

(** [len(v)] *)
Definition py_len `{I : Interpreter} (v : pyval) : result pyval :=
  match v with
  | VList items => Ok (VInt (Z.of_nat (length items)))
  | VDict entries => Ok (VInt (Z.of_nat (length entries)))
  | VStr s => Ok (VInt (Z.of_nat (str_len s)))
  | _ => Raise (TypeError ("object of type '" ++ type_name v ++ "' has no len()"))
  end.

(** [a + b] *)
Definition py_add `{I : Interpreter} (a b : pyval) : result pyval :=
  match a, b with
  | VList x, VList y => Ok (VList (x ++ y))
  | _, _ => add_other a b
  end.

End Interp.

(** ** flight_agent/tools/search_flights_tool.py: the functions that go
    to the network *)

Module ProviderCalls.
Import Interp.

(** [requests.get(url, params=..., headers=..., timeout=...)] *)
Record HttpRequest : Type :=
  Get { url : string;
        params : list (string * pyval);
        headers : list (string * string);
        timeout : Z }.

(** The response, as far as the module reads it: [resp.status_code],
    [resp.text] and what [resp.json()] returns or raises. *)
Record HttpResponse : Type :=
  { status_code : Z; resp_text : string; resp_json : result pyval }.

(** The environment variables and the network. *)
Class Network : Type :=
  { getenv : string -> option string;
    requests_get : list HttpRequest -> HttpRequest -> result HttpResponse }.

(** [{"error": message}] *)
Definition error_dict (message : string) : pyval :=
  VDict [("error", VStr message)].

(** The arguments of [search_google_flights_serpapi], bound. *)
Record SerpApiArgs : Type :=
  { serp_origin : pyval; serp_destination : pyval;
    serp_departure_date : pyval; serp_return_date : pyval;
    serp_adults : pyval; serp_currency : pyval;
    serp_hl : pyval; serp_gl : pyval; serp_preferences : pyval }.

Section Calls.
Context `{B : Builtins} `{I : Interpreter} `{N : Network}.

Definition http_get (request : HttpRequest) : Run HttpRequest HttpResponse :=
  ask request (fun log => requests_get log request).

(** *** search_flights_sky_scrapper (lines 13-73) *)

(** Lines 35-37. *)
Definition sky_url (a : SearchFlightsTool.SkyScrapperArgs) : string :=
  "https://sky-scrapper.p.rapidapi.com/api/v2/flights/searchFlights?originSkyId="
  ++ py_str (SearchFlightsTool.originSkyId a)
  ++ "&destinationSkyId=" ++ py_str (SearchFlightsTool.destinationSkyId a)
  ++ "&originEntityId=" ++ py_str (SearchFlightsTool.originEntityId a)
  ++ "&destinationEntityId=" ++ py_str (SearchFlightsTool.destinationEntityId a)
  ++ "&cabinClass=" ++ py_str (SearchFlightsTool.sky_cabinClass a)
  ++ "&adults=" ++ py_str (SearchFlightsTool.sky_adults a)
  ++ "&sortBy=" ++ py_str (SearchFlightsTool.sky_sortBy a)
  ++ "&currency=" ++ py_str (SearchFlightsTool.sky_currency a)
  ++ "&market=" ++ py_str (SearchFlightsTool.sky_market a)
  ++ "&countryCode=" ++ py_str (SearchFlightsTool.sky_countryCode a)
  ++ "&date=" ++ py_str (SearchFlightsTool.sky_departure_date a)
  ++ (if py_truthy (SearchFlightsTool.sky_return_date a)
      then "&returnDate=" ++ py_str (SearchFlightsTool.sky_return_date a)
      else "").

Definition rapidapi_headers (api_key : string) : list (string * string) :=
  [("x-rapidapi-host", "sky-scrapper.p.rapidapi.com"); ("x-rapidapi-key", api_key)].

(** Lines 57-68: one entry of the provider's list, as a flight. *)
Definition sky_flight (f : pyval) : result pyval :=
  (airline <- get_default f "airline" (VStr "N/A") ;;
   origin <- get_default f "origin" (VStr "N/A") ;;
   destination <- get_default f "destination" (VStr "N/A") ;;
   departure_time <- get_default f "departureTime" (VStr "N/A") ;;
   arrival_time <- get_default f "arrivalTime" (VStr "N/A") ;;
   duration_hours <- get_default f "duration" VNone ;;
   stops <- get_default f "stops" (VInt 0) ;;
   price_usd <- get_default f "price" VNone ;;
   currency <- get_default f "currency" (VStr "USD") ;;
   notes <- get_default f "flightNumber" (VStr "") ;;
   Ok (VDict [("airline", airline); ("origin", origin); ("destination", destination);
              ("departure_time", departure_time); ("arrival_time", arrival_time);
              ("duration_hours", duration_hours); ("stops", stops);
              ("price_usd", price_usd); ("currency", currency); ("notes", notes)]))%result.

Definition sky_summary (a : SearchFlightsTool.SkyScrapperArgs) (flights : list pyval)
  : string :=
  "Found " ++ nat_str (length flights) ++ " flights from "
  ++ py_str (SearchFlightsTool.originSkyId a) ++ " to "
  ++ py_str (SearchFlightsTool.destinationSkyId a) ++ " on "
  ++ py_str (SearchFlightsTool.sky_departure_date a) ++ ".".

(** Lines 46-70: from the parsed body to the result. *)
Definition sky_result (a : SearchFlightsTool.SkyScrapperArgs) (data : pyval)
  : result pyval :=
  match data with
  | VDict entries =>
      match lookup "data" entries with
      | Some (VList items) =>
          (flights <- map_result sky_flight items ;;
           Ok (VDict [("flights", VList flights);
                      ("summary", VStr (sky_summary a flights))]))%result
      | _ =>
          Ok (error_dict ("Sky Scrapper API response missing 'data' list: " ++ py_str data))
      end
  | _ => Ok (error_dict ("Sky Scrapper API returned non-JSON or string: " ++ py_str data))
  end.

Definition search_flights_sky_scrapper (a : SearchFlightsTool.SkyScrapperArgs)
  : Run HttpRequest pyval :=
  match getenv "FLIGHTS_SCRAPER_SKY_API_KEY" with
  | None | Some EmptyString => ret (error_dict "Sky Scrapper API key not set in .env")
  | Some api_key =>
      catch
        (resp <- http_get (Get (sky_url a) [] (rapidapi_headers api_key) 30) ;;
         if negb (Z.eqb (status_code resp) 200) then
           ret (error_dict ("Sky Scrapper API error: " ++ resp_text resp))
         else
           data <- lift (resp_json resp) ;;
           lift (sky_result a data))%run
        (fun e => ret (error_dict ("Sky Scrapper API exception: " ++ exn_text e)))
  end.

(** *** lookup_sky_scrapper_location (lines 76-123) *)

Definition airport_url (q : string) : string :=
  "https://sky-scrapper.p.rapidapi.com/api/v1/flights/searchAirport?query="
  ++ q ++ "&locale=en-US".

(** Lines 110-116. *)
Definition location_of (loc : pyval) : result SearchFlightsTool.Location :=
  (name <- get_default loc "name" VNone ;;
   iata <- get_default loc "iata" VNone ;;
   skyId <- get_default loc "skyId" VNone ;;
   entityId <- get_default loc "entityId" VNone ;;
   type_ <- get_default loc "type" VNone ;;
   Ok {| SearchFlightsTool.name := name; SearchFlightsTool.iata := iata;
         SearchFlightsTool.skyId := skyId; SearchFlightsTool.entityId := entityId;
         SearchFlightsTool.type_ := type_ |})%result.

(** Lines 107-116: the locations in a parsed body. *)
Definition locations_in (data : pyval) : result (list SearchFlightsTool.Location) :=
  (listed <- get_default data "data" (VList []) ;;
   items <- iterate listed ;;
   map_result location_of items)%result.

(** The body of the [for] (lines 95-122) for one query: the locations
    when there are some, nothing when the round ends in
    [tried.append(q)]. *)
Definition lookup_attempt (api_key q : string)
  : Run HttpRequest (option (list SearchFlightsTool.Location)) :=
  catch
    (resp <- http_get (Get (airport_url q) [] (rapidapi_headers api_key) 15) ;;
     if negb (Z.eqb (status_code resp) 200) then ret None
     else
       data <- lift (resp_json resp) ;;
       results <- lift (locations_in data) ;;
       match results with
       | [] => ret None
       | _ :: _ => ret (Some results)
       end)%run
    (fun _ => ret None).

Definition not_found (query : string) (tried : list string) : string :=
  "Sky Scrapper could not find location for: " ++ query
  ++ " (tried: " ++ py_str (VList (map VStr tried)) ++ ")".

(** The [for] over [queries], with [tried] so far. *)
Fixpoint lookup_queries (api_key query : string) (queries tried : list string)
  : Run HttpRequest SearchFlightsTool.LookupInfo :=
  match queries with
  | [] => ret (SearchFlightsTool.InfoError (not_found query tried))
  | q :: rest =>
      (found <- lookup_attempt api_key q ;;
       match found with
       | Some results => ret (SearchFlightsTool.InfoResults results)
       | None => lookup_queries api_key query rest (tried ++ [q])
       end)%run
  end.

(** Lines 88-93. *)
Definition queries_for (query : string) : list string :=
  if Nat.eqb (str_len (strip query)) 3 && isalpha query
  then [upper (strip query); title (strip query)]
  else [upper (strip query); title (strip query)].

Definition lookup_sky_scrapper_location (query : pyval)
  : Run HttpRequest SearchFlightsTool.LookupInfo :=
  match getenv "FLIGHTS_SCRAPER_SKY_API_KEY" with
  | None | Some EmptyString =>
      ret (SearchFlightsTool.InfoError "Sky Scrapper API key not set in .env")
  | Some api_key =>
      match query with
      | VStr s => lookup_queries api_key s (queries_for s) []
      | _ => lift (Raise (AttributeError query "strip"))
      end
  end.

(** *** search_google_flights_serpapi (lines 178-241) *)

(** Lines 196-212. *)
Definition serp_params (api_key : string) (a : SerpApiArgs) : list (string * pyval) :=
  [("engine", VStr "google_flights"); ("api_key", VStr api_key);
   ("departure_id", serp_origin a); ("arrival_id", serp_destination a);
   ("outbound_date", serp_departure_date a); ("adults", serp_adults a);
   ("currency", serp_currency a); ("hl", serp_hl a); ("gl", serp_gl a);
   ("output", VStr "json")]
  ++ (if py_truthy (serp_return_date a)
      then [("return_date", serp_return_date a); ("type", VInt 1)]
      else [("type", VInt 2)]).

(** Lines 225-236: one flight of one group. *)
Definition serp_flight (a : SerpApiArgs) (group f : pyval) : result pyval :=
  (airline <- get_default f "airline" (VStr "N/A") ;;
   departure_airport <- get_default f "departure_airport" (VDict []) ;;
   origin <- get_default departure_airport "id" (VStr "N/A") ;;
   arrival_airport <- get_default f "arrival_airport" (VDict []) ;;
   destination <- get_default arrival_airport "id" (VStr "N/A") ;;
   departure_airport <- get_default f "departure_airport" (VDict []) ;;
   departure_time <- get_default departure_airport "time" (VStr "N/A") ;;
   arrival_airport <- get_default f "arrival_airport" (VDict []) ;;
   arrival_time <- get_default arrival_airport "time" (VStr "N/A") ;;
   duration <- get_default f "duration" VNone ;;
   duration_hours <-
     (if py_truthy duration
      then (minutes <- get_default f "duration" (VInt 0) ;; round_hours minutes)
      else Ok VNone) ;;
   layovers <- get_default group "layovers" (VList []) ;;
   stops <- py_len layovers ;;
   price_usd <- get_default group "price" VNone ;;
   notes <- get_default f "flight_number" (VStr "") ;;
   Ok (VDict [("airline", airline); ("origin", origin); ("destination", destination);
              ("departure_time", departure_time); ("arrival_time", arrival_time);
              ("duration_hours", duration_hours); ("stops", stops);
              ("price_usd", price_usd); ("currency", serp_currency a);
              ("notes", notes)]))%result.

(** Lines 224-236: the flights of one group. *)
Definition serp_group (a : SerpApiArgs) (group : pyval) : result (list pyval) :=
  (listed <- get_default group "flights" (VList []) ;;
   fs <- iterate listed ;;
   map_result (serp_flight a group) fs)%result.

Definition serp_summary (a : SerpApiArgs) (flights : list pyval) : string :=
  "Found " ++ nat_str (length flights) ++ " flights from "
  ++ py_str (serp_origin a) ++ " to " ++ py_str (serp_destination a)
  ++ " on " ++ py_str (serp_departure_date a) ++ " (Google Flights).".

(** Lines 218-238: from the parsed body to the result. *)
Definition serp_result (a : SerpApiArgs) (data : pyval) : result pyval :=
  (search_metadata <- get_default data "search_metadata" (VDict []) ;;
   status <- get_default search_metadata "status" VNone ;;
   if negb (is_str status "Success") then
     search_metadata <- get_default data "search_metadata" (VDict []) ;;
     status <- get_default search_metadata "status" (VStr "Unknown error") ;;
     Ok (error_dict ("SerpApi search failed: " ++ py_str status))
   else
     best_flights <- get_default data "best_flights" (VList []) ;;
     other_flights <- get_default data "other_flights" (VList []) ;;
     both <- py_add best_flights other_flights ;;
     groups <- iterate both ;;
     flights <- flat_map_result (serp_group a) groups ;;
     Ok (VDict [("flights", VList flights);
                ("summary", VStr (serp_summary a flights))]))%result.

Definition search_google_flights_serpapi (a : SerpApiArgs) : Run HttpRequest pyval :=
  match getenv "SERPAPI_KEY" with
  | None | Some EmptyString => ret (error_dict "SerpApi API key not set in .env")
  | Some api_key =>
      catch
        (resp <- http_get (Get "https://serpapi.com/search" (serp_params api_key a) [] 30) ;;
         if negb (Z.eqb (status_code resp) 200) then
           ret (error_dict ("SerpApi error: " ++ resp_text resp))
         else
           data <- lift (resp_json resp) ;;
           lift (serp_result a data))%run
        (fun e => ret (error_dict ("SerpApi Google Flights exception: " ++ exn_text e)))
  end.

(** *** The two functions as [unified_search_flights] sees them *)

(** What a call returns, started on a network that has seen nothing. *)
Definition outcome_of {A : Type} (m : Run HttpRequest A) : result A :=
  match snd (m []) with
  | Some r => r
  | None => Raise (Exn "RuntimeError" "the call did not end")
  end.

(** The providers of [SearchFlightsTool], made of the functions above,
    for a network whose answers depend on the requests of the call at
    hand. *)
Definition http_providers : SearchFlightsTool.Providers :=
  {| SearchFlightsTool.lookup_sky_scrapper_location :=
       fun _ query => outcome_of (lookup_sky_scrapper_location query);
     SearchFlightsTool.search_flights_sky_scrapper :=
       fun _ args => outcome_of (search_flights_sky_scrapper args) |}.

End Calls.

End ProviderCalls.

(** ** The hosts of the agent: config.py, the constructor and
    [_run_async_impl] of agent.py, app.py and main.py *)

Module Hosts.
Import Interp Agent.

(** *** flight_agent/config.py *)

Definition AGENT_NAME : string := "flight_search_assistant_vertex".

Definition AGENT_SYSTEM_INSTRUCTION : string :=
  "Your SOLE first task is to call the 'search_flights' tool. Do NOT ask questions. Do NOT respond with text. Extract parameters from the user's query and call 'search_flights' IMMEDIATELY."
  ++ nl
  ++ "After 'search_flights' is called, your SOLE second task is to call 'search_google_flights'. Do NOT ask questions. Do NOT respond with text. Use parameters from the user's query and call 'search_google_flights' IMMEDIATELY."
  ++ nl
  ++ "After BOTH tools are called, then and ONLY then, analyze their combined results and provide a text summary to the user.".

(** What the constructor calls outside the repository, each of which
    returns or raises: [BaseAgent.__init__(name=name)] (line 30), and
    [GenerativeModel(model_name, system_instruction=[Part.from_text(
    instruction)])] (lines 37-40). *)
Class Framework : Type :=
  { BaseAgent_init : string -> result unit;
    GenerativeModel : pyval -> string -> result unit }.

(** What the constructor leaves behind: the name, the model name given
    to [GenerativeModel], and the agent with no session yet. *)
Record Constructed : Type :=
  { agent_name : string; model_name : pyval; agent : FlightSearchAgent }.

(** An event of the ADK, as [_run_async_impl] builds it:
    [Event(author=..., content={"parts": [{"text": ...}]}, partial=...)]. *)
Record AdkEvent : Type :=
  { author : string; event_text : pyval; partial : bool }.

(** The context of an invocation, as [_run_async_impl] probes it.  The
    three text attributes hold a str when they are there ([None]: no
    such attribute, or None); [user_content] is the list of its parts
    when it has one; [ctx_dict] is [ctx.__dict__] when there is one. *)
Record InvocationContext : Type :=
  { user_input : option string;
    input : option string;
    query : option string;
    user_content : option (list Part);
    ctx_dict : option (list (string * pyval)) }.

(** What main.py writes to the terminal, one item per [print] or
    prompt. *)
Definition Transcript : Type := list string.

Definition prompt : string := nl ++ "Please enter your flight search query: ".

Definition welcome : string :=
  "Welcome to the Flight Search Assistant! Type 'exit' to quit.".

(** [bool(user_query)] for a str or None. *)
Definition found (user_query : option string) : bool :=
  match user_query with
  | Some (String _ _) => true
  | _ => false
  end.

(** Line 160: the texts of the parts that have one. *)
Fixpoint part_texts (ps : list Part) : list string :=
  match ps with
  | [] => []
  | part :: rest =>
      match text part with
      | Some (String c t) => String c t :: part_texts rest
      | _ => part_texts rest
      end
  end.

Section Hosts.
Context `{B : Builtins} `{I : Interpreter} `{N : ProviderCalls.Network} `{W : World}
  `{F : Framework}.

(** [os.getenv(name, default)] *)
Definition getenv_default (name : string) (default : pyval) : pyval :=
  match ProviderCalls.getenv name with
  | Some value => VStr value
  | None => default
  end.

Definition GOOGLE_CLOUD_PROJECT : pyval := getenv_default "GOOGLE_CLOUD_PROJECT" VNone.

Definition GOOGLE_CLOUD_LOCATION : pyval :=
  getenv_default "GOOGLE_CLOUD_LOCATION" (VStr "us-central1").

Definition GEMINI_MODEL_NAME : pyval :=
  getenv_default "GEMINI_MODEL_NAME" (VStr "gemini-1.5-pro-latest").

Definition get_config : dict :=
  [("GOOGLE_CLOUD_PROJECT", GOOGLE_CLOUD_PROJECT);
   ("GOOGLE_CLOUD_LOCATION", GOOGLE_CLOUD_LOCATION);
   ("GEMINI_MODEL_NAME", GEMINI_MODEL_NAME);
   ("AGENT_NAME", VStr AGENT_NAME);
   ("AGENT_SYSTEM_INSTRUCTION", VStr AGENT_SYSTEM_INSTRUCTION)].

(** *** flight_agent/agent.py: the constructor (lines 29-42) *)

Definition FlightSearchAgent_init (name : string) : result Constructed :=
  (base <- BaseAgent_init name ;;
   let config := get_config in
   if negb (py_truthy (dict_get config "GOOGLE_CLOUD_PROJECT"))
      || negb (py_truthy (dict_get config "GOOGLE_CLOUD_LOCATION"))
   then
     Raise (Exn "ValueError"
              "GOOGLE_CLOUD_PROJECT and GOOGLE_CLOUD_LOCATION must be set in environment or .env file for Vertex AI.")
   else
     model <- getitem (VDict config) "GEMINI_MODEL_NAME" ;;
     generative_model <- GenerativeModel model AGENT_SYSTEM_INSTRUCTION ;;
     Ok {| agent_name := name; model_name := model; agent := {| chat := None |} |})%result.

(** *** flight_agent/agent.py: [_run_async_impl] (lines 138-176) *)

(** Lines 164-170: the first value of [ctx.__dict__] that is a str with
    something left once stripped. *)
Fixpoint first_text (items : list (string * pyval)) : option string :=
  match items with
  | [] => None
  | (_, VStr v) :: rest =>
      if py_truthy (VStr (strip v)) then Some v else first_text rest
  | _ :: rest => first_text rest
  end.

(** Lines 150-170. *)
Definition find_user_query (ctx : InvocationContext) : option string :=
  let user_query := user_input ctx in
  let user_query :=
    if negb (found user_query)
    then match input ctx with Some v => Some v | None => user_query end
    else user_query in
  let user_query :=
    if negb (found user_query)
    then match query ctx with Some v => Some v | None => user_query end
    else user_query in
  let user_query :=
    if negb (found user_query)
    then match user_content ctx with
         | Some (part :: rest) =>
             match part_texts (part :: rest) with
             | [] => user_query
             | texts => Some (String.concat nl texts)
             end
         | _ => user_query
         end
    else user_query in
  if negb (found user_query)
  then match ctx_dict ctx with
       | Some items =>
           match first_text items with
           | Some v => Some v
           | None => user_query
           end
       | None => user_query
       end
  else user_query.

(** The agent afterwards and the events yielded ([None]: the loop of
    [process_query] was still running when the fuel was spent). *)
Definition run_async_impl (fuel : nat) (self : Constructed) (ctx : InvocationContext)
  : Constructed * option (list AdkEvent) :=
  match find_user_query ctx with
  | Some (String c q) =>
      let user_query := String c q in
      match process_query fuel (agent self) user_query with
      | (after, Some outcome) =>
          ({| agent_name := agent_name self; model_name := model_name self; agent := after |},
           Some [ {| author := agent_name self; event_text := returned outcome;
                     partial := false |} ])
      | (after, None) =>
          ({| agent_name := agent_name self; model_name := model_name self; agent := after |},
           None)
      end
  | _ =>
      (self,
       Some [ {| author := agent_name self;
                 event_text := VStr "No user query found in context.";
                 partial := false |} ])
  end.

(** *** app.py *)




(** *** main.py *)

(** [user_query.strip().lower() in ("exit", "quit")] *)
Definition leaves (user_query : string) : bool :=
  String.eqb (lower (strip user_query)) "exit"
  || String.eqb (lower (strip user_query)) "quit".

(** The [while True] of [main], on the lines the user types: the agent
    and the transcript afterwards, and how the loop ends: normally, with
    [EOFError] when the input runs out, or not within the fuel of one
    query ([None]). *)
Fixpoint repl (fuel : nat) (lines : list string) (self : FlightSearchAgent)
  (out : Transcript) : FlightSearchAgent * Transcript * option (result unit) :=
  match lines with
  | [] => (self, (out ++ [prompt])%list, Some (Raise (Exn "EOFError" "EOF when reading a line")))
  | user_query :: rest =>
      if leaves user_query then
        (self, (out ++ [prompt; "Goodbye!"])%list, Some (Ok tt))
      else
        match process_query fuel self user_query with
        | (after, Some outcome) =>
            repl fuel rest after
              (out ++ [prompt;
                       (nl ++ "--- Assistant's Response ---")%string;
                       py_str (returned outcome);
                       "---------------------------"])%list
        | (after, None) => (after, (out ++ [prompt])%list, None)
        end
  end.

Definition main (fuel : nat) (lines : list string)
  : option FlightSearchAgent * Transcript * option (result unit) :=
  match FlightSearchAgent_init "flight_agent" with
  | Raise e => (None, [], Some (Raise e))
  | Ok built =>
      match repl fuel lines (agent built) [welcome] with
      | (after, out, ending) => (Some after, out, ending)
      end
  end.

End Hosts.

End Hosts.

(** ** What the two tool functions return *)

Module ToolResults.

(** A flight the agent can list: the nine fields line 121 of agent.py
    reads are there. *)
Definition listable (f : pyval) : bool :=
  match Agent.flight_fields f with
  | Ok _ => true
  | Raise _ => false
  end.

Definition nonempty (s : string) : bool :=
  match s with
  | EmptyString => false
  | String _ _ => true
  end.

(** The two shapes the tool functions build: [{"error": message}] with
    a message that is not empty, and [{"flights": [...], "summary": ...}]
    with flights that can be listed and a summary that is not empty. *)
Definition tool_result (v : pyval) : bool :=
  match v with
  | VDict [(k, VStr message)] => String.eqb k "error" && nonempty message
  | VDict [(k1, VList flights); (k2, VStr summary)] =>
      String.eqb k1 "flights" && String.eqb k2 "summary"
      && nonempty summary && forallb listable flights
  | _ => false
  end.

(** [item.get(key, default)] on a dict. *)
Definition get_or (item : dict) (key : string) (default : pyval) : pyval :=
  match lookup key item with
  | Some x => x
  | None => default
  end.

End ToolResults.

(** ** Scripted networks, to run the provider functions on *)

Module NetScenarios.
Import Interp ProviderCalls.

Definition ascii_upper (c : ascii) : ascii :=
  let n := nat_of_ascii c in
  if (97 <=? n)%nat && (n <=? 122)%nat then ascii_of_nat (n - 32) else c.

Fixpoint upper_ascii (s : string) : string :=
  match s with
  | EmptyString => EmptyString
  | String c t => String (ascii_upper c) (upper_ascii t)
  end.

Definition ascii_lower (c : ascii) : ascii :=
  let n := nat_of_ascii c in
  if (65 <=? n)%nat && (n <=? 90)%nat then ascii_of_nat (n + 32) else c.

Fixpoint lower_ascii (s : string) : string :=
  match s with
  | EmptyString => EmptyString
  | String c t => String (ascii_lower c) (lower_ascii t)
  end.

(** An interpreter for texts in ASCII with no blanks around them and
    already in title case. *)
Definition ascii_interpreter : Interpreter :=
  {| strip := fun s => s;
     upper := upper_ascii;
     lower := lower_ascii;
     title := fun s => s;
     isalpha := fun _ => true;
     str_len := String.length;
     round_hours := fun _ => Ok (VFloat "7" ".25");
     add_other := fun _ _ => Raise (TypeError "unsupported operand type(s) for +") |}.

Definition answer (status : Z) (body : string) (parsed : result pyval) : HttpResponse :=
  {| status_code := status; resp_text := body; resp_json := parsed |}.

Definition not_json : result pyval :=
  Raise (Exn "JSONDecodeError" "Expecting value: line 1 column 1 (char 0)").

Definition keys (name : string) : option string :=
  if String.eqb name "FLIGHTS_SCRAPER_SKY_API_KEY" then Some "sky-key"
  else if String.eqb name "SERPAPI_KEY" then Some "serp-key"
  else if String.eqb name "GOOGLE_CLOUD_PROJECT" then Some "my-project"
  else None.

(** No variable of the environment is set. *)
Definition bare : Network :=
  {| getenv := fun _ => None;
     requests_get := fun _ _ => Ok (answer 200 "{}" (Ok (VDict []))) |}.

(** The keys are set and every request fails on the way. *)
Definition offline : Network :=
  {| getenv := keys;
     requests_get := fun _ _ => Raise (Exn "ConnectionError" "Max retries exceeded") |}.

(** The keys are set and every request is answered with [response]. *)
Definition answering (response : HttpResponse) : Network :=
  {| getenv := keys; requests_get := fun _ _ => Ok response |}.

Definition sky_items : list dict :=
  [[("airline", VStr "British Airways"); ("origin", VStr "JFK");
    ("destination", VStr "LHR");
    ("departureTime", VStr "2025-06-01T18:30");
    ("arrivalTime", VStr "2025-06-02T06:45");
    ("duration", VInt 435); ("stops", VInt 0);
    ("price", VInt 612); ("flightNumber", VStr "BA112")];
   [("airline", VStr "Icelandair")]].

Definition sky_entries : dict :=
  [("status", VBool true); ("data", VList (map VDict sky_items))].

Definition sky_body : pyval := VDict sky_entries.

(** The same with an entry that is not an object. *)
Definition sky_entries_spoilt : dict :=
  [("data", VList (map VDict sky_items ++ [VStr "n/a"]))].

Definition sky_args : SearchFlightsTool.SkyScrapperArgs :=
  {| SearchFlightsTool.originSkyId := VStr "NYCA";
     SearchFlightsTool.destinationSkyId := VStr "LOND";
     SearchFlightsTool.originEntityId := VStr "27537542";
     SearchFlightsTool.destinationEntityId := VStr "27544008";
     SearchFlightsTool.sky_departure_date := VStr "2025-06-01";
     SearchFlightsTool.sky_return_date := VNone;
     SearchFlightsTool.sky_cabinClass := VStr "economy";
     SearchFlightsTool.sky_adults := VInt 1;
     SearchFlightsTool.sky_sortBy := VStr "best";
     SearchFlightsTool.sky_currency := VStr "USD";
     SearchFlightsTool.sky_market := VStr "en-US";
     SearchFlightsTool.sky_countryCode := VStr "US";
     SearchFlightsTool.sky_preferences := VNone |}.

Definition city : dict :=
  [("name", VStr "London"); ("skyId", VStr "LOND");
   ("entityId", VStr "27544008"); ("type", VStr "CITY")].

Definition airport : dict :=
  [("name", VStr "London Heathrow"); ("iata", VStr "LHR");
   ("skyId", VStr "LHR"); ("entityId", VStr "95565050");
   ("type", VStr "AIRPORT")].

Definition airports_entries : dict := [("data", VList (map VDict [city; airport]))].

Definition airports_body : pyval := VDict airports_entries.

(** Only the query in title case is known to the provider. *)
Definition title_only : Network :=
  {| getenv := keys;
     requests_get := fun _ request =>
       if String.eqb (url request) (airport_url "London")
       then Ok (answer 200 "..." (Ok airports_body))
       else Ok (answer 200 "..." (Ok (VDict [("data", VList [])]))) |}.

Definition serp_args : SerpApiArgs :=
  {| serp_origin := VStr "JFK"; serp_destination := VStr "LHR";
     serp_departure_date := VStr "2025-06-01"; serp_return_date := VNone;
     serp_adults := VInt 1; serp_currency := VStr "USD";
     serp_hl := VStr "en"; serp_gl := VStr "us"; serp_preferences := VNone |}.

Definition leg (airline number from to : string) (minutes : Z) : pyval :=
  VDict [("airline", VStr airline); ("flight_number", VStr number);
         ("departure_airport", VDict [("id", VStr from); ("time", VStr "2025-06-01 18:30")]);
         ("arrival_airport", VDict [("id", VStr to); ("time", VStr "2025-06-02 06:45")]);
         ("duration", VInt minutes)].

Definition via_keflavik : dict :=
  [("flights", VList [leg "Icelandair" "FI 614" "JFK" "KEF" 330;
                      leg "Icelandair" "FI 450" "KEF" "LHR" 190]);
   ("layovers", VList [VDict [("name", VStr "Keflavik")]]);
   ("price", VInt 540)].

Definition direct : dict :=
  [("flights", VList [leg "British Airways" "BA 112" "JFK" "LHR" 435]);
   ("price", VInt 612)].

Definition serp_entries : dict :=
  [("search_metadata", VDict [("status", VStr "Success")]);
   ("best_flights", VList [VDict via_keflavik]);
   ("other_flights", VList [VDict direct])].

Definition serp_body : pyval := VDict serp_entries.

End NetScenarios.

(** ** More scripted worlds, and what is read off a log *)

Module MoreScenarios.
Import Agent Scenarios.

(** The user queries a log holds, in the order they were sent. *)
Fixpoint queries_sent (log : Log) : list string :=
  match log with
  | [] => []
  | EvSend (UserQuery user_query) _ :: rest => user_query :: queries_sent rest
  | _ :: rest => queries_sent rest
  end.

(** The calls of tool functions a log holds. *)
Fixpoint calls (log : Log) : nat :=
  match log with
  | [] => 0
  | EvCall _ _ :: rest => S (calls rest)
  | EvSend _ _ :: rest => calls rest
  end.

(** A part as the SDK hands it over: the response of its function
    response, when it has one, is a [MapComposite]. *)
Definition of_the_sdk (part : Part) : bool :=
  match function_response part with
  | Some fr =>
      match fr_response fr with
      | MapComposite _ => true
      | Plain _ => false
      end
  | None => true
  end.

(** The texts of the parts that have one, the empty ones left out. *)
Fixpoint said (ps : list Part) : list string :=
  match ps with
  | [] => []
  | part :: rest =>
      match text part with
      | Some (String c t) => String c t :: said rest
      | _ => said rest
      end
  end.

(** The model asks for [search_flights] whatever it is sent. *)
Definition insisting_world : World :=
  {| send_message_async := fun _ _ _ => Ok (reply [asks_for "search_flights" trip]);
     unified_search_flights := fun _ _ => Ok no_flights;
     search_google_flights_serpapi := fun _ _ => Ok no_flights |}.

(** The model leaves out the date, and the call of the function fails. *)
Definition missing_argument : pyexn :=
  TypeError "unified_search_flights() missing 1 required positional argument: 'departure_date'".

Definition failing_tool_world : World :=
  scripted [Ok (reply [asks_for "search_flights" [("origin", VStr "NYC");
                                                   ("destination", VStr "LON")]])]
    (Raise missing_argument) (Ok no_flights).

(** A final response that echoes a result whose second flight has no
    airline. *)
Definition broken_flights : list pyval :=
  [flight "British Airways" "JFK" "LHR" "2025-06-01 18:30" "2025-06-02 06:45" 0
     (VInt 612) "BA112";
   VDict [("origin", VStr "JFK"); ("destination", VStr "LHR")]].

Definition broken_reply : GenerationResponse :=
  reply [says "Here is what I found.";
         echoes "search_flights" [("flights", VList broken_flights)]].

(** The model answers every query with the same sentence. *)
Definition polite_world : World :=
  {| send_message_async := fun _ _ _ => Ok (reply [says "Noted."]);
     unified_search_flights := fun _ _ => Ok no_flights;
     search_google_flights_serpapi := fun _ _ => Ok no_flights |}.

End MoreScenarios.

(** ** Hosts to run *)

Module HostScenarios.
Import Agent Hosts.

Definition built : Constructed :=
  {| agent_name := "flight_agent";
     model_name := VStr "gemini-1.5-pro-latest";
     agent := {| chat := None |} |}.

(** A context of the web UI: the query is in the parts of the content,
    and the other attributes are not there. *)
Definition web_context : InvocationContext :=
  {| user_input := None; input := None; query := None;
     user_content := Some [Scenarios.says "flights to Rome"; Scenarios.says "in May"];
     ctx_dict := Some [("session", VDict []); ("invocation_id", VStr "e-1")] |}.

(** A context with nothing to read. *)
Definition empty_context : InvocationContext :=
  {| user_input := Some ""; input := None; query := None;
     user_content := Some []; ctx_dict := None |}.

(** A framework that builds the agent and the model. *)
Definition vertex : Framework :=
  {| BaseAgent_init := fun _ => Ok tt; GenerativeModel := fun _ _ => Ok tt |}.

(** A framework on a machine with no credentials for Google Cloud. *)
Definition credentials_not_found : pyexn :=
  Exn "DefaultCredentialsError" "Your default credentials were not found.".

Definition no_credentials : Framework :=
  {| BaseAgent_init := fun _ => Ok tt;
     GenerativeModel := fun _ _ => Raise credentials_not_found |}.



Definition typed : list string := ["to Rome"; ""; "EXIT"; "to Oslo"].

End HostScenarios.

(** ** Facts about the Python values *)

Module PyFacts.

Lemma app_nonempty_r (a b : string) : b <> "" -> a ++ b <> "".
Proof.
  intros Hb; destruct a as [|c a]; simpl; [exact Hb | discriminate].
Qed.

Lemma app_nonempty_l (a b : string) : a <> "" -> a ++ b <> "".
Proof.
  intros Ha; destruct a as [|c a]; simpl; [congruence | discriminate].
Qed.

Lemma int_str_nonempty (z : Z) : NilZero.string_of_int (Z.to_int z) <> "".
Proof.
  destruct (Z.to_int z) as [d|d]; simpl; [|discriminate].
  unfold NilZero.string_of_uint; destruct d; simpl; discriminate.
Qed.

Lemma py_str_truthy `{Builtins} (v : pyval) : py_truthy v = true -> py_str v <> "".
Proof.
  destruct v as [|b|z|h t|s|items|entries]; simpl; intros Ht;
    try discriminate.
  - destruct b; discriminate.
  - apply int_str_nonempty.
  - destruct (String.eqb_spec s ""); [discriminate | assumption].
Qed.

Lemma concat_nonempty (sep t : string) (ts : list string) :
  Forall (fun s => s <> "") (t :: ts) -> String.concat sep (t :: ts) <> "".
Proof.
  intros Hall; inversion Hall as [|? ? Ht Hts]; subst.
  destruct ts as [|u ts]; simpl; [assumption | now apply app_nonempty_l].
Qed.

Lemma rbind_ok {A B : Type} (r : result A) (k : A -> result B) (b : B) :
  rbind r k = Ok b -> exists a, r = Ok a /\ k a = Ok b.
Proof.
  destruct r as [a|e]; simpl; intros Hk; [eauto | discriminate].
Qed.

Example py_str_samples :
  py_str (B := {| list_body := fun _ => ""; dict_body := fun _ => "" |}) (VInt (-12)) = "-12"
  /\ py_str (B := {| list_body := fun _ => ""; dict_body := fun _ => "" |}) (VInt 0) = "0"
  /\ py_str (B := {| list_body := fun _ => ""; dict_body := fun _ => "" |}) VNone = "None"
  /\ py_str (B := {| list_body := fun _ => ""; dict_body := fun _ => "" |})
       (VFloat "6" "12.5") = "612.5"
  /\ nat_str 10 = "10"
  /\ exn_text (KeyError "airline") = "'airline'".
Proof. repeat split. Qed.

Example py_truthy_samples :
  map py_truthy [VNone; VInt 0; VStr ""; VList []; VDict []; VFloat "0" ".0"; VBool false]
  = [false; false; false; false; false; false; false]
  /\ map py_truthy [VInt 7; VStr "0"; VList [VNone]; VDict [("k", VNone)]; VFloat "0" ".5"]
     = [true; true; true; true; true].
Proof. split; reflexivity. Qed.

End PyFacts.

(** ** The dialogue of agent.py *)

Module AgentSpec.
Import Agent PyFacts.

Section Properties.
Context `{B : Builtins} `{W : World}.

(** *** What the text parts are made of *)

Lemma format_flight_nonempty (idx : nat) (f : pyval) (line : string) :
  format_flight idx f = Ok line -> line <> "".
Proof.
  unfold format_flight; intros Hf.
  repeat (apply rbind_ok in Hf; destruct Hf as [? [_ Hf]]).
  injection Hf as <-.
  apply app_nonempty_r; simpl; discriminate.
Qed.

Lemma format_flights_nonempty (flights : list pyval) :
  forall (idx : nat) (lines : list string),
    format_flights idx flights = Ok lines -> Forall (fun s => s <> "") lines.
Proof.
  induction flights as [|f rest IH]; simpl; intros idx lines Hl.
  - injection Hl as <-; constructor.
  - apply rbind_ok in Hl; destruct Hl as [line [Hline Hl]].
    apply rbind_ok in Hl; destruct Hl as [lines' [Hrest Hl]].
    injection Hl as <-; constructor; eauto using format_flight_nonempty.
Qed.

Lemma render_payload_nonempty (payload : dict) (lines : list string) :
  render_payload payload = Ok lines -> Forall (fun s => s <> "") lines.
Proof.
  unfold render_payload.
  destruct (py_truthy (dict_get payload "error")) eqn:He.
  { intros Hl; injection Hl as <-; repeat constructor; simpl; discriminate. }
  destruct (py_truthy (dict_get payload "flights")) eqn:Hf.
  { intros Hl.
    apply rbind_ok in Hl; destruct Hl as [records [_ Hl]].
    apply rbind_ok in Hl; destruct Hl as [ls [Hls Hl]].
    injection Hl as <-; constructor; [discriminate|].
    apply Forall_app; split; [eauto using format_flights_nonempty|].
    destruct (py_truthy (dict_get payload "summary")); repeat constructor.
    simpl; discriminate. }
  destruct (py_truthy (dict_get payload "summary")) eqn:Hs;
    intros Hl; injection Hl as <-; repeat constructor.
  now apply py_str_truthy.
Qed.

Lemma part_text_parts_nonempty (part : Part) (lines : list string) :
  part_text_parts part = Ok lines -> Forall (fun s => s <> "") lines.
Proof.
  unfold part_text_parts.
  assert (Ht : Forall (fun s => s <> "")
                 match text part with
                 | Some t => if py_truthy (VStr t) then [t] else []
                 | None => []
                 end).
  { destruct (text part) as [t|]; [|constructor].
    destruct (py_truthy (VStr t)) eqn:Htruthy; repeat constructor.
    exact (py_str_truthy (VStr t) Htruthy). }
  destruct (function_response part) as [fr|];
    [destruct (fr_response fr) as [response|[| | | | | |payload]]|];
    try (intros Hl; injection Hl as <-; exact Ht).
  intros Hl; apply rbind_ok in Hl; destruct Hl as [rendered [Hr Hl]].
  injection Hl as <-; apply Forall_app; split; eauto using render_payload_nonempty.
Qed.

Lemma collect_text_parts_nonempty (ps : list Part) :
  forall lines, collect_text_parts ps = Ok lines -> Forall (fun s => s <> "") lines.
Proof.
  induction ps as [|part rest IH]; simpl; intros lines Hl.
  - injection Hl as <-; constructor.
  - apply rbind_ok in Hl; destruct Hl as [here [Hhere Hl]].
    apply rbind_ok in Hl; destruct Hl as [later [Hlater Hl]].
    injection Hl as <-; apply Forall_app; split; eauto using part_text_parts_nonempty.
Qed.

(** *** One turn of the loop *)

Lemma requested_call_first_part (p : Part) (ps : list Part) (cs : list Candidate) :
  requested_call {| candidates := {| parts := p :: ps |} :: cs |} = function_call p.
Proof. reflexivity. Qed.

Lemma tool_loop_final (fuel : nat) (response : GenerationResponse) (log : Log) :
  requested_call response = None ->
  tool_loop fuel response log = (log, Some (Ok response)).
Proof.
  intros Hnone; destruct fuel; simpl; rewrite Hnone; reflexivity.
Qed.

Lemma session_log_started (self : FlightSearchAgent) :
  session_log (match chat self with Some _ => self | None => start_session self end)
  = session_log self.
Proof. destruct self as [[log|]]; reflexivity. Qed.

(** How [process_query] wraps the body of its [try]. *)
Lemma process_query_dialogue (fuel : nat) (self : FlightSearchAgent) (user_query : string) :
  process_query fuel self user_query
  = match dialogue fuel user_query (session_log self) with
    | (log, Some (Ok outcome)) => ({| chat := Some log |}, Some outcome)
    | (log, Some (Raise e)) => ({| chat := Some log |}, Some (Failure e))
    | (log, None) => ({| chat := Some log |}, None)
    end.
Proof. unfold process_query; rewrite session_log_started; reflexivity. Qed.

(** The first message and its reply. *)
Lemma conversation_first_reply (fuel : nat) (user_query : string) (log : Log)
  (r : GenerationResponse) :
  send_message_async log (UserQuery user_query) (Some [SEARCH_FLIGHTS_VERTEX_TOOL]) = Ok r ->
  conversation fuel user_query log
  = tool_loop fuel r
      (log ++ [EvSend (UserQuery user_query) (Some [SEARCH_FLIGHTS_VERTEX_TOOL])])%list.
Proof.
  intros Hr; unfold conversation, bind, send, ask; rewrite Hr; reflexivity.
Qed.

(** What the caller can get: a string that is not empty, or, when the
    last response has no candidate or no part, nothing at all. *)
Lemma extract_final_text_outcome (response : GenerationResponse) (o : Outcome) :
  extract_final_text response = Ok o ->
  (exists s, returned o = VStr s /\ s <> "")
  \/ (o = Nothing
      /\ match candidates response with [] => True | c :: _ => parts c = [] end).
Proof.
  unfold extract_final_text.
  destruct (candidates response) as [|c cs]; [intros Ho; injection Ho as <-; auto|].
  destruct (parts c) as [|p ps] eqn:Hps; [intros Ho; injection Ho as <-; auto|].
  intros Ho; apply rbind_ok in Ho; destruct Ho as [text_parts [Hcollect Ho]].
  left; destruct text_parts as [|t ts]; injection Ho as <-; cbn [returned].
  - eexists; split; [reflexivity | discriminate].
  - eexists; split; [reflexivity|].
    apply (concat_nonempty (nl ++ nl) t ts); eauto using collect_text_parts_nonempty.
Qed.

Lemma process_query_outcome (fuel : nat) (self : FlightSearchAgent) (user_query : string)
  (o : Outcome) :
  snd (process_query fuel self user_query) = Some o ->
  (exists s, returned o = VStr s /\ s <> "") \/ o = Nothing.
Proof.
  rewrite process_query_dialogue; unfold dialogue, bind, lift.
  destruct (conversation fuel user_query (session_log self)) as [log [[response|e]|]];
    cbn [snd]; try discriminate.
  - destruct (extract_final_text response) as [o'|e] eqn:Hextract; cbn [snd];
      intros Ho; injection Ho as <-.
    + destruct (extract_final_text_outcome _ _ Hextract) as [Hs|[Hn _]]; auto.
    + left; eexists; split; [reflexivity | discriminate].
  - intros Ho; injection Ho as <-.
    left; eexists; split; [reflexivity | discriminate].
Qed.

(** C2, as the code has it: when the first part of the reply to the
    query carries no function call, no tool function is called and no
    further message is sent; the caller gets the text collected from
    that very reply, joined by blank lines (or the fixed apology when
    it yields no text, or the error text when collecting raises), and
    that string is never empty. *)
Theorem skipped_tool_step_answers_from_the_reply
  (fuel : nat) (self : FlightSearchAgent) (user_query : string)
  (r : GenerationResponse) (c : Candidate) (cs : list Candidate)
  (p : Part) (ps : list Part) :
  send_message_async (session_log self) (UserQuery user_query)
    (Some [SEARCH_FLIGHTS_VERTEX_TOOL]) = Ok r ->
  candidates r = c :: cs ->
  parts c = p :: ps ->
  function_call p = None ->
  let log := (session_log self
               ++ [EvSend (UserQuery user_query) (Some [SEARCH_FLIGHTS_VERTEX_TOOL])])%list in
  let outcome :=
    match collect_text_parts (p :: ps) with
    | Ok [] => Apology
    | Ok (t :: ts) => Answer (String.concat (nl ++ nl) (t :: ts))
    | Raise e => Failure e
    end in
  process_query fuel self user_query = ({| chat := Some log |}, Some outcome)
  /\ exists s, returned outcome = VStr s /\ s <> "".
Proof.
  intros Hr Hc Hp Hcall log outcome; split.
  - rewrite process_query_dialogue; unfold dialogue, bind.
    rewrite (conversation_first_reply _ _ _ _ Hr).
    rewrite tool_loop_final by (unfold requested_call; rewrite Hc, Hp; exact Hcall).
    unfold lift, extract_final_text; rewrite Hc, Hp; subst outcome log.
    destruct (collect_text_parts (p :: ps)) as [[|t ts]|e]; reflexivity.
  - subst outcome.
    destruct (collect_text_parts (p :: ps)) as [[|t ts]|e] eqn:Hcollect; cbn [returned].
    + eexists; split; [reflexivity | discriminate].
    + eexists; split; [reflexivity|].
      apply concat_nonempty; eauto using collect_text_parts_nonempty.
    + eexists; split; [reflexivity | discriminate].
Qed.

(** A turn on a function of the registry: the function is called with
    the arguments of the request, what it returns is wrapped under the
    same name and sent, and the loop goes on with the reply. *)
Lemma tool_loop_registered (fuel : nat) (response : GenerationResponse) (log : Log)
  (fc : FunctionCall) (function_to_call : ToolFunction) :
  requested_call response = Some fc ->
  lookup (fc_name fc) AVAILABLE_FLIGHT_TOOLS = Some function_to_call ->
  tool_loop (S fuel) response log
  = (tool_response_data <- call (fc_name fc) function_to_call (fc_args fc) ;;
     response <- send (ToolResult (from_function_response (fc_name fc) tool_response_data))
                   (if String.eqb (fc_name fc) "search_flights"
                    then Some [SEARCH_GOOGLE_FLIGHTS_VERTEX_TOOL] else None) ;;
     tool_loop fuel response)%run log.
Proof.
  intros Hreq Hfn; cbn [tool_loop]; rewrite Hreq, Hfn.
  unfold bind; destruct (call _ _ _ log) as [log' [[data|e]|]]; try reflexivity.
  destruct (String.eqb (fc_name fc) "search_flights"); [reflexivity|].
  destruct (String.eqb (fc_name fc) "search_google_flights"); reflexivity.
Qed.

Lemma lookup_search_flights :
  lookup "search_flights" AVAILABLE_FLIGHT_TOOLS = Some unified_search_flights.
Proof. reflexivity. Qed.

Lemma lookup_search_google_flights :
  lookup "search_google_flights" AVAILABLE_FLIGHT_TOOLS = Some search_google_flights_serpapi.
Proof. reflexivity. Qed.

Lemma lookup_unregistered (function_name : string) :
  function_name <> "search_flights" ->
  function_name <> "search_google_flights" ->
  lookup function_name AVAILABLE_FLIGHT_TOOLS = None.
Proof.
  intros H1 H2; unfold AVAILABLE_FLIGHT_TOOLS; cbn [lookup].
  destruct (String.eqb_spec "search_flights" function_name); [congruence|].
  destruct (String.eqb_spec "search_google_flights" function_name); [congruence|].
  reflexivity.
Qed.

(** Fuel only bounds the loop: a run that ends within its fuel ends the
    same way with more. *)
Lemma tool_loop_more_fuel (fuel : nat) :
  forall (response : GenerationResponse) (log log' : Log) (r : result GenerationResponse),
    tool_loop fuel response log = (log', Some r) ->
    tool_loop (S fuel) response log = (log', Some r).
Proof.
  induction fuel as [|fuel IH]; intros response log log' r Hrun;
    destruct (requested_call response) as [fc|] eqn:Hreq;
    try (rewrite tool_loop_final in Hrun |- * by assumption; exact Hrun).
  - cbn [tool_loop] in Hrun; rewrite Hreq in Hrun; discriminate.
  - destruct (lookup (fc_name fc) AVAILABLE_FLIGHT_TOOLS) as [f|] eqn:Hfn.
    + rewrite (tool_loop_registered fuel _ _ _ _ Hreq Hfn) in Hrun.
      rewrite (tool_loop_registered (S fuel) _ _ _ _ Hreq Hfn).
      unfold bind in Hrun |- *.
      destruct (call (fc_name fc) f (fc_args fc) log) as [log1 [[data|e]|]]; try exact Hrun.
      destruct (send _ _ log1) as [log2 [[reply|e]|]]; try exact Hrun.
      apply IH; exact Hrun.
    + cbn [tool_loop] in Hrun |- *; rewrite Hreq, Hfn in Hrun |- *; exact Hrun.
Qed.

Lemma process_query_more_fuel (fuel : nat) (self : FlightSearchAgent) (user_query : string)
  (o : Outcome) :
  snd (process_query fuel self user_query) = Some o ->
  process_query (S fuel) self user_query = process_query fuel self user_query.
Proof.
  rewrite !process_query_dialogue; unfold dialogue, conversation, bind.
  destruct (send (UserQuery user_query) (Some [SEARCH_FLIGHTS_VERTEX_TOOL]) (session_log self))
    as [log1 [[reply|e]|]]; try reflexivity.
  destruct (tool_loop fuel reply log1) as [log2 [r|]] eqn:Hrun; [|discriminate].
  rewrite (tool_loop_more_fuel _ _ _ _ _ Hrun); reflexivity.
Qed.

(** C3, as the code has it: when the reply to the query asks for
    [search_google_flights], the agent calls that function with the
    arguments of the request, sends what it returns back under the same
    name with no tool offered, and goes on with the loop on the reply to
    that message; the run ends as that loop and the text collected from
    its last response make it end. *)
Theorem second_tool_requested_first_is_dispatched
  (fuel : nat) (user_query : string) (log : Log)
  (r r2 : GenerationResponse) (fc : FunctionCall) (data : pyval) :
  let asked := (log ++ [EvSend (UserQuery user_query) (Some [SEARCH_FLIGHTS_VERTEX_TOOL])])%list in
  let called := (asked ++ [EvCall "search_google_flights" (fc_args fc)])%list in
  let fed_back := ToolResult (from_function_response "search_google_flights" data) in
  send_message_async log (UserQuery user_query) (Some [SEARCH_FLIGHTS_VERTEX_TOOL]) = Ok r ->
  requested_call r = Some fc ->
  fc_name fc = "search_google_flights" ->
  search_google_flights_serpapi asked (fc_args fc) = Ok data ->
  send_message_async called fed_back None = Ok r2 ->
  dialogue (S fuel) user_query log
  = (response <- tool_loop fuel r2 ;; lift (extract_final_text response))%run
      (called ++ [EvSend fed_back None])%list.
Proof.
  intros asked called fed_back Hr Hreq Hname Hdata Hr2.
  unfold dialogue, bind at 1.
  rewrite (conversation_first_reply _ _ _ _ Hr).
  assert (Hfn : lookup (fc_name fc) AVAILABLE_FLIGHT_TOOLS
                = Some search_google_flights_serpapi)
    by (rewrite Hname; apply lookup_search_google_flights).
  rewrite (tool_loop_registered _ _ _ _ _ Hreq Hfn), Hname.
  unfold bind, call, send, ask; fold asked; rewrite Hdata; cbn [String.eqb Ascii.eqb Bool.eqb].
  fold called fed_back; rewrite Hr2; reflexivity.
Qed.

(** C4, as the code has it: when the first part of a response asks for
    a name the registry does not have, the agent calls no function; it
    sends one message, with no tool offered, whose function response
    carries that name and the error "Unknown function <name>"; the loop
    stops there, and that message is the last thing the run does.  How
    the run ends is decided by that one exchange and not by the unknown
    name: when the message cannot be sent, the exception ends the body
    of the [try]; otherwise the reply is the final response, whatever
    it holds, and the run ends the way the collection of its text ends.
    So for every run of [process_query] that comes to the head of the
    loop with such a response, in whatever turn: it returns the error
    string in the first case, and in the second the collected text, the
    apology, None, or the error string of a collection that raises. *)
Theorem unknown_function_is_reported_once
  (fuel : nat) (response : GenerationResponse) (log : Log) (fc : FunctionCall) :
  let report :=
    ToolResult (from_function_response (fc_name fc)
                  (VDict [("error", VStr ("Unknown function " ++ fc_name fc))])) in
  let reported := (log ++ [EvSend report None])%list in
  let ending :=
    (reply <- send_message_async log report None ;; extract_final_text reply)%result in
  requested_call response = Some fc ->
  fc_name fc <> "search_flights" ->
  fc_name fc <> "search_google_flights" ->
  tool_loop (S fuel) response log = (reported, Some (send_message_async log report None))
  /\ (response <- tool_loop (S fuel) response ;; lift (extract_final_text response))%run log
     = (reported, Some ending)
  /\ (forall (fuel0 : nat) (self : FlightSearchAgent) (user_query : string),
         conversation fuel0 user_query (session_log self)
         = tool_loop (S fuel) response log ->
         process_query fuel0 self user_query
         = ({| chat := Some reported |},
            Some match ending with
                 | Ok outcome => outcome
                 | Raise e => Failure e
                 end)).
Proof.
  intros report reported ending Hreq H1 H2.
  assert (Hloop : tool_loop (S fuel) response log
                  = (reported, Some (send_message_async log report None))).
  { cbn [tool_loop]; rewrite Hreq, (lookup_unregistered _ H1 H2); reflexivity. }
  assert (Hbody : (response <- tool_loop (S fuel) response ;;
                   lift (extract_final_text response))%run log
                  = (reported, Some ending)).
  { unfold bind, ending; rewrite Hloop.
    destruct (send_message_async log report None); reflexivity. }
  split; [exact Hloop|]; split; [exact Hbody|].
  intros fuel0 self user_query Hturn.
  rewrite process_query_dialogue; unfold dialogue.
  unfold bind in Hbody |- *; rewrite Hturn.
  destruct (tool_loop (S fuel) response log) as [log' [[final|e]|]];
    try discriminate Hbody.
  - destruct (lift (extract_final_text final) log') as [log'' ended] eqn:Hlift.
    injection Hbody as -> ->; destruct ending; reflexivity.
  - injection Hbody as -> <-; reflexivity.
Qed.

(** C5: when a response asks for [search_flights] and the function
    returns [{"error": X}], the message sent next carries a function
    response named [search_flights] whose payload is that dict, with the
    string X as it came, it offers [search_google_flights], and the loop
    goes on with the reply to it: the error does not end the run. *)
Theorem adapter_error_is_fed_back_unchanged
  (fuel : nat) (response : GenerationResponse) (log : Log) (fc : FunctionCall) (X : string) :
  let called := (log ++ [EvCall "search_flights" (fc_args fc)])%list in
  let fed_back :=
    ToolResult (from_function_response "search_flights" (VDict [("error", VStr X)])) in
  let offered := Some [SEARCH_GOOGLE_FLIGHTS_VERTEX_TOOL] in
  requested_call response = Some fc ->
  fc_name fc = "search_flights" ->
  unified_search_flights log (fc_args fc) = Ok (VDict [("error", VStr X)]) ->
  tool_loop (S fuel) response log
  = match send_message_async called fed_back offered with
    | Ok reply => tool_loop fuel reply (called ++ [EvSend fed_back offered])%list
    | Raise e => ((called ++ [EvSend fed_back offered])%list, Some (Raise e))
    end.
Proof.
  intros called fed_back offered Hreq Hname Hdata.
  assert (Hfn : lookup (fc_name fc) AVAILABLE_FLIGHT_TOOLS = Some unified_search_flights)
    by (rewrite Hname; apply lookup_search_flights).
  rewrite (tool_loop_registered _ _ _ _ _ Hreq Hfn), Hname.
  unfold bind, call, send, ask; rewrite Hdata; cbn [String.eqb Ascii.eqb Bool.eqb].
  fold called fed_back offered.
  destruct (send_message_async called fed_back offered); reflexivity.
Qed.

(** C7, as the code has it: the loop looks at the first part of the
    first candidate and at nothing else.  When that part carries a
    function call, the turn is the one of a response made of that part
    alone: that call is the one dispatched (or reported as unknown),
    and the other parts, function calls included, are ignored.  When
    it carries none, the response ends the loop and nothing is called,
    whatever function calls the later parts carry. *)
Theorem only_the_first_part_is_examined
  (fuel : nat) (p : Part) (ps : list Part) (cs : list Candidate) (log : Log) :
  let response := {| candidates := {| parts := p :: ps |} :: cs |} in
  tool_loop fuel response log
  = match function_call p with
    | Some _ => tool_loop fuel {| candidates := [ {| parts := [p] |} ] |} log
    | None => (log, Some (Ok response))
    end
  /\ tool_loop (S fuel) response log
     = match function_call p with
       | Some fc =>
           match lookup (fc_name fc) AVAILABLE_FLIGHT_TOOLS with
           | Some function_to_call =>
               (tool_response_data <- call (fc_name fc) function_to_call (fc_args fc) ;;
                reply <- send (ToolResult (from_function_response (fc_name fc)
                                             tool_response_data))
                           (if String.eqb (fc_name fc) "search_flights"
                            then Some [SEARCH_GOOGLE_FLIGHTS_VERTEX_TOOL] else None) ;;
                tool_loop fuel reply)%run log
           | None =>
               send (ToolResult
                       (from_function_response (fc_name fc)
                          (VDict [("error", VStr ("Unknown function " ++ fc_name fc))])))
                 None log
           end
       | None => (log, Some (Ok response))
       end.
Proof.
  intros response; split.
  - destruct fuel; cbn [tool_loop]; unfold response;
      rewrite !requested_call_first_part; destruct (function_call p); reflexivity.
  - destruct (function_call p) as [fc|] eqn:Hcall.
    + destruct (lookup (fc_name fc) AVAILABLE_FLIGHT_TOOLS) as [f|] eqn:Hfn.
      * apply tool_loop_registered; assumption.
      * cbn [tool_loop]; unfold response; rewrite requested_call_first_part, Hcall, Hfn.
        reflexivity.
    + apply tool_loop_final; exact Hcall.
Qed.

(** *** The log of a run *)

(** Every call of a tool function in the log of the loop is a call of a
    function of the registry, and what follows it is fixed by what the
    function did: the message that feeds the result back, offering
    [search_google_flights] alone after [search_flights] and nothing
    after any other function, or the end of the log when it raised. *)
Lemma tool_loop_log (fuel : nat) :
  forall (response : GenerationResponse) (log : Log),
  exists new : Log,
    fst (tool_loop fuel response log) = (log ++ new)%list
    /\ forall (i : nat) (name : string) (args : dict),
         nth_error new i = Some (EvCall name args) ->
         exists f : ToolFunction,
           lookup name AVAILABLE_FLIGHT_TOOLS = Some f
           /\ match f (log ++ firstn i new)%list args with
              | Ok data =>
                  nth_error new (S i)
                  = Some (EvSend (ToolResult (from_function_response name data))
                            (if String.eqb name "search_flights"
                             then Some [SEARCH_GOOGLE_FLIGHTS_VERTEX_TOOL] else None))
              | Raise _ => nth_error new (S i) = None
              end.
Proof.
  induction fuel as [|fuel IH]; intros response log.
  - exists []; split.
    + cbn [tool_loop]; destruct (requested_call response); rewrite app_nil_r; reflexivity.
    + intros [|i] name args Hnth; discriminate.
  - destruct (requested_call response) as [fc|] eqn:Hreq.
    2:{ exists []; split.
        - rewrite tool_loop_final by assumption; rewrite app_nil_r; reflexivity.
        - intros [|i] name args Hnth; discriminate. }
    destruct (lookup (fc_name fc) AVAILABLE_FLIGHT_TOOLS) as [f|] eqn:Hfn.
    2:{ eexists [_]; split.
        - cbn [tool_loop]; rewrite Hreq, Hfn; reflexivity.
        - intros [|[|i]] name args Hnth; discriminate. }
    rewrite (tool_loop_registered _ _ _ _ _ Hreq Hfn).
    unfold bind, call, send, ask.
    destruct (f log (fc_args fc)) as [data|e] eqn:Hf.
    2:{ exists [EvCall (fc_name fc) (fc_args fc)]; split; [reflexivity|].
        intros [|[|i]] name args Hnth; try discriminate.
        injection Hnth as <- <-; exists f; split; [assumption|].
        cbn [firstn]; rewrite app_nil_r, Hf; reflexivity. }
    set (tools := if String.eqb (fc_name fc) "search_flights"
                  then Some [SEARCH_GOOGLE_FLIGHTS_VERTEX_TOOL] else None).
    set (fed_back := ToolResult (from_function_response (fc_name fc) data)).
    set (called := (log ++ [EvCall (fc_name fc) (fc_args fc)])%list).
    destruct (send_message_async called fed_back tools) as [reply|e].
    2:{ exists [EvCall (fc_name fc) (fc_args fc); EvSend fed_back tools]; split.
        - subst called; cbn [fst]; rewrite <- app_assoc; reflexivity.
        - intros [|[|[|i]]] name args Hnth; try discriminate.
          injection Hnth as <- <-; exists f; split; [assumption|].
          cbn [firstn]; rewrite app_nil_r, Hf; reflexivity. }
    destruct (IH reply (called ++ [EvSend fed_back tools])%list) as [new [Hlog Hinv]].
    exists (EvCall (fc_name fc) (fc_args fc) :: EvSend fed_back tools :: new); split.
    + rewrite Hlog; subst called; rewrite <- !app_assoc; reflexivity.
    + intros [|[|i]] name args Hnth; try discriminate.
      * injection Hnth as <- <-; exists f; split; [assumption|].
        cbn [firstn]; rewrite app_nil_r, Hf; reflexivity.
      * cbn [nth_error] in Hnth; destruct (Hinv i name args Hnth) as [g [Hg Hnext]].
        exists g; split; [assumption|].
        subst called; rewrite <- !app_assoc in Hnext; exact Hnext.
Qed.

(** The same for the whole run, whose log opens with the query. *)
Lemma dialogue_log (fuel : nat) (user_query : string) (log : Log) :
  exists new : Log,
    fst (dialogue fuel user_query log) = (log ++ new)%list
    /\ forall (i : nat) (name : string) (args : dict),
         nth_error new i = Some (EvCall name args) ->
         exists f : ToolFunction,
           lookup name AVAILABLE_FLIGHT_TOOLS = Some f
           /\ match f (log ++ firstn i new)%list args with
              | Ok data =>
                  nth_error new (S i)
                  = Some (EvSend (ToolResult (from_function_response name data))
                            (if String.eqb name "search_flights"
                             then Some [SEARCH_GOOGLE_FLIGHTS_VERTEX_TOOL] else None))
              | Raise _ => nth_error new (S i) = None
              end.
Proof.
  set (asked := EvSend (UserQuery user_query) (Some [SEARCH_FLIGHTS_VERTEX_TOOL])).
  assert (Hfst : fst (dialogue fuel user_query log) = fst (conversation fuel user_query log)).
  { unfold dialogue, bind, lift.
    destruct (conversation fuel user_query log) as [log' [[r|e]|]]; reflexivity. }
  rewrite Hfst; unfold conversation, bind, send, ask; fold asked.
  destruct (send_message_async log (UserQuery user_query) (Some [SEARCH_FLIGHTS_VERTEX_TOOL]))
    as [r|e].
  2:{ exists [asked]; split; [reflexivity|].
      intros [|[|i]] name args Hnth; discriminate. }
  destruct (tool_loop_log fuel r (log ++ [asked])%list) as [new [Hlog Hinv]].
  exists (asked :: new); split.
  - rewrite Hlog, <- app_assoc; reflexivity.
  - intros [|i] name args Hnth; [discriminate|].
    cbn [nth_error] in Hnth; destruct (Hinv i name args Hnth) as [g [Hg Hnext]].
    exists g; split; [assumption|].
    rewrite <- app_assoc in Hnext; exact Hnext.
Qed.

(** C6: in the log a run adds to the session, a call of
    [search_flights] that returns is followed at once by the message
    that feeds its result back, and that message offers exactly
    [search_google_flights]; a call of [search_google_flights] that
    returns is followed at once by the message that feeds its result
    back with no tool offered. *)
Theorem offered_tools_follow_the_dispatch
  (fuel : nat) (self : FlightSearchAgent) (user_query : string) :
  exists new : Log,
    session_log (fst (process_query fuel self user_query)) = (session_log self ++ new)%list
    /\ forall (i : nat) (args : dict) (data : pyval),
         (nth_error new i = Some (EvCall "search_flights" args) ->
          unified_search_flights (session_log self ++ firstn i new)%list args = Ok data ->
          nth_error new (S i)
          = Some (EvSend (ToolResult (from_function_response "search_flights" data))
                    (Some [SEARCH_GOOGLE_FLIGHTS_VERTEX_TOOL])))
         /\ (nth_error new i = Some (EvCall "search_google_flights" args) ->
             search_google_flights_serpapi (session_log self ++ firstn i new)%list args
             = Ok data ->
             nth_error new (S i)
             = Some (EvSend (ToolResult (from_function_response "search_google_flights" data))
                       None)).
Proof.
  destruct (dialogue_log fuel user_query (session_log self)) as [new [Hlog Hinv]].
  exists new; split.
  - rewrite process_query_dialogue, <- Hlog.
    destruct (dialogue fuel user_query (session_log self)) as [log' [[o|e]|]]; reflexivity.
  - intros i args data; split; intros Hnth Hdata;
      destruct (Hinv i _ args Hnth) as [g [Hg Hnext]];
      cbn in Hg; injection Hg as <-; rewrite Hdata in Hnext; exact Hnext.
Qed.

(** *** The text of the final response *)

Lemma format_flight_fields (idx : nat) (f : pyval) (r : FlightRecord) :
  flight_fields f = Ok r -> format_flight idx f = Ok (listing_entry idx r).
Proof.
  unfold flight_fields, format_flight; intros Hf.
  repeat (apply rbind_ok in Hf; destruct Hf as [? [-> Hf]]; cbn [rbind]).
  injection Hf as <-; reflexivity.
Qed.

End Properties.

(** C1: a reply whose candidate has no parts makes [process_query] run
    off the end of its body, and the caller gets [None], not a string;
    a reply with no candidate at all does the same. *)
Theorem process_query_returns_None_without_parts :
  option_map returned
    (snd (process_query (B := Scenarios.plain) (W := Scenarios.silent_world)
            3 Scenarios.fresh Scenarios.query)) = Some VNone
  /\ option_map returned
       (snd (process_query (B := Scenarios.plain) (W := Scenarios.blocked_world)
               3 Scenarios.fresh Scenarios.query)) = Some VNone.
Proof. split; reflexivity. Qed.

(** C2 fails as stated: the model answers the query with a question and
    no function call; the run does not fail, and the caller gets that
    very text as the answer. *)
Lemma skipped_tool_step_is_not_a_failure :
  requested_call Scenarios.chatty_reply = None
  /\ send_message_async (World := Scenarios.chatty_world) []
       (UserQuery Scenarios.query) (Some [SEARCH_FLIGHTS_VERTEX_TOOL])
     = Ok Scenarios.chatty_reply
  /\ process_query (B := Scenarios.plain) (W := Scenarios.chatty_world)
       0 Scenarios.fresh Scenarios.query
     = ({| chat := Some [EvSend (UserQuery Scenarios.query)
                           (Some [SEARCH_FLIGHTS_VERTEX_TOOL])] |},
        Some (Answer "Which airport do you want to leave from?"))
  /\ (forall e, Answer "Which airport do you want to leave from?" <> Failure e).
Proof. repeat split; discriminate. Qed.

Lemma skipped_tool_step_answers_from_the_reply_witness :
  process_query (B := Scenarios.plain) (W := Scenarios.chatty_world)
    7 Scenarios.fresh Scenarios.query
  = ({| chat := Some [EvSend (UserQuery Scenarios.query)
                        (Some [SEARCH_FLIGHTS_VERTEX_TOOL])] |},
     Some (Answer "Which airport do you want to leave from?")).
Proof.
  apply (skipped_tool_step_answers_from_the_reply
           (B := Scenarios.plain) (W := Scenarios.chatty_world)
           7 Scenarios.fresh Scenarios.query Scenarios.chatty_reply
           {| parts := [Scenarios.says "Which airport do you want to leave from?"] |} []
           (Scenarios.says "Which airport do you want to leave from?") []);
    reflexivity.
Defined.

(** C3 fails as stated: asked for [search_google_flights] in the first
    turn, the agent calls it and the run ends with the model's answer,
    not with a failure. *)
Lemma second_tool_first_is_not_a_failure :
  send_message_async (World := Scenarios.out_of_order_world) []
    (UserQuery Scenarios.query) (Some [SEARCH_FLIGHTS_VERTEX_TOOL])
  = Ok (Scenarios.reply [Scenarios.asks_for "search_google_flights" Scenarios.trip])
  /\ process_query (B := Scenarios.plain) (W := Scenarios.out_of_order_world)
       2 Scenarios.fresh Scenarios.query
     = ({| chat :=
             Some [EvSend (UserQuery Scenarios.query) (Some [SEARCH_FLIGHTS_VERTEX_TOOL]);
                   EvCall "search_google_flights" Scenarios.trip;
                   EvSend (ToolResult (from_function_response "search_google_flights"
                                         Scenarios.no_flights)) None] |},
        Some (Answer "I found no flights for that day.")).
Proof. split; reflexivity. Qed.

Lemma second_tool_requested_first_is_dispatched_witness :
  dialogue (B := Scenarios.plain) (W := Scenarios.out_of_order_world) 2 Scenarios.query []
  = ([EvSend (UserQuery Scenarios.query) (Some [SEARCH_FLIGHTS_VERTEX_TOOL]);
      EvCall "search_google_flights" Scenarios.trip;
      EvSend (ToolResult (from_function_response "search_google_flights"
                            Scenarios.no_flights)) None],
     Some (Ok (Answer "I found no flights for that day."))).
Proof.
  rewrite (second_tool_requested_first_is_dispatched
             (B := Scenarios.plain) (W := Scenarios.out_of_order_world)
             1 Scenarios.query []
             (Scenarios.reply [Scenarios.asks_for "search_google_flights" Scenarios.trip])
             (Scenarios.reply [Scenarios.says "I found no flights for that day."])
             {| fc_name := "search_google_flights"; fc_args := Scenarios.trip |}
             Scenarios.no_flights);
    reflexivity.
Defined.

(** C4 fails as stated: after the report of the unknown function the
    run ends with the text of the model's reply as its answer, not with
    a failure. *)
Lemma unknown_function_is_not_a_failure :
  send_message_async (World := Scenarios.unknown_world) []
    (UserQuery Scenarios.query) (Some [SEARCH_FLIGHTS_VERTEX_TOOL])
  = Ok (Scenarios.reply [Scenarios.asks_for "book_hotel" []])
  /\ lookup "book_hotel" (AVAILABLE_FLIGHT_TOOLS (W := Scenarios.unknown_world)) = None
  /\ process_query (B := Scenarios.plain) (W := Scenarios.unknown_world)
       2 Scenarios.fresh Scenarios.query
     = ({| chat :=
             Some [EvSend (UserQuery Scenarios.query) (Some [SEARCH_FLIGHTS_VERTEX_TOOL]);
                   EvSend (ToolResult
                             (from_function_response "book_hotel"
                                (VDict [("error", VStr "Unknown function book_hotel")])))
                     None] |},
        Some (Answer "I can only search for flights.")).
Proof. repeat split. Qed.

Lemma unknown_function_is_reported_once_witness :
  process_query (B := Scenarios.plain) (W := Scenarios.unknown_world)
    5 Scenarios.fresh Scenarios.query
  = ({| chat :=
          Some [EvSend (UserQuery Scenarios.query) (Some [SEARCH_FLIGHTS_VERTEX_TOOL]);
                EvSend (ToolResult
                          (from_function_response "book_hotel"
                             (VDict [("error", VStr "Unknown function book_hotel")])))
                  None] |},
     Some (Answer "I can only search for flights."))
  /\ process_query (B := Scenarios.plain) (W := Scenarios.late_unknown_world)
       5 Scenarios.fresh Scenarios.query
     = ({| chat :=
             Some [EvSend (UserQuery Scenarios.query) (Some [SEARCH_FLIGHTS_VERTEX_TOOL]);
                   EvCall "search_flights" Scenarios.trip;
                   EvSend (ToolResult (from_function_response "search_flights"
                                         Scenarios.no_flights))
                     (Some [SEARCH_GOOGLE_FLIGHTS_VERTEX_TOOL]);
                   EvSend (ToolResult
                             (from_function_response "book_hotel"
                                (VDict [("error", VStr "Unknown function book_hotel")])))
                     None] |},
        Some (Answer "I can only search for flights.")).
Proof.
  split.
  - apply (proj2 (proj2 (unknown_function_is_reported_once
                           (W := Scenarios.unknown_world) (B := Scenarios.plain) 0
                           (Scenarios.reply [Scenarios.asks_for "book_hotel" []])
                           [EvSend (UserQuery Scenarios.query)
                              (Some [SEARCH_FLIGHTS_VERTEX_TOOL])]
                           {| fc_name := "book_hotel"; fc_args := [] |}
                           eq_refl ltac:(discriminate) ltac:(discriminate)))
             5 Scenarios.fresh Scenarios.query eq_refl).
  - apply (proj2 (proj2 (unknown_function_is_reported_once
                           (W := Scenarios.late_unknown_world) (B := Scenarios.plain) 3
                           (Scenarios.reply [Scenarios.asks_for "book_hotel" []])
                           [EvSend (UserQuery Scenarios.query)
                              (Some [SEARCH_FLIGHTS_VERTEX_TOOL]);
                            EvCall "search_flights" Scenarios.trip;
                            EvSend (ToolResult (from_function_response "search_flights"
                                                  Scenarios.no_flights))
                              (Some [SEARCH_GOOGLE_FLIGHTS_VERTEX_TOOL])]
                           {| fc_name := "book_hotel"; fc_args := [] |}
                           eq_refl ltac:(discriminate) ltac:(discriminate)))
             5 Scenarios.fresh Scenarios.query eq_refl).
Defined.

Lemma adapter_error_is_fed_back_unchanged_witness :
  tool_loop (W := Scenarios.rate_limited_world) 2
    (Scenarios.reply [Scenarios.asks_for "search_flights" Scenarios.trip])
    [EvSend (UserQuery Scenarios.query) (Some [SEARCH_FLIGHTS_VERTEX_TOOL])]
  = tool_loop (W := Scenarios.rate_limited_world) 1
      (Scenarios.reply [Scenarios.asks_for "search_google_flights" Scenarios.trip])
      [EvSend (UserQuery Scenarios.query) (Some [SEARCH_FLIGHTS_VERTEX_TOOL]);
       EvCall "search_flights" Scenarios.trip;
       EvSend (ToolResult (from_function_response "search_flights"
                             (VDict [("error", VStr "rate limited")])))
         (Some [SEARCH_GOOGLE_FLIGHTS_VERTEX_TOOL])].
Proof.
  rewrite (adapter_error_is_fed_back_unchanged
             (W := Scenarios.rate_limited_world) 1
             (Scenarios.reply [Scenarios.asks_for "search_flights" Scenarios.trip])
             [EvSend (UserQuery Scenarios.query) (Some [SEARCH_FLIGHTS_VERTEX_TOOL])]
             {| fc_name := "search_flights"; fc_args := Scenarios.trip |}
             "rate limited" eq_refl eq_refl eq_refl).
  reflexivity.
Defined.

(** C7 fails as stated: the reply opens with a text part and carries
    the function call second; nothing is called, and the text is the
    answer. *)
Lemma function_call_after_text_is_not_honored :
  map function_call (parts (hd {| parts := [] |} (candidates Scenarios.text_first_reply)))
  = [None; Some {| fc_name := "search_flights"; fc_args := Scenarios.trip |}]
  /\ process_query (B := Scenarios.plain) (W := Scenarios.text_first_world)
       3 Scenarios.fresh Scenarios.query
     = ({| chat := Some [EvSend (UserQuery Scenarios.query)
                           (Some [SEARCH_FLIGHTS_VERTEX_TOOL])] |},
        Some (Answer "Let me look that up.")).
Proof. split; reflexivity. Qed.

(** C8: the final response carries, in a part built by the SDK, the
    result of a search (two flights and their summary) and then the
    closing sentence of the model.  Nothing of the search is rendered:
    no header, no entry, no summary, and the answer is the closing
    sentence alone; with an error in place of the flights, no line
    reports the problem either.  The payload of such a part is not a
    dict for line 111, and lines 112-126 do not run on it; on the same
    payload as a dict they give the listing the claim describes. *)
Theorem function_response_of_the_sdk_is_not_rendered :
  map function_response (parts (hd {| parts := [] |} (candidates Scenarios.listing_reply)))
  = [Some {| fr_name := "search_flights";
             fr_response := MapComposite (VDict Scenarios.found_two) |};
     None]
  /\ extract_final_text (B := Scenarios.plain) Scenarios.listing_reply
     = Ok (Answer "Based on both searches, option 1 is best value.")
  /\ extract_final_text (B := Scenarios.plain) Scenarios.failed_reply
     = Ok (Answer "Please try again later.")
  /\ render_payload (B := Scenarios.plain) Scenarios.found_two
     = Ok [nl ++ "Here are the best flight options I found for you:";
           "1. Airline: British Airways" ++ nl
           ++ "   Route: JFK → LHR" ++ nl
           ++ "   Departure: 2025-06-01 18:30" ++ nl
           ++ "   Arrival: 2025-06-02 06:45" ++ nl
           ++ "   Stops: 0" ++ nl
           ++ "   Price: $612 USD" ++ nl
           ++ "   Flight Number: BA112";
           "2. Airline: Icelandair" ++ nl
           ++ "   Route: JFK → LHR" ++ nl
           ++ "   Departure: 2025-06-01 20:10" ++ nl
           ++ "   Arrival: 2025-06-02 11:05" ++ nl
           ++ "   Stops: 1" ++ nl
           ++ "   Price: $None USD" ++ nl
           ++ "   Flight Number: FI614";
           nl ++ "Summary: Found 2 flights from NYC to LON on 2025-06-01."]
  /\ render_payload (B := Scenarios.plain) [("error", VStr "rate limited")]
     = Ok ["Sorry, there was a problem: rate limited"].
Proof. repeat split. Qed.

(** C9: what [process_query] returns is a function of the response
    the loop ends on and of nothing else: the text is collected without
    a message sent or a function called, and two runs, in any two
    worlds, whose loops end on the same response return the same value
    to their callers. *)
Theorem final_text_depends_on_the_final_response_only
  (B : Builtins) (W1 W2 : World) (fuel1 fuel2 : nat)
  (self1 self2 : FlightSearchAgent) (query1 query2 : string)
  (log1 log2 : Log) (final : GenerationResponse) :
  conversation (W := W1) fuel1 query1 (session_log self1) = (log1, Some (Ok final)) ->
  conversation (W := W2) fuel2 query2 (session_log self2) = (log2, Some (Ok final)) ->
  dialogue (W := W1) fuel1 query1 (session_log self1) = (log1, Some (extract_final_text final))
  /\ dialogue (W := W2) fuel2 query2 (session_log self2)
     = (log2, Some (extract_final_text final))
  /\ snd (process_query (W := W1) fuel1 self1 query1)
     = snd (process_query (W := W2) fuel2 self2 query2).
Proof.
  intros H1 H2.
  assert (D1 : dialogue (W := W1) fuel1 query1 (session_log self1)
               = (log1, Some (extract_final_text final)))
    by (unfold dialogue, bind; rewrite H1; reflexivity).
  assert (D2 : dialogue (W := W2) fuel2 query2 (session_log self2)
               = (log2, Some (extract_final_text final)))
    by (unfold dialogue, bind; rewrite H2; reflexivity).
  repeat split; try assumption.
  rewrite !process_query_dialogue, D1, D2.
  destruct (extract_final_text final); reflexivity.
Qed.

Lemma final_text_depends_on_the_final_response_only_witness :
  snd (process_query (B := Scenarios.plain) (W := Scenarios.chatty_world)
         0 Scenarios.fresh Scenarios.query)
  = snd (process_query (B := Scenarios.plain) (W := Scenarios.late_chatty_world)
           4 {| chat := Some [] |} "any flights to Lisbon?").
Proof.
  apply (final_text_depends_on_the_final_response_only
           Scenarios.plain Scenarios.chatty_world Scenarios.late_chatty_world
           0 4 Scenarios.fresh {| chat := Some [] |}
           Scenarios.query "any flights to Lisbon?"
           _ _ Scenarios.chatty_reply eq_refl eq_refl).
Defined.

Lemma offered_tools_follow_the_dispatch_witness :
  exists new : Log,
    session_log (fst (process_query (B := Scenarios.plain) (W := Scenarios.rate_limited_world)
                        3 Scenarios.fresh Scenarios.query)) = new
    /\ nth_error new 1 = Some (EvCall "search_flights" Scenarios.trip)
    /\ nth_error new 2
       = Some (EvSend (ToolResult (from_function_response "search_flights"
                                     Scenarios.rate_limited))
                 (Some [SEARCH_GOOGLE_FLIGHTS_VERTEX_TOOL]))
    /\ nth_error new 3 = Some (EvCall "search_google_flights" Scenarios.trip)
    /\ nth_error new 4
       = Some (EvSend (ToolResult (from_function_response "search_google_flights"
                                     Scenarios.no_flights)) None).
Proof.
  destruct (offered_tools_follow_the_dispatch
              (B := Scenarios.plain) (W := Scenarios.rate_limited_world)
              3 Scenarios.fresh Scenarios.query) as [new [Hlog Hinv]].
  exists new; split; [exact Hlog|].
  cbn in Hlog; subst new.
  split; [reflexivity|].
  split; [apply (proj1 (Hinv 1 Scenarios.trip Scenarios.rate_limited)); reflexivity|].
  split; [reflexivity|].
  apply (proj2 (Hinv 3 Scenarios.trip Scenarios.no_flights)); reflexivity.
Defined.

End AgentSpec.

(** ** The first capability of search_flights_tool.py *)

Module SearchFlightsToolSpec.
Import SearchFlightsTool.

Section Properties.
Context `{B : Builtins} `{P : Providers}.

(** X13: when both endpoints resolve, the flight search is asked for, with
    the ids of the first location found for each. *)
Lemma resolved_endpoints_are_searched
  (a : SearchArgs) (log : list Request) (o d : Location) (os ds : list Location) :
  let looked_up :=
    (log ++ [LocationLookup (origin a); LocationLookup (destination a)])%list in
  let args :=
    {| originSkyId := skyId o; destinationSkyId := skyId d;
       originEntityId := entityId o; destinationEntityId := entityId d;
       sky_departure_date := departure_date a; sky_return_date := return_date a;
       sky_cabinClass := cabinClass a; sky_adults := adults a;
       sky_sortBy := sortBy a; sky_currency := currency a;
       sky_market := market a; sky_countryCode := countryCode a;
       sky_preferences := preferences a |} in
  lookup_sky_scrapper_location log (origin a) = Ok (InfoResults (o :: os)) ->
  lookup_sky_scrapper_location (log ++ [LocationLookup (origin a)])%list (destination a)
  = Ok (InfoResults (d :: ds)) ->
  unified_search_flights a log
  = ((looked_up ++ [FlightSearch args])%list,
     Some (search_flights_sky_scrapper looked_up args)).
Proof.
  intros looked_up args Ho Hd.
  unfold unified_search_flights, get_sky_ids_for_airports, bind, ask, ret.
  rewrite Ho, Hd; cbn; subst looked_up; rewrite <- !app_assoc; reflexivity.
Qed.

(** C10: when the lookup of the origin comes back with an error or
    with no result, [unified_search_flights] returns
    [{"error": "Could not find Sky Scrapper location for origin: <origin>"}],
    whatever the lookup of the destination found; when the origin
    resolves and the destination does not, the error names the
    destination.  In both cases the log holds the two lookups and
    nothing else: the flight search is not asked for. *)
Theorem unresolved_endpoint_is_reported_without_searching
  (a : SearchArgs) (log : list Request) (origin_info destination_info : LookupInfo) :
  let looked_up :=
    (log ++ [LocationLookup (origin a); LocationLookup (destination a)])%list in
  lookup_sky_scrapper_location log (origin a) = Ok origin_info ->
  lookup_sky_scrapper_location (log ++ [LocationLookup (origin a)])%list (destination a)
  = Ok destination_info ->
  (unresolved origin_info = true ->
   unified_search_flights a log
   = (looked_up,
      Some (Ok (VDict [("error",
                        VStr ("Could not find Sky Scrapper location for origin: "
                                ++ py_str (origin a)))]))))
  /\ (unresolved origin_info = false ->
      unresolved destination_info = true ->
      unified_search_flights a log
      = (looked_up,
         Some (Ok (VDict [("error",
                           VStr ("Could not find Sky Scrapper location for destination: "
                                   ++ py_str (destination a)))])))).
Proof.
  intros looked_up Ho Hd.
  assert (Hlog : ((log ++ [LocationLookup (origin a)]) ++ [LocationLookup (destination a)])%list
                 = looked_up)
    by (subst looked_up; rewrite <- app_assoc; reflexivity).
  split.
  - intros Horigin.
    unfold unified_search_flights, get_sky_ids_for_airports, bind, ask, ret.
    rewrite Ho, Hd, Hlog.
    destruct origin_info as [message|[|o os]]; try discriminate; reflexivity.
  - intros Horigin Hdestination.
    unfold unified_search_flights, get_sky_ids_for_airports, bind, ask, ret.
    rewrite Ho, Hd, Hlog.
    destruct origin_info as [message|[|o os]]; try discriminate.
    destruct destination_info as [message|[|d ds]]; try discriminate; reflexivity.
Qed.

End Properties.

Lemma unresolved_endpoint_is_reported_without_searching_witness :
  unified_search_flights (B := Scenarios.plain) (P := ToolScenarios.providers)
    (ToolScenarios.search "Atlantis" "El Dorado") []
  = ([LocationLookup (VStr "Atlantis"); LocationLookup (VStr "El Dorado")],
     Some (Ok (VDict [("error",
                       VStr "Could not find Sky Scrapper location for origin: Atlantis")])))
  /\ unified_search_flights (B := Scenarios.plain) (P := ToolScenarios.providers)
       (ToolScenarios.search "London" "El Dorado") []
     = ([LocationLookup (VStr "London"); LocationLookup (VStr "El Dorado")],
        Some (Ok (VDict [("error",
                          VStr "Could not find Sky Scrapper location for destination: El Dorado")]))).
Proof.
  split.
  - apply (proj1 (unresolved_endpoint_is_reported_without_searching
                    (B := Scenarios.plain) (P := ToolScenarios.providers)
                    (ToolScenarios.search "Atlantis" "El Dorado") [] _ _ eq_refl eq_refl)
             eq_refl).
  - apply (proj2 (unresolved_endpoint_is_reported_without_searching
                    (B := Scenarios.plain) (P := ToolScenarios.providers)
                    (ToolScenarios.search "London" "El Dorado") [] _ _ eq_refl eq_refl)
             eq_refl eq_refl).
Defined.

Lemma resolved_endpoints_are_searched_witness :
  unified_search_flights (B := Scenarios.plain) (P := ToolScenarios.providers)
    (ToolScenarios.search "London" "Paris") []
  = ([LocationLookup (VStr "London"); LocationLookup (VStr "Paris");
      FlightSearch
        {| originSkyId := VStr "LOND"; destinationSkyId := VStr "LOND";
           originEntityId := VStr "27544008"; destinationEntityId := VStr "27544008";
           sky_departure_date := VStr "2025-06-01"; sky_return_date := VNone;
           sky_cabinClass := VStr "economy"; sky_adults := VInt 1;
           sky_sortBy := VStr "best"; sky_currency := VStr "USD";
           sky_market := VStr "en-US"; sky_countryCode := VStr "US";
           sky_preferences := VNone |}],
     Some (Ok (VDict [("flights", VList []); ("summary", VStr "Found 0 flights.")]))).
Proof.
  apply (resolved_endpoints_are_searched (B := Scenarios.plain) (P := ToolScenarios.providers)
           (ToolScenarios.search "London" "Paris") []
           ToolScenarios.london ToolScenarios.london [] [] eq_refl eq_refl).
Defined.

End SearchFlightsToolSpec.

(** ** The functions of search_flights_tool.py that go to the network *)

Module ProviderCallsSpec.
Import Interp ProviderCalls ToolResults PyFacts.

Lemma map_result_ok {A B : Type} (f : A -> result B) (l : list A) :
  forall l' : list B, map_result f l = Ok l' -> Forall2 (fun x y => f x = Ok y) l l'.
Proof.
  induction l as [|x rest IH]; cbn [map_result]; intros l' Hl.
  - injection Hl as <-; constructor.
  - apply rbind_ok in Hl; destruct Hl as [y [Hy Hl]].
    apply rbind_ok in Hl; destruct Hl as [ys [Hys Hl]].
    injection Hl as <-; constructor; auto.
Qed.

Lemma map_result_all {A B : Type} (f : A -> result B) (l : list A) :
  Forall (fun x => exists y, f x = Ok y) l -> exists l', map_result f l = Ok l'.
Proof.
  induction 1 as [|x rest [y Hy] _ [ys Hys]]; cbn [map_result].
  - eauto.
  - rewrite Hy, Hys; cbn [rbind]; eauto.
Qed.

Lemma flat_map_result_app {A B : Type} (f : A -> result (list B)) (l1 l2 : list A)
  (r1 r2 : list B) :
  flat_map_result f l1 = Ok r1 ->
  flat_map_result f l2 = Ok r2 ->
  flat_map_result f (l1 ++ l2) = Ok (r1 ++ r2)%list.
Proof.
  revert r1; induction l1 as [|x rest IH]; cbn [flat_map_result app]; intros r1 H1 H2.
  - injection H1 as <-; exact H2.
  - apply rbind_ok in H1; destruct H1 as [ys [Hys H1]].
    apply rbind_ok in H1; destruct H1 as [zs [Hzs H1]].
    injection H1 as <-.
    rewrite Hys, (IH zs Hzs H2); cbn [rbind]; rewrite app_assoc; reflexivity.
Qed.

Lemma get_default_ok (v : pyval) (key : string) (default x : pyval) :
  get_default v key default = Ok x -> exists entries, v = VDict entries.
Proof. destruct v; cbn; intros Hx; try discriminate; eauto. Qed.

Lemma nonempty_app_l (a b : string) : nonempty a = true -> nonempty (a ++ b) = true.
Proof. destruct a; [discriminate | reflexivity]. Qed.

Section Properties.
Context `{B : Builtins} `{I : Interpreter} `{N : Network}.

(** *** search_flights_sky_scrapper *)

Lemma sky_flight_dict (entries : dict) :
  sky_flight (VDict entries)
  = Ok (VDict [("airline", match lookup "airline" entries with Some x => x | None => VStr "N/A" end);
               ("origin", match lookup "origin" entries with Some x => x | None => VStr "N/A" end);
               ("destination",
                match lookup "destination" entries with Some x => x | None => VStr "N/A" end);
               ("departure_time",
                match lookup "departureTime" entries with Some x => x | None => VStr "N/A" end);
               ("arrival_time",
                match lookup "arrivalTime" entries with Some x => x | None => VStr "N/A" end);
               ("duration_hours",
                match lookup "duration" entries with Some x => x | None => VNone end);
               ("stops", match lookup "stops" entries with Some x => x | None => VInt 0 end);
               ("price_usd", match lookup "price" entries with Some x => x | None => VNone end);
               ("currency",
                match lookup "currency" entries with Some x => x | None => VStr "USD" end);
               ("notes",
                match lookup "flightNumber" entries with Some x => x | None => VStr "" end)]).
Proof.
  unfold sky_flight, get_default.
  repeat match goal with
         | |- context [lookup ?k entries] => destruct (lookup k entries)
         end; reflexivity.
Qed.

Lemma sky_flight_listable (f flight : pyval) :
  sky_flight f = Ok flight -> listable flight = true.
Proof.
  intros Hf.
  assert (Hd : exists entries, f = VDict entries).
  { unfold sky_flight in Hf; apply rbind_ok in Hf; destruct Hf as [x [Hx _]].
    eauto using get_default_ok. }
  destruct Hd as [entries ->]; rewrite sky_flight_dict in Hf; injection Hf as <-.
  reflexivity.
Qed.

Lemma sky_summary_nonempty (a : SearchFlightsTool.SkyScrapperArgs) (flights : list pyval) :
  nonempty (sky_summary a flights) = true.
Proof. reflexivity. Qed.

Lemma sky_result_shape (a : SearchFlightsTool.SkyScrapperArgs) (data v : pyval) :
  sky_result a data = Ok v -> tool_result v = true.
Proof.
  unfold sky_result; destruct data as [| | | | | |entries];
    try (intros Hv; injection Hv as <-; reflexivity).
  destruct (lookup "data" entries) as [[| | | | |items|]|];
    try (intros Hv; injection Hv as <-; reflexivity).
  intros Hv; apply rbind_ok in Hv; destruct Hv as [flights [Hflights Hv]].
  injection Hv as <-; cbn.
  apply forallb_forall; intros flight Hin.
  apply map_result_ok in Hflights.
  revert Hin; induction Hflights as [|f y items flights Hf _ IH]; cbn; intros Hin;
    [contradiction|].
  destruct Hin as [<-|Hin]; eauto using sky_flight_listable.
Qed.

Lemma sky_scrapper_run
  (a : SearchFlightsTool.SkyScrapperArgs) (log : list HttpRequest) :
  exists (log' : list HttpRequest) (v : pyval),
    search_flights_sky_scrapper a log = (log', Some (Ok v))
    /\ tool_result v = true
    /\ (log' = log \/ exists request : HttpRequest, log' = (log ++ [request])%list).
Proof.
  unfold search_flights_sky_scrapper.
  destruct (getenv "FLIGHTS_SCRAPER_SKY_API_KEY") as [[|c key]|];
    try (do 2 eexists; split; [reflexivity | split; [reflexivity | left; reflexivity]]).
  unfold catch, bind, http_get, ask, lift, ret.
  destruct (requests_get log _) as [resp|e];
    [|do 2 eexists; split; [reflexivity | split; [reflexivity | right; eauto]]].
  destruct (negb (status_code resp =? 200)%Z);
    [do 2 eexists; split; [reflexivity | split; [reflexivity | right; eauto]]|].
  destruct (resp_json resp) as [data|e];
    [|do 2 eexists; split; [reflexivity | split; [reflexivity | right; eauto]]].
  destruct (sky_result a data) as [v|e] eqn:Hv;
    [|do 2 eexists; split; [reflexivity | split; [reflexivity | right; eauto]]].
  do 2 eexists; split; [reflexivity | split; [eauto using sky_result_shape | right; eauto]].
Qed.

(** X1: whatever the environment and the network do,
    [search_flights_sky_scrapper] returns and does not raise, it makes
    at most one request, and what it returns is one of its two dicts:
    an error with its message, or flights the agent can list with their
    summary. *)
Theorem sky_scrapper_always_answers
  (a : SearchFlightsTool.SkyScrapperArgs) (log : list HttpRequest) :
  exists (log' : list HttpRequest) (v : pyval),
    search_flights_sky_scrapper a log = (log', Some (Ok v))
    /\ tool_result v = true
    /\ (log' = log \/ exists request : HttpRequest, log' = (log ++ [request])%list).
Proof.
  destruct (sky_scrapper_run a log) as [log' [v Hrun]].
  exists log', v; exact Hrun.
Qed.

Lemma tool_result_cases (v : pyval) :
  tool_result v = true ->
  (exists message : string, v = VDict [("error", VStr message)] /\ message <> "")
  \/ (exists (flights : list pyval) (summary : string),
         v = VDict [("flights", VList flights); ("summary", VStr summary)]
         /\ summary <> "" /\ forallb listable flights = true).
Proof.
  unfold tool_result; intros Hv.
  destruct v as [| | | | | |entries]; try discriminate.
  destruct entries as [|[k1 x1] [|[k2 x2] [|]]]; try discriminate.
  - destruct x1 as [| | | |message| |]; try discriminate.
    apply andb_prop in Hv; destruct Hv as [Hk Hm]; apply String.eqb_eq in Hk; subst k1.
    left; exists message; split; [reflexivity|]; destruct message; discriminate.
  - destruct x1 as [| | | |message|flights|]; try discriminate;
      destruct x2 as [| | | |summary| |]; try discriminate.
    apply andb_prop in Hv; destruct Hv as [Hv Hall].
    apply andb_prop in Hv; destruct Hv as [Hv Hs].
    apply andb_prop in Hv; destruct Hv as [Hk1 Hk2].
    apply String.eqb_eq in Hk1, Hk2; subst k1 k2.
    right; exists flights, summary.
    split; [reflexivity|]; split; [|assumption].
    destruct summary; discriminate.
  - destruct x1; try discriminate; destruct x2; discriminate.
Qed.

Lemma format_flights_listable (flights : list pyval) :
  forallb listable flights = true ->
  forall idx : nat,
  exists lines : list string,
    Agent.format_flights idx flights = Ok lines /\ length lines = length flights.
Proof.
  induction flights as [|f rest IH]; cbn [forallb Agent.format_flights]; intros Hall idx.
  - exists []; split; reflexivity.
  - apply andb_prop in Hall; destruct Hall as [Hf Hrest].
    unfold listable in Hf; destruct (Agent.flight_fields f) as [r|e] eqn:Hr; [|discriminate].
    rewrite (AgentSpec.format_flight_fields idx f r Hr); cbn [rbind].
    destruct (IH Hrest (S idx)) as [lines [-> Hlen]]; cbn [rbind].
    eexists; split; [reflexivity|]; cbn [length]; congruence.
Qed.

(** The agent can always show what the tool functions return: rendering
    a dict of one of their two shapes does not raise and gives at least
    one line (the problem line for an error, the summary alone when no
    flight was found, and otherwise the header, one entry per flight and
    the summary). *)
Lemma tool_result_renders (v : pyval) :
  tool_result v = true ->
  exists (payload : dict) (lines : list string),
    v = VDict payload
    /\ Agent.render_payload payload = Ok lines
    /\ lines <> []
    /\ (forall flights : list pyval,
          dict_get payload "flights" = VList flights ->
          flights <> [] ->
          length lines = 2 + length flights).
Proof.
  intros Hv; destruct (tool_result_cases v Hv)
    as [[message [-> Hm]]|[flights [summary [-> [Hs Hall]]]]].
  - exists [("error", VStr message)], ["Sorry, there was a problem: " ++ message].
    split; [reflexivity|]; split.
    + unfold Agent.render_payload; cbn [dict_get lookup String.eqb Ascii.eqb Bool.eqb].
      destruct message; [congruence | reflexivity].
    + split; [discriminate|]; intros flights Hflights; discriminate.
  - destruct flights as [|f rest].
    + exists [("flights", VList []); ("summary", VStr summary)], [summary].
      split; [reflexivity|]; split.
      * unfold Agent.render_payload; cbn [dict_get lookup String.eqb Ascii.eqb Bool.eqb py_truthy].
        destruct summary; [congruence | reflexivity].
      * split; [discriminate|]; intros flights Hflights Hne.
        cbn in Hflights; injection Hflights as <-; congruence.
    + destruct (format_flights_listable (f :: rest) Hall 1) as [entries [Hentries Hlen]].
      exists [("flights", VList (f :: rest)); ("summary", VStr summary)],
        (Agent.flights_header :: entries ++ [(nl ++ "Summary: " ++ summary)%string])%list.
      split; [reflexivity|]; split.
      * unfold Agent.render_payload;
          cbn [dict_get lookup String.eqb Ascii.eqb Bool.eqb py_truthy iterate rbind].
        rewrite Hentries; cbn [rbind].
        destruct summary; [congruence | reflexivity].
      * split; [discriminate|]; intros flights Hflights _.
        cbn in Hflights; injection Hflights as <-.
        cbn [length]; rewrite length_app, Hlen; cbn [length]; lia.
Qed.

Lemma map_result_dicts {X : Type} (f : pyval -> result X) (g : dict -> X) (items : list dict) :
  (forall item, f (VDict item) = Ok (g item)) ->
  map_result f (map VDict items) = Ok (map g items).
Proof.
  intros Hf; induction items as [|item rest IH]; cbn [map map_result]; [reflexivity|].
  rewrite Hf, IH; reflexivity.
Qed.

Lemma map_result_first_failure {X Y : Type} (f : X -> result Y) (good : list X) (bad : X)
  (rest : list X) (e : pyexn) :
  Forall (fun x => exists y, f x = Ok y) good ->
  f bad = Raise e ->
  map_result f (good ++ bad :: rest) = Raise e.
Proof.
  induction 1 as [|x good [y Hy] _ IH]; cbn [app map_result]; intros Hbad.
  - rewrite Hbad; reflexivity.
  - rewrite Hy, (IH Hbad); reflexivity.
Qed.

(** X2: when the provider answers 200 with a JSON object whose "data" is a
    list of objects, every entry becomes one flight, in the order of the
    list: the provider's departureTime, arrivalTime, duration, price and
    flightNumber become departure_time, arrival_time, duration_hours,
    price_usd and notes, a field that is missing gets "N/A" (airline,
    origin, destination, times), 0 (stops), None (duration, price),
    "USD" (currency) or "" (notes), and the summary counts the entries. *)
Theorem sky_scrapper_lists_every_entry
  (a : SearchFlightsTool.SkyScrapperArgs) (log : list HttpRequest) (key : string)
  (resp : HttpResponse) (entries : dict) (items : list dict) :
  let request := Get (sky_url a) [] (rapidapi_headers key) 30 in
  getenv "FLIGHTS_SCRAPER_SKY_API_KEY" = Some key ->
  key <> "" ->
  requests_get log request = Ok resp ->
  status_code resp = 200%Z ->
  resp_json resp = Ok (VDict entries) ->
  lookup "data" entries = Some (VList (map VDict items)) ->
  search_flights_sky_scrapper a log
  = ((log ++ [request])%list,
     Some (Ok (VDict
                 [("flights",
                   VList (map (fun item =>
                                 VDict [("airline", get_or item "airline" (VStr "N/A"));
                                        ("origin", get_or item "origin" (VStr "N/A"));
                                        ("destination", get_or item "destination" (VStr "N/A"));
                                        ("departure_time",
                                         get_or item "departureTime" (VStr "N/A"));
                                        ("arrival_time", get_or item "arrivalTime" (VStr "N/A"));
                                        ("duration_hours", get_or item "duration" VNone);
                                        ("stops", get_or item "stops" (VInt 0));
                                        ("price_usd", get_or item "price" VNone);
                                        ("currency", get_or item "currency" (VStr "USD"));
                                        ("notes", get_or item "flightNumber" (VStr ""))])
                             items));
                  ("summary",
                   VStr ("Found " ++ nat_str (length items) ++ " flights from "
                           ++ py_str (SearchFlightsTool.originSkyId a) ++ " to "
                           ++ py_str (SearchFlightsTool.destinationSkyId a) ++ " on "
                           ++ py_str (SearchFlightsTool.sky_departure_date a) ++ "."))]))).
Proof.
  intros request Hkey Hne Hresp Hstatus Hjson Hdata.
  unfold search_flights_sky_scrapper; rewrite Hkey.
  destruct key as [|c key]; [congruence|].
  unfold catch, bind, http_get, ask, lift, ret; fold request.
  rewrite Hresp, Hstatus, Hjson; cbn [Z.eqb Pos.eqb negb].
  unfold sky_result; rewrite Hdata.
  rewrite (map_result_dicts sky_flight _ items sky_flight_dict); cbn [rbind].
  unfold sky_summary; rewrite length_map; reflexivity.
Qed.

(** X3: one entry of the provider's list that is not an object spoils the
    whole answer: the result is the error dict with the exception text
    for the first such entry, and none of the flights. *)
Theorem sky_scrapper_gives_up_on_a_bad_entry
  (a : SearchFlightsTool.SkyScrapperArgs) (log : list HttpRequest) (key : string)
  (resp : HttpResponse) (entries : dict) (good : list dict) (bad : pyval) (rest : list pyval) :
  let request := Get (sky_url a) [] (rapidapi_headers key) 30 in
  getenv "FLIGHTS_SCRAPER_SKY_API_KEY" = Some key ->
  key <> "" ->
  requests_get log request = Ok resp ->
  status_code resp = 200%Z ->
  resp_json resp = Ok (VDict entries) ->
  lookup "data" entries = Some (VList (map VDict good ++ bad :: rest)) ->
  (forall d, bad <> VDict d) ->
  search_flights_sky_scrapper a log
  = ((log ++ [request])%list,
     Some (Ok (VDict [("error",
                       VStr ("Sky Scrapper API exception: '" ++ type_name bad
                               ++ "' object has no attribute 'get'"))]))).
Proof.
  intros request Hkey Hne Hresp Hstatus Hjson Hdata Hbad.
  unfold search_flights_sky_scrapper; rewrite Hkey.
  destruct key as [|c key]; [congruence|].
  unfold catch, bind, http_get, ask, lift, ret; fold request.
  rewrite Hresp, Hstatus, Hjson; cbn [Z.eqb Pos.eqb negb].
  unfold sky_result; rewrite Hdata.
  rewrite (map_result_first_failure sky_flight (map VDict good) bad rest
             (AttributeError bad "get")).
  - reflexivity.
  - apply Forall_forall; intros x Hin; apply in_map_iff in Hin.
    destruct Hin as [d [<- _]]; rewrite sky_flight_dict; eauto.
  - destruct bad; try reflexivity; exfalso; eapply Hbad; reflexivity.
Qed.

(** *** search_google_flights_serpapi *)

Lemma flat_map_result_forall {X Y : Type} (f : X -> result (list Y)) (P : Y -> Prop)
  (l : list X) :
  (forall x ys, f x = Ok ys -> Forall P ys) ->
  forall r, flat_map_result f l = Ok r -> Forall P r.
Proof.
  intros Hf; induction l as [|x rest IH]; cbn [flat_map_result]; intros r Hr.
  - injection Hr as <-; constructor.
  - apply rbind_ok in Hr; destruct Hr as [ys [Hys Hr]].
    apply rbind_ok in Hr; destruct Hr as [zs [Hzs Hr]].
    injection Hr as <-; apply Forall_app; eauto.
Qed.

Lemma serp_flight_fields (a : SerpApiArgs) (group f flight : pyval) :
  serp_flight a group f = Ok flight ->
  listable flight = true
  /\ (exists layovers,
         get_default group "layovers" (VList []) = Ok layovers
         /\ getitem flight "stops" = py_len layovers)
  /\ getitem flight "price_usd" = get_default group "price" VNone
  /\ getitem flight "currency" = Ok (serp_currency a).
Proof.
  unfold serp_flight; intros Hf.
  do 10 (apply rbind_ok in Hf; destruct Hf as [? [_ Hf]]).
  apply rbind_ok in Hf; destruct Hf as [duration_hours [_ Hf]].
  apply rbind_ok in Hf; destruct Hf as [layovers [Hlayovers Hf]].
  apply rbind_ok in Hf; destruct Hf as [stops [Hstops Hf]].
  apply rbind_ok in Hf; destruct Hf as [price [Hprice Hf]].
  apply rbind_ok in Hf; destruct Hf as [notes [_ Hf]].
  injection Hf as <-; split; [reflexivity|]; split; [|split].
  - exists layovers; split; [assumption|]; rewrite Hstops; reflexivity.
  - rewrite Hprice; reflexivity.
  - reflexivity.
Qed.

Lemma serp_group_listable (a : SerpApiArgs) (group : pyval) (flights : list pyval) :
  serp_group a group = Ok flights -> Forall (fun f => listable f = true) flights.
Proof.
  unfold serp_group; intros Hg.
  apply rbind_ok in Hg; destruct Hg as [listed [_ Hg]].
  apply rbind_ok in Hg; destruct Hg as [fs [_ Hg]].
  apply map_result_ok in Hg.
  induction Hg as [|f flight fs flights Hf _ IH]; constructor; [|assumption].
  exact (proj1 (serp_flight_fields _ _ _ _ Hf)).
Qed.

Lemma serp_result_shape (a : SerpApiArgs) (data v : pyval) :
  serp_result a data = Ok v -> tool_result v = true.
Proof.
  unfold serp_result; intros Hv.
  apply rbind_ok in Hv; destruct Hv as [metadata [_ Hv]].
  apply rbind_ok in Hv; destruct Hv as [status [_ Hv]].
  destruct (negb (is_str status "Success")).
  - apply rbind_ok in Hv; destruct Hv as [metadata' [_ Hv]].
    apply rbind_ok in Hv; destruct Hv as [status' [_ Hv]].
    injection Hv as <-; reflexivity.
  - apply rbind_ok in Hv; destruct Hv as [best [_ Hv]].
    apply rbind_ok in Hv; destruct Hv as [other [_ Hv]].
    apply rbind_ok in Hv; destruct Hv as [both [_ Hv]].
    apply rbind_ok in Hv; destruct Hv as [groups [_ Hv]].
    apply rbind_ok in Hv; destruct Hv as [flights [Hflights Hv]].
    injection Hv as <-; cbn.
    apply forallb_forall, Forall_forall.
    eapply flat_map_result_forall; [|exact Hflights].
    intros group ys Hys; exact (serp_group_listable _ _ _ Hys).
Qed.

Lemma serpapi_run (a : SerpApiArgs) (log : list HttpRequest) :
  exists (log' : list HttpRequest) (v : pyval),
    search_google_flights_serpapi a log = (log', Some (Ok v))
    /\ tool_result v = true
    /\ (log' = log \/ exists request : HttpRequest, log' = (log ++ [request])%list).
Proof.
  unfold search_google_flights_serpapi.
  destruct (getenv "SERPAPI_KEY") as [[|c key]|];
    try (do 2 eexists; split; [reflexivity | split; [reflexivity | left; reflexivity]]).
  unfold catch, bind, http_get, ask, lift, ret.
  destruct (requests_get log _) as [resp|e];
    [|do 2 eexists; split; [reflexivity | split; [reflexivity | right; eauto]]].
  destruct (negb (status_code resp =? 200)%Z);
    [do 2 eexists; split; [reflexivity | split; [reflexivity | right; eauto]]|].
  destruct (resp_json resp) as [data|e];
    [|do 2 eexists; split; [reflexivity | split; [reflexivity | right; eauto]]].
  destruct (serp_result a data) as [v|e] eqn:Hv;
    [|do 2 eexists; split; [reflexivity | split; [reflexivity | right; eauto]]].
  do 2 eexists; split; [reflexivity | split; [eauto using serp_result_shape | right; eauto]].
Qed.

(** X4: whatever the environment and the network do,
    [search_google_flights_serpapi] returns and does not raise, it
    makes at most one request, and what it returns is one of its two
    dicts: an error with its message, or flights the agent can list
    with their summary. *)
Theorem serpapi_always_answers (a : SerpApiArgs) (log : list HttpRequest) :
  exists (log' : list HttpRequest) (v : pyval),
    search_google_flights_serpapi a log = (log', Some (Ok v))
    /\ tool_result v = true
    /\ (log' = log \/ exists request : HttpRequest, log' = (log ++ [request])%list).
Proof.
  destruct (serpapi_run a log) as [log' [v Hrun]].
  exists log', v; exact Hrun.
Qed.

(** X5: when the search succeeded, the flights of the groups under
    "best_flights" come first and those of the groups under
    "other_flights" after them, each group in its place, and the
    summary counts them all; a list that is missing counts as empty. *)
Theorem serpapi_lists_best_flights_first
  (a : SerpApiArgs) (log : list HttpRequest) (key : string) (resp : HttpResponse)
  (entries metadata : dict) (best other from_best from_other : list pyval) :
  let request := Get "https://serpapi.com/search" (serp_params key a) [] 30 in
  getenv "SERPAPI_KEY" = Some key ->
  key <> "" ->
  requests_get log request = Ok resp ->
  status_code resp = 200%Z ->
  resp_json resp = Ok (VDict entries) ->
  lookup "search_metadata" entries = Some (VDict metadata) ->
  lookup "status" metadata = Some (VStr "Success") ->
  get_or entries "best_flights" (VList []) = VList best ->
  get_or entries "other_flights" (VList []) = VList other ->
  flat_map_result (serp_group a) best = Ok from_best ->
  flat_map_result (serp_group a) other = Ok from_other ->
  search_google_flights_serpapi a log
  = ((log ++ [request])%list,
     Some (Ok (VDict
                 [("flights", VList (from_best ++ from_other));
                  ("summary",
                   VStr ("Found " ++ nat_str (length from_best + length from_other)
                           ++ " flights from " ++ py_str (serp_origin a) ++ " to "
                           ++ py_str (serp_destination a) ++ " on "
                           ++ py_str (serp_departure_date a) ++ " (Google Flights)."))]))).
Proof.
  intros request Hkey Hne Hresp Hstatus Hjson Hmeta Hsuccess Hbest Hother Hfb Hfo.
  unfold search_google_flights_serpapi; rewrite Hkey.
  destruct key as [|c key]; [congruence|].
  unfold catch, bind, http_get, ask, lift, ret; fold request.
  rewrite Hresp, Hstatus, Hjson; cbn [Z.eqb Pos.eqb negb].
  unfold serp_result, get_default; rewrite Hmeta; cbn [rbind]; rewrite Hsuccess; cbn [rbind].
  cbn [is_str String.eqb Ascii.eqb Bool.eqb negb].
  unfold get_or in Hbest, Hother.
  replace (match lookup "best_flights" entries with
           | Some x => Ok x
           | None => Ok (VList [])
           end) with (Ok (VList best) : result pyval)
    by (destruct (lookup "best_flights" entries); rewrite <- Hbest; reflexivity).
  replace (match lookup "other_flights" entries with
           | Some x => Ok x
           | None => Ok (VList [])
           end) with (Ok (VList other) : result pyval)
    by (destruct (lookup "other_flights" entries); rewrite <- Hother; reflexivity).
  cbn [rbind py_add iterate].
  rewrite (flat_map_result_app _ _ _ _ _ Hfb Hfo); cbn [rbind].
  unfold serp_summary; rewrite length_app; reflexivity.
Qed.

Lemma serp_flight_of_leg (a : SerpApiArgs) (group leg flight : pyval) :
  serp_flight a group leg = Ok flight ->
  getitem flight "airline" = get_default leg "airline" (VStr "N/A")
  /\ getitem flight "origin"
     = (airport <- get_default leg "departure_airport" (VDict []) ;;
        get_default airport "id" (VStr "N/A"))%result
  /\ getitem flight "destination"
     = (airport <- get_default leg "arrival_airport" (VDict []) ;;
        get_default airport "id" (VStr "N/A"))%result
  /\ getitem flight "departure_time"
     = (airport <- get_default leg "departure_airport" (VDict []) ;;
        get_default airport "time" (VStr "N/A"))%result
  /\ getitem flight "arrival_time"
     = (airport <- get_default leg "arrival_airport" (VDict []) ;;
        get_default airport "time" (VStr "N/A"))%result
  /\ getitem flight "duration_hours"
     = (duration <- get_default leg "duration" VNone ;;
        if py_truthy duration
        then (minutes <- get_default leg "duration" (VInt 0) ;; round_hours minutes)
        else Ok VNone)%result
  /\ getitem flight "notes" = get_default leg "flight_number" (VStr "")
  /\ getitem flight "price_usd" = get_default group "price" VNone
  /\ getitem flight "stops"
     = (layovers <- get_default group "layovers" (VList []) ;; py_len layovers)%result
  /\ getitem flight "currency" = Ok (serp_currency a).
Proof.
  unfold serp_flight; intros Hf.
  apply rbind_ok in Hf; destruct Hf as [airline [Hairline Hf]].
  apply rbind_ok in Hf; destruct Hf as [departure [Hdeparture Hf]].
  apply rbind_ok in Hf; destruct Hf as [origin [Horigin Hf]].
  apply rbind_ok in Hf; destruct Hf as [arrival [Harrival Hf]].
  apply rbind_ok in Hf; destruct Hf as [destination [Hdestination Hf]].
  apply rbind_ok in Hf; destruct Hf as [departure' [Hdeparture' Hf]].
  apply rbind_ok in Hf; destruct Hf as [departure_time [Hdeparture_time Hf]].
  apply rbind_ok in Hf; destruct Hf as [arrival' [Harrival' Hf]].
  apply rbind_ok in Hf; destruct Hf as [arrival_time [Harrival_time Hf]].
  apply rbind_ok in Hf; destruct Hf as [duration [Hduration Hf]].
  apply rbind_ok in Hf; destruct Hf as [duration_hours [Hhours Hf]].
  apply rbind_ok in Hf; destruct Hf as [layovers [Hlayovers Hf]].
  apply rbind_ok in Hf; destruct Hf as [stops [Hstops Hf]].
  apply rbind_ok in Hf; destruct Hf as [price [Hprice Hf]].
  apply rbind_ok in Hf; destruct Hf as [notes [Hnotes Hf]].
  injection Hf as <-.
  rewrite Hdeparture in Hdeparture'; injection Hdeparture' as <-.
  rewrite Harrival in Harrival'; injection Harrival' as <-.
  rewrite Hairline, Hdeparture, Harrival, Hduration, Hlayovers, Hprice, Hnotes.
  cbn [rbind]; rewrite Horigin, Hdestination, Hdeparture_time, Harrival_time, Hhours, Hstops.
  repeat split.
Qed.

(** X6: every leg of a group becomes a flight of its own, in the order of
    the legs: the i-th record is made of the i-th leg, from which it
    takes its airline, the ids and times of its two airports, its
    duration and its flight number, each with its default.  Every
    record of the group carries besides what belongs to the group as a
    whole: its price, and the number of its layovers as the stops; the
    currency is the one the caller asked for, not one the provider
    names. *)
Theorem serpapi_legs_carry_the_price_of_their_group
  (a : SerpApiArgs) (group : dict) (legs flights : list pyval) :
  get_or group "flights" (VList []) = VList legs ->
  serp_group a (VDict group) = Ok flights ->
  Forall2 (fun leg flight =>
             getitem flight "airline" = get_default leg "airline" (VStr "N/A")
             /\ getitem flight "origin"
                = (airport <- get_default leg "departure_airport" (VDict []) ;;
                   get_default airport "id" (VStr "N/A"))%result
             /\ getitem flight "destination"
                = (airport <- get_default leg "arrival_airport" (VDict []) ;;
                   get_default airport "id" (VStr "N/A"))%result
             /\ getitem flight "departure_time"
                = (airport <- get_default leg "departure_airport" (VDict []) ;;
                   get_default airport "time" (VStr "N/A"))%result
             /\ getitem flight "arrival_time"
                = (airport <- get_default leg "arrival_airport" (VDict []) ;;
                   get_default airport "time" (VStr "N/A"))%result
             /\ getitem flight "duration_hours"
                = (duration <- get_default leg "duration" VNone ;;
                   if py_truthy duration
                   then (minutes <- get_default leg "duration" (VInt 0) ;;
                         round_hours minutes)
                   else Ok VNone)%result
             /\ getitem flight "notes" = get_default leg "flight_number" (VStr "")
             /\ getitem flight "price_usd" = Ok (get_or group "price" VNone)
             /\ getitem flight "stops" = py_len (get_or group "layovers" (VList []))
             /\ getitem flight "currency" = Ok (serp_currency a))
    legs flights.
Proof.
  intros Hlegs Hg; unfold serp_group, get_default in Hg.
  replace (match lookup "flights" group with
           | Some x => Ok x
           | None => Ok (VList [])
           end) with (Ok (VList legs) : result pyval) in Hg
    by (unfold get_or in Hlegs; destruct (lookup "flights" group); rewrite <- Hlegs; reflexivity).
  cbn [rbind iterate] in Hg; apply map_result_ok in Hg; clear Hlegs.
  induction Hg as [|leg flight legs' flights' Hf _ IH]; constructor; [|assumption].
  destruct (serp_flight_of_leg _ _ _ _ Hf)
    as [H1 [H2 [H3 [H4 [H5 [H6 [H7 [Hprice [Hstops Hcurrency]]]]]]]]].
  repeat (split; [assumption|]).
  unfold get_default in Hprice, Hstops; unfold get_or.
  split; [|split].
  - rewrite Hprice; destruct (lookup "price" group); reflexivity.
  - rewrite Hstops; destruct (lookup "layovers" group); reflexivity.
  - exact Hcurrency.
Qed.

(** *** lookup_sky_scrapper_location *)

Lemma location_of_dict (item : dict) :
  location_of (VDict item)
  = Ok {| SearchFlightsTool.name := get_or item "name" VNone;
          SearchFlightsTool.iata := get_or item "iata" VNone;
          SearchFlightsTool.skyId := get_or item "skyId" VNone;
          SearchFlightsTool.entityId := get_or item "entityId" VNone;
          SearchFlightsTool.type_ := get_or item "type" VNone |}.
Proof.
  unfold location_of, get_default, get_or.
  repeat match goal with
         | |- context [lookup ?k item] => destruct (lookup k item)
         end; reflexivity.
Qed.

(** One round of the loop makes one request and never raises; when it
    finds locations there is at least one. *)
Lemma lookup_attempt_cases (api_key q : string) (log : list HttpRequest) :
  exists found : option (list SearchFlightsTool.Location),
    lookup_attempt api_key q log
    = ((log ++ [Get (airport_url q) [] (rapidapi_headers api_key) 15])%list, Some (Ok found))
    /\ found <> Some [].
Proof.
  unfold lookup_attempt, catch, bind, http_get, ask, lift, ret.
  destruct (requests_get log _) as [resp|e];
    [|exists None; split; [reflexivity | discriminate]].
  destruct (negb (status_code resp =? 200)%Z);
    [exists None; split; [reflexivity | discriminate]|].
  destruct (resp_json resp) as [data|e];
    [|exists None; split; [reflexivity | discriminate]].
  destruct (locations_in data) as [[|loc rest]|e];
    [exists None | exists (Some (loc :: rest)) | exists None];
    split; try reflexivity; discriminate.
Qed.

Lemma queries_for_both (s : string) :
  queries_for s = [upper (strip s); title (strip s)].
Proof. unfold queries_for; destruct (_ && _); reflexivity. Qed.

Lemma location_lookup_run (s : string) (log : list HttpRequest) :
  exists (new : list HttpRequest) (info : SearchFlightsTool.LookupInfo) (n : nat),
    lookup_sky_scrapper_location (VStr s) log = ((log ++ new)%list, Some (Ok info))
    /\ map url new
       = firstn n [airport_url (upper (strip s)); airport_url (title (strip s))]
    /\ info <> SearchFlightsTool.InfoResults [].
Proof.
  unfold lookup_sky_scrapper_location.
  destruct (getenv "FLIGHTS_SCRAPER_SKY_API_KEY") as [[|c key]|];
    try (exists [], (SearchFlightsTool.InfoError "Sky Scrapper API key not set in .env"), 0;
         rewrite app_nil_r; repeat split; discriminate).
  rewrite queries_for_both; cbn [lookup_queries]; unfold bind.
  destruct (lookup_attempt_cases (String c key) (upper (strip s)) log)
    as [[rs|] [-> Hrs]].
  - exists [Get (airport_url (upper (strip s))) [] (rapidapi_headers (String c key)) 15],
      (SearchFlightsTool.InfoResults rs), 1.
    split; [reflexivity|]; split; [reflexivity | congruence].
  - destruct (lookup_attempt_cases (String c key) (title (strip s))
                (log ++ [Get (airport_url (upper (strip s))) []
                           (rapidapi_headers (String c key)) 15])%list)
      as [[rs|] [-> Hrs']].
    + exists [Get (airport_url (upper (strip s))) [] (rapidapi_headers (String c key)) 15;
              Get (airport_url (title (strip s))) [] (rapidapi_headers (String c key)) 15],
        (SearchFlightsTool.InfoResults rs), 2.
      rewrite <- (app_assoc log); split; [reflexivity|]; split; [reflexivity | congruence].
    + eexists [Get (airport_url (upper (strip s))) [] (rapidapi_headers (String c key)) 15;
               Get (airport_url (title (strip s))) [] (rapidapi_headers (String c key)) 15],
        _, 2.
      rewrite <- (app_assoc log); split; [reflexivity|]; split; [reflexivity | discriminate].
Qed.

(** X7: for a str, whatever the environment and the network do,
    [lookup_sky_scrapper_location] returns and does not raise; it asks
    for the stripped query in upper case first and in title case next,
    whatever its length, and makes no other request; when it returns
    results there is at least one. *)
Theorem location_lookup_always_answers (s : string) (log : list HttpRequest) :
  exists (new : list HttpRequest) (info : SearchFlightsTool.LookupInfo) (n : nat),
    lookup_sky_scrapper_location (VStr s) log = ((log ++ new)%list, Some (Ok info))
    /\ map url new
       = firstn n [airport_url (upper (strip s)); airport_url (title (strip s))]
    /\ info <> SearchFlightsTool.InfoResults [].
Proof.
  destruct (location_lookup_run s log) as [new [info [n Hrun]]].
  exists new, info, n; exact Hrun.
Qed.

(** X8: when the provider answers the first query (the stripped text in
    upper case) with 200 and a JSON object whose "data" is a list of
    objects that is not empty, these are the results, in order, each
    with its name, iata, skyId, entityId and type (None when missing),
    and the query in title case is never sent. *)
Theorem location_lookup_stops_at_the_first_answer
  (s : string) (log : list HttpRequest) (key : string) (resp : HttpResponse)
  (entries : dict) (item : dict) (items : list dict) :
  let request := Get (airport_url (upper (strip s))) [] (rapidapi_headers key) 15 in
  getenv "FLIGHTS_SCRAPER_SKY_API_KEY" = Some key ->
  key <> "" ->
  requests_get log request = Ok resp ->
  status_code resp = 200%Z ->
  resp_json resp = Ok (VDict entries) ->
  lookup "data" entries = Some (VList (map VDict (item :: items))) ->
  lookup_sky_scrapper_location (VStr s) log
  = ((log ++ [request])%list,
     Some (Ok (SearchFlightsTool.InfoResults
                 (map (fun item =>
                         {| SearchFlightsTool.name := get_or item "name" VNone;
                            SearchFlightsTool.iata := get_or item "iata" VNone;
                            SearchFlightsTool.skyId := get_or item "skyId" VNone;
                            SearchFlightsTool.entityId := get_or item "entityId" VNone;
                            SearchFlightsTool.type_ := get_or item "type" VNone |})
                    (item :: items))))).
Proof.
  intros request Hkey Hne Hresp Hstatus Hjson Hdata.
  unfold lookup_sky_scrapper_location; rewrite Hkey.
  destruct key as [|c key]; [congruence|].
  rewrite queries_for_both; cbn [lookup_queries].
  unfold bind at 1, lookup_attempt, catch, bind, http_get, ask, lift, ret; fold request.
  rewrite Hresp, Hstatus, Hjson; cbn [Z.eqb Pos.eqb negb].
  unfold locations_in, get_default; rewrite Hdata; cbn [rbind iterate].
  rewrite (map_result_dicts location_of _ (item :: items) location_of_dict).
  reflexivity.
Qed.

(** X9: when no request is answered with 200, the lookup returns the error
    that names the query as it was given and the two texts it tried, in
    the order it tried them. *)
Theorem location_lookup_reports_what_it_tried
  (s : string) (log : list HttpRequest) (key : string) :
  getenv "FLIGHTS_SCRAPER_SKY_API_KEY" = Some key ->
  key <> "" ->
  (forall (l : list HttpRequest) (request : HttpRequest) (resp : HttpResponse),
      requests_get l request = Ok resp -> status_code resp <> 200%Z) ->
  lookup_sky_scrapper_location (VStr s) log
  = ((log ++ [Get (airport_url (upper (strip s))) [] (rapidapi_headers key) 15;
              Get (airport_url (title (strip s))) [] (rapidapi_headers key) 15])%list,
     Some (Ok (SearchFlightsTool.InfoError
                 ("Sky Scrapper could not find location for: " ++ s ++ " (tried: "
                    ++ py_str (VList [VStr (upper (strip s)); VStr (title (strip s))])
                    ++ ")")))).
Proof.
  intros Hkey Hne Hdown.
  assert (Hattempt : forall q l,
             lookup_attempt key q l
             = ((l ++ [Get (airport_url q) [] (rapidapi_headers key) 15])%list,
                Some (Ok None))).
  { intros q l; unfold lookup_attempt, catch, bind, http_get, ask, lift, ret.
    destruct (requests_get l _) as [resp|e] eqn:Hresp; [|reflexivity].
    destruct (Z.eqb_spec (status_code resp) 200) as [H200|_]; [|reflexivity].
    exfalso; eapply Hdown; eauto. }
  unfold lookup_sky_scrapper_location; rewrite Hkey.
  destruct key as [|c key]; [congruence|].
  rewrite queries_for_both; cbn [lookup_queries]; unfold bind.
  rewrite !Hattempt, <- (app_assoc log); reflexivity.
Qed.

(** *** The first capability on top of them *)

Lemma outcome_of_lookup (s : string) :
  exists info : SearchFlightsTool.LookupInfo,
    outcome_of (lookup_sky_scrapper_location (VStr s)) = Ok info.
Proof.
  destruct (location_lookup_run s []) as [new [info [n [Hrun _]]]].
  exists info; unfold outcome_of; rewrite Hrun; reflexivity.
Qed.

Lemma outcome_of_sky (a : SearchFlightsTool.SkyScrapperArgs) :
  exists v : pyval,
    outcome_of (search_flights_sky_scrapper a) = Ok v /\ tool_result v = true.
Proof.
  destruct (sky_scrapper_run a []) as [log' [v [Hrun [Hv _]]]].
  exists v; unfold outcome_of; rewrite Hrun; split; [reflexivity | assumption].
Qed.

(** X10: with the functions above behind it, [unified_search_flights] given
    a str for the origin and a str for the destination returns and does
    not raise, whatever the environment and the network do, and what it
    returns is an error dict with its message or flights the agent can
    list with their summary. *)
Theorem unified_search_always_answers
  (a : SearchFlightsTool.SearchArgs) (origin destination : string)
  (log : list SearchFlightsTool.Request) :
  SearchFlightsTool.origin a = VStr origin ->
  SearchFlightsTool.destination a = VStr destination ->
  exists (log' : list SearchFlightsTool.Request) (v : pyval),
    SearchFlightsTool.unified_search_flights (P := http_providers) a log
    = (log', Some (Ok v))
    /\ tool_result v = true.
Proof.
  intros Ho Hd.
  unfold SearchFlightsTool.unified_search_flights, SearchFlightsTool.get_sky_ids_for_airports,
    bind, ask, ret, lift.
  cbn [SearchFlightsTool.lookup_sky_scrapper_location http_providers]; rewrite Ho, Hd.
  destruct (outcome_of_lookup origin) as [oi ->].
  destruct (outcome_of_lookup destination) as [di ->].
  destruct oi as [message|[|o os]];
    try (do 2 eexists; split; [reflexivity | reflexivity]).
  destruct di as [message|[|d ds]];
    try (do 2 eexists; split; [reflexivity | reflexivity]).
  cbn [lookup String.eqb Ascii.eqb Bool.eqb getitem];
    cbn [SearchFlightsTool.search_flights_sky_scrapper http_providers].
  match goal with
  | |- context [outcome_of (search_flights_sky_scrapper ?args)] =>
      destruct (outcome_of_sky args) as [v [-> Hv]]
  end.
  do 2 eexists; split; [reflexivity | assumption].
Qed.

(** X11: without the API key, [unified_search_flights] reports that it could
    not find the location of the origin: both lookups return the error
    about the key, and that message is replaced. *)
Theorem missing_key_is_reported_as_unknown_origin
  (a : SearchFlightsTool.SearchArgs) (log : list SearchFlightsTool.Request) :
  getenv "FLIGHTS_SCRAPER_SKY_API_KEY" = None
  \/ getenv "FLIGHTS_SCRAPER_SKY_API_KEY" = Some "" ->
  SearchFlightsTool.unified_search_flights (P := http_providers) a log
  = ((log ++ [SearchFlightsTool.LocationLookup (SearchFlightsTool.origin a);
              SearchFlightsTool.LocationLookup (SearchFlightsTool.destination a)])%list,
     Some (Ok (VDict [("error",
                       VStr ("Could not find Sky Scrapper location for origin: "
                               ++ py_str (SearchFlightsTool.origin a)))]))).
Proof.
  intros Hkey.
  assert (Hlookup : forall query,
             outcome_of (lookup_sky_scrapper_location query)
             = Ok (SearchFlightsTool.InfoError "Sky Scrapper API key not set in .env")).
  { intros query; unfold outcome_of, lookup_sky_scrapper_location.
    destruct Hkey as [-> | ->]; reflexivity. }
  unfold SearchFlightsTool.unified_search_flights, SearchFlightsTool.get_sky_ids_for_airports,
    bind, ask, ret, lift.
  cbn [SearchFlightsTool.lookup_sky_scrapper_location http_providers].
  rewrite !Hlookup, <- (app_assoc log); reflexivity.
Qed.

(** *** The tool functions and the agent *)

(** X12: the agent can always show what the two tool functions return: for
    any arguments, environment and network, the dict either of them
    returns is rendered by the agent without an exception, and into at
    least one line of text. *)
Theorem the_agent_can_show_what_the_tools_return
  (sky : SearchFlightsTool.SkyScrapperArgs) (serp : SerpApiArgs) (log : list HttpRequest) :
  (exists (log' : list HttpRequest) (payload : dict) (lines : list string),
      search_flights_sky_scrapper sky log = (log', Some (Ok (VDict payload)))
      /\ Agent.render_payload payload = Ok lines
      /\ lines <> [])
  /\ (exists (log' : list HttpRequest) (payload : dict) (lines : list string),
         search_google_flights_serpapi serp log = (log', Some (Ok (VDict payload)))
         /\ Agent.render_payload payload = Ok lines
         /\ lines <> []).
Proof.
  split.
  - destruct (sky_scrapper_run sky log) as [log' [v [Hrun [Hv _]]]].
    destruct (tool_result_renders v Hv) as [payload [lines [-> [Hlines [Hne _]]]]].
    exists log', payload, lines; auto.
  - destruct (serpapi_run serp log) as [log' [v [Hrun [Hv _]]]].
    destruct (tool_result_renders v Hv) as [payload [lines [-> [Hlines [Hne _]]]]].
    exists log', payload, lines; auto.
Qed.

End Properties.

Lemma sky_scrapper_lists_every_entry_witness :
  exists flights : list pyval,
    search_flights_sky_scrapper (B := Scenarios.plain)
      (N := NetScenarios.answering (NetScenarios.answer 200 "" (Ok NetScenarios.sky_body)))
      NetScenarios.sky_args []
    = ([Get (sky_url (B := Scenarios.plain) NetScenarios.sky_args) []
          (rapidapi_headers "sky-key") 30],
       Some (Ok (VDict [("flights", VList flights);
                        ("summary",
                         VStr "Found 2 flights from NYCA to LOND on 2025-06-01.")])))
    /\ map (fun flight => getitem flight "airline") flights
       = [Ok (VStr "British Airways"); Ok (VStr "Icelandair")]
    /\ map (fun flight => getitem flight "departure_time") flights
       = [Ok (VStr "2025-06-01T18:30"); Ok (VStr "N/A")].
Proof.
  eexists; split.
  - apply (sky_scrapper_lists_every_entry (B := Scenarios.plain)
             (N := NetScenarios.answering
                     (NetScenarios.answer 200 "" (Ok NetScenarios.sky_body)))
             NetScenarios.sky_args [] "sky-key"
             (NetScenarios.answer 200 "" (Ok NetScenarios.sky_body))
             NetScenarios.sky_entries NetScenarios.sky_items
             eq_refl ltac:(discriminate) eq_refl eq_refl eq_refl eq_refl).
  - split; reflexivity.
Defined.

Lemma sky_scrapper_gives_up_on_a_bad_entry_witness :
  snd (search_flights_sky_scrapper (B := Scenarios.plain)
         (N := NetScenarios.answering
                 (NetScenarios.answer 200 "" (Ok (VDict NetScenarios.sky_entries_spoilt))))
         NetScenarios.sky_args [])
  = Some (Ok (VDict [("error",
                      VStr "Sky Scrapper API exception: 'str' object has no attribute 'get'")])).
Proof.
  rewrite (sky_scrapper_gives_up_on_a_bad_entry (B := Scenarios.plain)
             (N := NetScenarios.answering
                     (NetScenarios.answer 200 ""
                        (Ok (VDict NetScenarios.sky_entries_spoilt))))
             NetScenarios.sky_args [] "sky-key"
             (NetScenarios.answer 200 "" (Ok (VDict NetScenarios.sky_entries_spoilt)))
             NetScenarios.sky_entries_spoilt NetScenarios.sky_items (VStr "n/a") []
             eq_refl ltac:(discriminate) eq_refl eq_refl eq_refl eq_refl
             ltac:(discriminate)).
  reflexivity.
Defined.

Lemma serpapi_lists_best_flights_first_witness :
  exists flights : list pyval,
    snd (search_google_flights_serpapi (B := Scenarios.plain)
           (I := NetScenarios.ascii_interpreter)
           (N := NetScenarios.answering (NetScenarios.answer 200 "" (Ok NetScenarios.serp_body)))
           NetScenarios.serp_args [])
    = Some (Ok (VDict [("flights", VList flights);
                       ("summary",
                        VStr "Found 3 flights from JFK to LHR on 2025-06-01 (Google Flights).")]))
    /\ map (fun flight => getitem flight "notes") flights
       = [Ok (VStr "FI 614"); Ok (VStr "FI 450"); Ok (VStr "BA 112")].
Proof.
  eexists; split.
  - rewrite (serpapi_lists_best_flights_first (B := Scenarios.plain)
               (I := NetScenarios.ascii_interpreter)
               (N := NetScenarios.answering
                       (NetScenarios.answer 200 "" (Ok NetScenarios.serp_body)))
               NetScenarios.serp_args [] "serp-key"
               (NetScenarios.answer 200 "" (Ok NetScenarios.serp_body))
               NetScenarios.serp_entries [("status", VStr "Success")]
               [VDict NetScenarios.via_keflavik] [VDict NetScenarios.direct] _ _
               eq_refl ltac:(discriminate) eq_refl eq_refl eq_refl eq_refl eq_refl
               eq_refl eq_refl eq_refl eq_refl).
    reflexivity.
  - reflexivity.
Defined.

Lemma serpapi_legs_carry_the_price_of_their_group_witness :
  exists flights : list pyval,
    serp_group (I := NetScenarios.ascii_interpreter) NetScenarios.serp_args
      (VDict NetScenarios.via_keflavik)
    = Ok flights
    /\ Forall2 (fun leg flight =>
                  getitem flight "notes" = get_default leg "flight_number" (VStr "")
                  /\ getitem flight "origin"
                     = (airport <- get_default leg "departure_airport" (VDict []) ;;
                        get_default airport "id" (VStr "N/A"))%result
                  /\ getitem flight "price_usd" = Ok (VInt 540)
                  /\ getitem flight "stops" = Ok (VInt 1)
                  /\ getitem flight "currency" = Ok (VStr "USD"))
         [NetScenarios.leg "Icelandair" "FI 614" "JFK" "KEF" 330;
          NetScenarios.leg "Icelandair" "FI 450" "KEF" "LHR" 190]
         flights.
Proof.
  eexists; split; [reflexivity|].
  eapply Forall2_impl;
    [|exact (serpapi_legs_carry_the_price_of_their_group
               (I := NetScenarios.ascii_interpreter) NetScenarios.serp_args
               NetScenarios.via_keflavik
               [NetScenarios.leg "Icelandair" "FI 614" "JFK" "KEF" 330;
                NetScenarios.leg "Icelandair" "FI 450" "KEF" "LHR" 190]
               _ eq_refl eq_refl)].
  intros leg flight [_ [Horigin [_ [_ [_ [_ [Hnotes [Hprice [Hstops Hcurrency]]]]]]]]].
  split; [exact Hnotes|]; split; [exact Horigin|]; split; [exact Hprice|].
  split; [exact Hstops | exact Hcurrency].
Defined.

Lemma location_lookup_stops_at_the_first_answer_witness :
  exists results : list SearchFlightsTool.Location,
    lookup_sky_scrapper_location (B := Scenarios.plain) (I := NetScenarios.ascii_interpreter)
      (N := NetScenarios.answering
              (NetScenarios.answer 200 "" (Ok NetScenarios.airports_body)))
      (VStr "London") []
    = ([Get (airport_url "LONDON") [] (rapidapi_headers "sky-key") 15],
       Some (Ok (SearchFlightsTool.InfoResults results)))
    /\ map SearchFlightsTool.skyId results = [VStr "LOND"; VStr "LHR"]
    /\ map SearchFlightsTool.iata results = [VNone; VStr "LHR"].
Proof.
  eexists; split.
  - apply (location_lookup_stops_at_the_first_answer (B := Scenarios.plain)
             (I := NetScenarios.ascii_interpreter)
             (N := NetScenarios.answering
                     (NetScenarios.answer 200 "" (Ok NetScenarios.airports_body)))
             "London" [] "sky-key"
             (NetScenarios.answer 200 "" (Ok NetScenarios.airports_body))
             NetScenarios.airports_entries NetScenarios.city [NetScenarios.airport]
             eq_refl ltac:(discriminate) eq_refl eq_refl eq_refl eq_refl).
  - split; reflexivity.
Defined.

Lemma location_lookup_reports_what_it_tried_witness :
  lookup_sky_scrapper_location (B := Scenarios.plain) (I := NetScenarios.ascii_interpreter)
    (N := NetScenarios.offline) (VStr "London") []
  = ([Get (airport_url "LONDON") [] (rapidapi_headers "sky-key") 15;
      Get (airport_url "London") [] (rapidapi_headers "sky-key") 15],
     Some (Ok (SearchFlightsTool.InfoError
                 "Sky Scrapper could not find location for: London (tried: [...])"))).
Proof.
  apply (location_lookup_reports_what_it_tried (B := Scenarios.plain)
           (I := NetScenarios.ascii_interpreter) (N := NetScenarios.offline)
           "London" [] "sky-key" eq_refl ltac:(discriminate)).
  intros l request resp Hresp; discriminate Hresp.
Defined.

Lemma unified_search_always_answers_witness :
  exists (log' : list SearchFlightsTool.Request) (v : pyval),
    SearchFlightsTool.unified_search_flights (B := Scenarios.plain)
      (P := http_providers (B := Scenarios.plain) (I := NetScenarios.ascii_interpreter)
              (N := NetScenarios.title_only))
      (ToolScenarios.search "London" "Paris") []
    = (log', Some (Ok v))
    /\ ToolResults.tool_result v = true.
Proof.
  exact (unified_search_always_answers (B := Scenarios.plain)
           (I := NetScenarios.ascii_interpreter) (N := NetScenarios.title_only)
           (ToolScenarios.search "London" "Paris") "London" "Paris" [] eq_refl eq_refl).
Defined.

Lemma missing_key_is_reported_as_unknown_origin_witness :
  snd (SearchFlightsTool.unified_search_flights (B := Scenarios.plain)
         (P := http_providers (B := Scenarios.plain) (I := NetScenarios.ascii_interpreter)
                 (N := NetScenarios.bare))
         (ToolScenarios.search "London" "Paris") [])
  = Some (Ok (VDict [("error",
                      VStr "Could not find Sky Scrapper location for origin: London")])).
Proof.
  rewrite (missing_key_is_reported_as_unknown_origin (B := Scenarios.plain)
             (I := NetScenarios.ascii_interpreter) (N := NetScenarios.bare)
             (ToolScenarios.search "London" "Paris") [] (or_introl eq_refl)).
  reflexivity.
Defined.

End ProviderCallsSpec.

(** ** More on the dialogue of agent.py *)

Module AgentMoreSpec.
Import Agent PyFacts ToolResults.

Section Properties.
Context `{B : Builtins} `{W : World}.

(** X14: what the caller of [process_query] gets is fixed by how the
    conversation with the model ends: when it ends on a response with
    parts, a string that is not empty (the collected text, the apology,
    or the error text when collecting raises); when it ends on a response
    with no candidate or no part, None; when the model client or a tool
    function raises, the error string with the text of the exception. *)
Theorem what_process_query_returns
  (fuel : nat) (self : FlightSearchAgent) (user_query : string) :
  match conversation fuel user_query (session_log self) with
  | (_, Some (Ok final)) =>
      exists o : Outcome,
        snd (process_query fuel self user_query) = Some o
        /\ match candidates final with
           | [] => returned o = VNone
           | c :: _ =>
               match parts c with
               | [] => returned o = VNone
               | _ :: _ => exists s : string, returned o = VStr s /\ s <> ""
               end
           end
  | (_, Some (Raise e)) =>
      option_map returned (snd (process_query fuel self user_query))
      = Some (VStr ("An error occurred while processing your request: " ++ exn_text e))
  | (_, None) => snd (process_query fuel self user_query) = None
  end.
Proof.
  rewrite AgentSpec.process_query_dialogue; unfold dialogue, bind, lift.
  destruct (conversation fuel user_query (session_log self)) as [log [[final|e]|]];
    try reflexivity.
  destruct (extract_final_text final) as [o|e] eqn:Hextract; cbn [snd].
  - exists o; split; [reflexivity|].
    destruct (AgentSpec.extract_final_text_outcome _ _ Hextract) as [[s [Hs Hne]]|[-> Hnone]].
    + unfold extract_final_text in Hextract.
      destruct (candidates final) as [|c cs];
        [injection Hextract as <-; discriminate|].
      destruct (parts c) as [|p ps]; [injection Hextract as <-; discriminate|].
      eauto.
    + destruct (candidates final) as [|c cs]; [reflexivity|].
      rewrite Hnone; reflexivity.
  - exists (Failure e); split; [reflexivity|].
    unfold extract_final_text in Hextract.
    destruct (candidates final) as [|c cs]; [discriminate|].
    destruct (parts c) as [|p ps]; [discriminate|].
    eexists; split; [reflexivity | discriminate].
Qed.

(** *** A model that never stops asking *)

Lemma tool_loop_never_ends
  (Hmodel : forall log content tools,
      exists r fc,
        send_message_async log content tools = Ok r
        /\ requested_call r = Some fc /\ fc_name fc = "search_flights")
  (Htool : forall log args, exists d, unified_search_flights log args = Ok d)
  (fuel : nat) :
  forall (r : GenerationResponse) (fc : FunctionCall) (log : Log),
    requested_call r = Some fc ->
    fc_name fc = "search_flights" ->
    exists new : Log,
      tool_loop fuel r log = ((log ++ new)%list, None)
      /\ MoreScenarios.calls new = fuel
      /\ Scenarios.sends new = fuel
      /\ Forall (fun ev => match ev with
                           | EvCall name _ => name = "search_flights"
                           | EvSend content tools =>
                               exists part, content = ToolResult part
                           end) new.
Proof.
  induction fuel as [|fuel IH]; intros r fc log Hreq Hname.
  - exists []; cbn [tool_loop]; rewrite Hreq, app_nil_r; repeat split; constructor.
  - assert (Hfn : lookup (fc_name fc) AVAILABLE_FLIGHT_TOOLS = Some unified_search_flights)
      by (rewrite Hname; reflexivity).
    rewrite (AgentSpec.tool_loop_registered _ _ _ _ _ Hreq Hfn).
    unfold bind, call, send, ask.
    destruct (Htool log (fc_args fc)) as [d ->].
    match goal with
    | |- context [send_message_async ?l ?c ?t] =>
        destruct (Hmodel l c t) as [r' [fc' [-> [Hreq' Hname']]]]
    end.
    match goal with
    | |- context [tool_loop fuel r' ?l] =>
        destruct (IH r' fc' l Hreq' Hname') as [new [-> [Hcalls [Hsends Hall]]]]
    end.
    eexists (_ :: _ :: new); rewrite <- !app_assoc.
    split; [reflexivity|].
    cbn [MoreScenarios.calls Scenarios.sends]; rewrite Hcalls, Hsends.
    split; [reflexivity|]; split; [reflexivity|].
    constructor; [exact Hname|]; constructor; [eexists; reflexivity | exact Hall].
Qed.

(** X15: nothing bounds the number of tool calls: with a model that asks for
    [search_flights] in every reply and a function that returns, the
    loop of [process_query] is still running after any number n of
    rounds.  By then the agent has sent the query, called
    [search_flights] n times and sent n results: n calls and n + 1
    messages, and nothing else. *)
Theorem a_model_that_keeps_asking_is_never_answered
  (fuel : nat) (self : FlightSearchAgent) (user_query : string) :
  (forall log content tools,
      exists r fc,
        send_message_async log content tools = Ok r
        /\ requested_call r = Some fc /\ fc_name fc = "search_flights") ->
  (forall log args, exists d, unified_search_flights log args = Ok d) ->
  exists new : Log,
    process_query fuel self user_query
    = ({| chat := Some (session_log self
                          ++ EvSend (UserQuery user_query)
                               (Some [SEARCH_FLIGHTS_VERTEX_TOOL]) :: new)%list |},
       None)
    /\ MoreScenarios.calls new = fuel
    /\ Scenarios.sends new = fuel
    /\ Forall (fun ev => match ev with
                         | EvCall name _ => name = "search_flights"
                         | EvSend content tools => exists part, content = ToolResult part
                         end) new.
Proof.
  intros Hmodel Htool.
  rewrite AgentSpec.process_query_dialogue; unfold dialogue, conversation, bind, send, ask.
  destruct (Hmodel (session_log self) (UserQuery user_query)
              (Some [SEARCH_FLIGHTS_VERTEX_TOOL])) as [r [fc [-> [Hreq Hname]]]].
  match goal with
  | |- context [tool_loop fuel r ?l] =>
      destruct (tool_loop_never_ends Hmodel Htool fuel r fc l Hreq Hname)
        as [new [-> Hnew]]
  end.
  exists new; rewrite <- app_assoc; split; [reflexivity | exact Hnew].
Qed.

(** *** Exceptions *)

Lemma tool_loop_raises (fuel : nat) :
  forall (r : GenerationResponse) (log log' : Log) (e : pyexn),
    tool_loop fuel r log = (log', Some (Raise e)) ->
    exists (before : Log) (last : Event),
      log' = (before ++ [last])%list
      /\ match last with
         | EvSend content tools => send_message_async before content tools = Raise e
         | EvCall name args =>
             exists f, lookup name AVAILABLE_FLIGHT_TOOLS = Some f /\ f before args = Raise e
         end.
Proof.
  induction fuel as [|fuel IH]; intros r log log' e Hrun;
    destruct (requested_call r) as [fc|] eqn:Hreq;
    try (rewrite AgentSpec.tool_loop_final in Hrun by assumption; discriminate).
  - cbn [tool_loop] in Hrun; rewrite Hreq in Hrun; discriminate.
  - destruct (lookup (fc_name fc) AVAILABLE_FLIGHT_TOOLS) as [f|] eqn:Hfn.
    + rewrite (AgentSpec.tool_loop_registered _ _ _ _ _ Hreq Hfn) in Hrun.
      unfold bind, call, send, ask in Hrun.
      destruct (f log (fc_args fc)) as [data|e'] eqn:Hf.
      * match type of Hrun with
        | context [send_message_async ?l ?c ?t] =>
            destruct (send_message_async l c t) as [reply|e''] eqn:Hsend
        end.
        -- eapply IH; exact Hrun.
        -- injection Hrun as <- <-; do 2 eexists; split; [reflexivity | exact Hsend].
      * injection Hrun as <- <-; do 2 eexists; split; [reflexivity|].
        exists f; split; assumption.
    + cbn [tool_loop] in Hrun; rewrite Hreq, Hfn in Hrun.
      unfold send, ask in Hrun; injection Hrun as <- Hsend.
      do 2 eexists; split; [reflexivity | exact Hsend].
Qed.

Lemma extract_final_text_no_failure (final : GenerationResponse) (e : pyexn) :
  extract_final_text final <> Ok (Failure e).
Proof.
  unfold extract_final_text.
  destruct (candidates final) as [|c cs]; [discriminate|].
  destruct (parts c) as [|p ps]; [discriminate|].
  destruct (collect_text_parts (p :: ps)) as [[|t ts]|e']; discriminate.
Qed.

(** X16: when [process_query] returns its error string, either the text of
    the last response could not be collected, or the last thing the
    agent did was the message or the call of a tool function that
    raised: after an exception of the model client or of a tool
    function nothing more is sent or called. *)
Theorem an_exception_ends_the_run_at_once
  (fuel : nat) (self : FlightSearchAgent) (user_query : string) (e : pyexn) :
  snd (process_query fuel self user_query) = Some (Failure e) ->
  (exists (log : Log) (final : GenerationResponse),
      conversation fuel user_query (session_log self) = (log, Some (Ok final))
      /\ extract_final_text final = Raise e)
  \/ (exists (before : Log) (last : Event),
         session_log (fst (process_query fuel self user_query)) = (before ++ [last])%list
         /\ match last with
            | EvSend content tools => send_message_async before content tools = Raise e
            | EvCall name args =>
                exists f, lookup name AVAILABLE_FLIGHT_TOOLS = Some f /\ f before args = Raise e
            end).
Proof.
  rewrite AgentSpec.process_query_dialogue; unfold dialogue, bind, lift.
  destruct (conversation fuel user_query (session_log self)) as [log [[final|e']|]] eqn:Hrun;
    cbn [snd fst]; try discriminate.
  - destruct (extract_final_text final) as [o|e'] eqn:Hextract; cbn [snd]; intros Ho.
    + injection Ho as ->; exfalso; exact (extract_final_text_no_failure _ _ Hextract).
    + injection Ho as ->; left; eauto.
  - intros Ho; injection Ho as ->; right.
    unfold conversation, bind, send, ask in Hrun.
    destruct (send_message_async (session_log self) (UserQuery user_query)
                (Some [SEARCH_FLIGHTS_VERTEX_TOOL])) as [r|e'] eqn:Hsend.
    + destruct (tool_loop_raises _ _ _ _ _ Hrun) as [before [last [-> Hlast]]].
      exists before, last; split; [reflexivity | exact Hlast].
    + injection Hrun as <- <-; do 2 eexists; split; [reflexivity | exact Hsend].
Qed.

(** *** The function responses of the SDK *)

Lemma collect_text_parts_of_the_sdk (ps : list Part) :
  forallb MoreScenarios.of_the_sdk ps = true ->
  collect_text_parts ps = Ok (MoreScenarios.said ps).
Proof.
  induction ps as [|part rest IH]; cbn [forallb collect_text_parts MoreScenarios.said];
    [reflexivity|].
  intros Hall; apply andb_prop in Hall; destruct Hall as [Hpart Hrest].
  rewrite (IH Hrest); unfold part_text_parts, MoreScenarios.of_the_sdk in *.
  destruct (function_response part) as [fr|];
    [destruct (fr_response fr) as [response|v]; [|discriminate Hpart]|];
    destruct (text part) as [[|ch t]|]; reflexivity.
Qed.

(** X17: on parts the SDK built, a function response adds nothing to the
    answer, whatever it carries: lines 112-126 do not run for it.  When
    the conversation ends on a response made of such parts, what
    [process_query] returns is made of the text parts alone: their
    texts, the empty ones left out, joined by blank lines; the apology
    when there is none; None when the response has no parts.  A flight
    that cannot be read, or flights that are not a list, cost nothing:
    collecting the text cannot raise. *)
Theorem function_responses_of_the_sdk_add_nothing
  (fuel : nat) (self : FlightSearchAgent) (user_query : string) (log : Log)
  (final : GenerationResponse) (c : Candidate) (cs : list Candidate) :
  conversation fuel user_query (session_log self) = (log, Some (Ok final)) ->
  candidates final = c :: cs ->
  forallb MoreScenarios.of_the_sdk (parts c) = true ->
  process_query fuel self user_query
  = ({| chat := Some log |},
     Some match parts c with
          | [] => Nothing
          | _ :: _ =>
              match MoreScenarios.said (parts c) with
              | [] => Apology
              | t :: ts => Answer (String.concat (nl ++ nl) (t :: ts))
              end
          end).
Proof.
  intros Hrun Hc Hsdk.
  rewrite AgentSpec.process_query_dialogue; unfold dialogue, bind, lift; rewrite Hrun.
  unfold extract_final_text; rewrite Hc.
  pose proof (collect_text_parts_of_the_sdk _ Hsdk) as Hcollect.
  destruct (parts c) as [|p ps]; [reflexivity|].
  rewrite Hcollect; cbn [rbind].
  destruct (MoreScenarios.said (p :: ps)); reflexivity.
Qed.

(** *** The session *)

Lemma tool_loop_sends_no_query (fuel : nat) :
  forall (r : GenerationResponse) (log : Log),
  exists new : Log,
    fst (tool_loop fuel r log) = (log ++ new)%list
    /\ Forall (fun ev => match ev with
                         | EvSend (UserQuery _) _ => False
                         | _ => True
                         end) new.
Proof.
  induction fuel as [|fuel IH]; intros r log;
    destruct (requested_call r) as [fc|] eqn:Hreq;
    try (exists []; rewrite AgentSpec.tool_loop_final by assumption;
         rewrite app_nil_r; split; [reflexivity | constructor]).
  - exists []; cbn [tool_loop]; rewrite Hreq, app_nil_r; split; [reflexivity | constructor].
  - destruct (lookup (fc_name fc) AVAILABLE_FLIGHT_TOOLS) as [f|] eqn:Hfn.
    + rewrite (AgentSpec.tool_loop_registered _ _ _ _ _ Hreq Hfn).
      unfold bind, call, send, ask.
      destruct (f log (fc_args fc)) as [data|e].
      * match goal with
        | |- context [send_message_async ?l ?c ?t] =>
            destruct (send_message_async l c t) as [reply|e]
        end.
        -- match goal with
           | |- context [tool_loop fuel reply ?l] =>
               destruct (IH reply l) as [new [-> Hnew]]
           end.
           eexists (_ :: _ :: new); rewrite <- !app_assoc; split; [reflexivity|].
           repeat constructor; assumption.
        -- eexists [_; _]; rewrite <- !app_assoc; split; [reflexivity|].
           repeat constructor.
      * eexists [_]; split; [reflexivity | repeat constructor].
    + cbn [tool_loop]; rewrite Hreq, Hfn; unfold send, ask.
      eexists [_]; split; [reflexivity | repeat constructor].
Qed.

Lemma dialogue_extends_the_log (fuel : nat) (user_query : string) (log : Log) :
  exists new : Log,
    fst (dialogue fuel user_query log)
    = (log ++ EvSend (UserQuery user_query) (Some [SEARCH_FLIGHTS_VERTEX_TOOL]) :: new)%list
    /\ Forall (fun ev => match ev with
                         | EvSend (UserQuery _) _ => False
                         | _ => True
                         end) new.
Proof.
  unfold dialogue, conversation, bind, send, ask, lift.
  destruct (send_message_async log (UserQuery user_query)
              (Some [SEARCH_FLIGHTS_VERTEX_TOOL])) as [r|e].
  - match goal with
    | |- context [tool_loop fuel r ?l] =>
        destruct (tool_loop_sends_no_query fuel r l) as [new [Hnew Hall]];
        destruct (tool_loop fuel r l) as [log' [[final|e]|]]
    end;
      cbn [fst] in Hnew |- *; subst; exists new; rewrite <- app_assoc;
      (split; [reflexivity | assumption]).
  - exists []; split; [reflexivity | constructor].
Qed.


End Properties.

Lemma a_model_that_keeps_asking_is_never_answered_witness :
  exists new : Log,
    process_query (B := Scenarios.plain) (W := MoreScenarios.insisting_world)
      25 Scenarios.fresh Scenarios.query
    = ({| chat := Some (EvSend (UserQuery Scenarios.query)
                          (Some [SEARCH_FLIGHTS_VERTEX_TOOL]) :: new) |},
       None)
    /\ MoreScenarios.calls new = 25
    /\ Scenarios.sends new = 25.
Proof.
  destruct (a_model_that_keeps_asking_is_never_answered
              (B := Scenarios.plain) (W := MoreScenarios.insisting_world)
              25 Scenarios.fresh Scenarios.query) as [new [Hrun [Hcalls [Hsends _]]]].
  - intros log content tools; do 2 eexists; repeat split.
  - intros log args; eexists; reflexivity.
  - exists new; split; [exact Hrun | split; assumption].
Defined.

Lemma an_exception_ends_the_run_at_once_witness :
  exists (before : Log) (last : Event),
    session_log (fst (process_query (B := Scenarios.plain)
                        (W := MoreScenarios.failing_tool_world)
                        3 Scenarios.fresh Scenarios.query))
    = (before ++ [last])%list
    /\ last = EvCall "search_flights" [("origin", VStr "NYC"); ("destination", VStr "LON")].
Proof.
  destruct (an_exception_ends_the_run_at_once
              (B := Scenarios.plain) (W := MoreScenarios.failing_tool_world)
              3 Scenarios.fresh Scenarios.query MoreScenarios.missing_argument eq_refl)
    as [[log [final [Hrun _]]]|[before [last [Hlog _]]]].
  - discriminate Hrun.
  - exists before, last; split; [exact Hlog|].
    cbn in Hlog.
    change [EvSend (UserQuery Scenarios.query) (Some [SEARCH_FLIGHTS_VERTEX_TOOL]);
            EvCall "search_flights" [("origin", VStr "NYC"); ("destination", VStr "LON")]]
      with ([EvSend (UserQuery Scenarios.query) (Some [SEARCH_FLIGHTS_VERTEX_TOOL])]
              ++ [EvCall "search_flights"
                    [("origin", VStr "NYC"); ("destination", VStr "LON")]])%list in Hlog.
    apply app_inj_tail in Hlog; destruct Hlog as [_ <-]; reflexivity.
Defined.

Lemma function_responses_of_the_sdk_add_nothing_witness :
  process_query (B := Scenarios.plain)
    (W := Scenarios.scripted [Ok MoreScenarios.broken_reply]
            (Ok Scenarios.no_flights) (Ok Scenarios.no_flights))
    3 Scenarios.fresh Scenarios.query
  = ({| chat := Some [EvSend (UserQuery Scenarios.query)
                        (Some [SEARCH_FLIGHTS_VERTEX_TOOL])] |},
     Some (Answer "Here is what I found.")).
Proof.
  apply (function_responses_of_the_sdk_add_nothing (B := Scenarios.plain)
           (W := Scenarios.scripted [Ok MoreScenarios.broken_reply]
                   (Ok Scenarios.no_flights) (Ok Scenarios.no_flights))
           3 Scenarios.fresh Scenarios.query
           [EvSend (UserQuery Scenarios.query) (Some [SEARCH_FLIGHTS_VERTEX_TOOL])]
           MoreScenarios.broken_reply
           {| parts := [Scenarios.says "Here is what I found.";
                        Scenarios.echoes "search_flights"
                          [("flights", VList MoreScenarios.broken_flights)]] |}
           [] eq_refl eq_refl eq_refl).
Defined.

End AgentMoreSpec.

(** ** The hosts: the constructor, [_run_async_impl], app.py, main.py *)

Module HostsSpec.
Import Interp Agent Hosts PyFacts.

Lemma part_texts_found (ps : list Part) :
  match part_texts ps with
  | [] => True
  | t :: ts => found (Some (String.concat nl (t :: ts))) = true
  end.
Proof.
  induction ps as [|part rest IH]; cbn [part_texts]; [exact I|].
  destruct (text part) as [[|c t]|]; try exact IH.
  cbn [String.concat]; destruct (part_texts rest); reflexivity.
Qed.

Section Properties.
Context `{B : Builtins} `{I : Interpreter} `{N : ProviderCalls.Network} `{W : World}
  `{F : Framework}.

(** *** The constructor *)

(** X19: the constructor builds an agent only when GOOGLE_CLOUD_PROJECT is
    set to something and GOOGLE_CLOUD_LOCATION is not set to the empty
    string (unset, it is "us-central1").  What [BaseAgent.__init__]
    raises, the constructor raises.  When it returns and the two
    variables are not as said, the constructor raises the ValueError of
    line 33, whatever [GenerativeModel] would do.  When they are, the
    constructor ends as [GenerativeModel] does, called with the model
    GEMINI_MODEL_NAME names ("gemini-1.5-pro-latest" when unset) and the
    system instruction of config.py: it raises what that raises, and
    otherwise returns an agent with the name given, that model and no
    session yet. *)
Theorem the_agent_needs_a_project_and_a_location (name : string) :
  let configured :=
    (exists project, ProviderCalls.getenv "GOOGLE_CLOUD_PROJECT" = Some project
                     /\ project <> "")
    /\ ProviderCalls.getenv "GOOGLE_CLOUD_LOCATION" <> Some "" in
  let model :=
    match ProviderCalls.getenv "GEMINI_MODEL_NAME" with
    | Some model => VStr model
    | None => VStr "gemini-1.5-pro-latest"
    end in
  let built := {| agent_name := name; model_name := model; agent := {| chat := None |} |} in
  (forall e, BaseAgent_init name = Raise e -> FlightSearchAgent_init name = Raise e)
  /\ (forall base, BaseAgent_init name = Ok base -> ~ configured ->
       FlightSearchAgent_init name
       = Raise (Exn "ValueError"
                  "GOOGLE_CLOUD_PROJECT and GOOGLE_CLOUD_LOCATION must be set in environment or .env file for Vertex AI."))
  /\ (forall base, BaseAgent_init name = Ok base -> configured ->
       FlightSearchAgent_init name
       = match GenerativeModel model AGENT_SYSTEM_INSTRUCTION with
         | Ok _ => Ok built
         | Raise e => Raise e
         end)
  /\ (forall agent, FlightSearchAgent_init name = Ok agent -> configured /\ agent = built).
Proof.
  intros configured model built; subst configured model built.
  unfold FlightSearchAgent_init, get_config, GOOGLE_CLOUD_PROJECT, GOOGLE_CLOUD_LOCATION,
    GEMINI_MODEL_NAME, getenv_default.
  cbn [dict_get lookup String.eqb Ascii.eqb Bool.eqb getitem].
  destruct (BaseAgent_init name) as [base|e0]; cbn [rbind].
  - destruct (ProviderCalls.getenv "GOOGLE_CLOUD_PROJECT") as [[|c p]|];
      destruct (ProviderCalls.getenv "GOOGLE_CLOUD_LOCATION") as [[|c' l]|];
      cbn [py_truthy String.eqb negb orb rbind];
      (split; [intros e He; discriminate He|]);
      (split; [|split]);
      try (intros base' _ Hnot; reflexivity);
      try (intros base' _ [[project [Hp Hne]] Hl]; congruence);
      try (intros agent Ha; discriminate Ha);
      try (intros base' _ Hnot; exfalso; apply Hnot;
           split; [eexists; split; [reflexivity | discriminate] | discriminate]);
      try (intros base' _ _;
           destruct (ProviderCalls.getenv "GEMINI_MODEL_NAME");
           destruct (GenerativeModel _ AGENT_SYSTEM_INSTRUCTION); reflexivity);
      try (intros agent Ha;
           split; [split; [eexists; split; [reflexivity | discriminate] | discriminate]|];
           destruct (ProviderCalls.getenv "GEMINI_MODEL_NAME");
           destruct (GenerativeModel _ AGENT_SYSTEM_INSTRUCTION);
           cbn [rbind] in Ha; try discriminate Ha; injection Ha as <-; reflexivity).
  - split; [intros e He; injection He as ->; reflexivity|].
    split; [intros base Hb; discriminate Hb|].
    split; [intros base Hb; discriminate Hb|].
    intros agent Ha; discriminate Ha.
Qed.

(** *** [_run_async_impl] *)

(** X20: the query is the first text found, looking in this order: the
    attributes [user_input], [input] and [query] of the context, then
    the texts of the parts of [user_content] joined by newlines, then the
    first str of [ctx.__dict__] that is not blank; an attribute that is
    missing, None or empty is passed over.  When none of them gives a
    text, no query is found. *)
Theorem the_query_is_the_first_text_found (ctx : InvocationContext) :
  let from_content :=
    match user_content ctx with
    | Some ps =>
        match part_texts ps with
        | [] => None
        | t :: ts => Some (String.concat nl (t :: ts))
        end
    | None => None
    end in
  let from_dict :=
    match ctx_dict ctx with
    | Some items => first_text items
    | None => None
    end in
  match filter found [user_input ctx; input ctx; query ctx; from_content; from_dict] with
  | first :: _ => find_user_query ctx = first
  | [] => found (find_user_query ctx) = false
  end.
Proof.
  destruct ctx as [ui inp q uc cd]; unfold find_user_query;
    cbn [user_input input query user_content ctx_dict].
  assert (Hcontent :
            match uc with
            | Some ps =>
                match part_texts ps with
                | [] => True
                | t :: ts => found (Some (String.concat nl (t :: ts))) = true
                end
            | None => True
            end) by (destruct uc as [ps|]; [apply part_texts_found | exact Logic.I]).
  destruct ui as [[|c1 s1]|]; destruct inp as [[|c2 s2]|]; destruct q as [[|c3 s3]|];
    cbn [found negb filter];
    try reflexivity;
    (destruct uc as [[|p ps]|];
     [ | destruct (part_texts (p :: ps)) as [|t ts];
         [ | rewrite Hcontent; cbn [found negb filter]; rewrite ?Hcontent; reflexivity ] | ]);
    cbn [part_texts found negb filter];
    (destruct cd as [items|]; [destruct (first_text items) as [[|c5 s5]|]|]);
    reflexivity.
Qed.

(** X21: whenever [_run_async_impl] ends it has yielded exactly one event,
    in the agent's name and not partial.  When no query is found, the
    event says so and the agent is left as it was: no session is
    started and nothing is sent to the model.  When one is found, the
    event carries what [process_query] returns for it, as it is. *)
Theorem one_event_per_invocation
  (fuel : nat) (self self' : Constructed) (ctx : InvocationContext)
  (events : list AdkEvent) :
  run_async_impl fuel self ctx = (self', Some events) ->
  exists content : pyval,
    events = [ {| author := agent_name self; event_text := content; partial := false |} ]
    /\ (found (find_user_query ctx) = false ->
        content = VStr "No user query found in context." /\ self' = self)
    /\ (found (find_user_query ctx) = true ->
        exists (user_query : string) (o : Outcome),
          find_user_query ctx = Some user_query
          /\ process_query fuel (agent self) user_query = (agent self', Some o)
          /\ content = returned o).
Proof.
  unfold run_async_impl.
  destruct (find_user_query ctx) as [[|c q]|]; cbn [found].
  - intros Hrun; injection Hrun as <- <-; eexists; split; [reflexivity|].
    split; [auto | discriminate].
  - destruct (process_query fuel (agent self) (String c q)) as [after [o|]] eqn:Hq;
      intros Hrun; [|discriminate].
    injection Hrun as <- <-; eexists; split; [reflexivity|].
    split; [discriminate|]; intros _; exists (String c q), o; auto.
  - intros Hrun; injection Hrun as <- <-; eexists; split; [reflexivity|].
    split; [auto | discriminate].
Qed.

(** *** app.py *)


(** *** main.py *)

(** X23: the loop stops at the first line that says exit or quit: what is
    typed after it is never read. *)
Theorem nothing_is_read_after_exit
  (fuel : nat) (before after : list string) (line : string)
  (self : FlightSearchAgent) (out : Transcript) :
  leaves line = true ->
  repl fuel (before ++ line :: after) self out = repl fuel (before ++ [line]) self out.
Proof.
  intros Hline; revert self out.
  induction before as [|l before IH]; intros self out; cbn [app repl].
  - rewrite Hline; reflexivity.
  - destruct (leaves l); [reflexivity|].
    destruct (process_query fuel self l) as [after' [o|]]; [apply IH | reflexivity].
Qed.

Lemma queries_sent_app (log new : Log) :
  MoreScenarios.queries_sent (log ++ new)%list
  = (MoreScenarios.queries_sent log ++ MoreScenarios.queries_sent new)%list.
Proof.
  induction log as [|ev log IH]; cbn [app MoreScenarios.queries_sent]; [reflexivity|].
  destruct ev as [[q|part|v] tools|name args]; cbn [app]; rewrite IH; reflexivity.
Qed.

Lemma process_query_queries_sent (fuel : nat) (self : FlightSearchAgent) (user_query : string) :
  MoreScenarios.queries_sent (session_log (fst (process_query fuel self user_query)))
  = (MoreScenarios.queries_sent (session_log self) ++ [user_query])%list.
Proof.
  rewrite AgentSpec.process_query_dialogue.
  destruct (AgentMoreSpec.dialogue_extends_the_log fuel user_query (session_log self))
    as [new [Hlog Hall]].
  assert (Hnew : MoreScenarios.queries_sent new = []).
  { clear Hlog; induction Hall as [|ev new Hev _ IH]; [reflexivity|].
    destruct ev as [[q|part|v] tools|name args]; cbn [MoreScenarios.queries_sent];
      [contradiction | exact IH | exact IH | exact IH]. }
  destruct (dialogue fuel user_query (session_log self)) as [log' [[o|e]|]];
    cbn [fst session_log chat] in Hlog |- *; rewrite Hlog, queries_sent_app;
    cbn [MoreScenarios.queries_sent]; rewrite Hnew; reflexivity.
Qed.

(** X24: every line typed before the one that says exit or quit is sent to
    the model as a query, once, in the order typed and as it was typed:
    it is not stripped, and a line that is empty or blank is sent like
    any other. *)
Theorem every_line_before_exit_is_sent
  (fuel : nat) (before after : list string) (line : string)
  (self self' : FlightSearchAgent) (out out' : Transcript) :
  Forall (fun l => leaves l = false) before ->
  leaves line = true ->
  repl fuel (before ++ line :: after) self out = (self', out', Some (Ok tt)) ->
  MoreScenarios.queries_sent (session_log self')
  = (MoreScenarios.queries_sent (session_log self) ++ before)%list.
Proof.
  intros Hbefore Hline; revert self out.
  induction Hbefore as [|l before Hl _ IH]; intros self out; cbn [app repl].
  - rewrite Hline; intros Hrun; injection Hrun as <- _; rewrite app_nil_r; reflexivity.
  - rewrite Hl.
    destruct (process_query fuel self l) as [after' [o|]] eqn:Hq; [|discriminate].
    intros Hrun; rewrite (IH _ _ Hrun).
    pose proof (process_query_queries_sent fuel self l) as Hsent.
    rewrite Hq in Hsent; cbn [fst] in Hsent; rewrite Hsent, <- app_assoc; reflexivity.
Qed.

End Properties.

Lemma one_event_per_invocation_witness :
  exists content : pyval,
    snd (run_async_impl (B := Scenarios.plain) (I := NetScenarios.ascii_interpreter)
           (W := Scenarios.silent_world) 3 HostScenarios.built HostScenarios.web_context)
    = Some [ {| author := "flight_agent"; event_text := content; partial := false |} ]
    /\ find_user_query (I := NetScenarios.ascii_interpreter) HostScenarios.web_context
       = Some ("flights to Rome" ++ nl ++ "in May")
    /\ content = VNone.
Proof.
  destruct (one_event_per_invocation (B := Scenarios.plain)
              (I := NetScenarios.ascii_interpreter) (W := Scenarios.silent_world)
              3 HostScenarios.built _ HostScenarios.web_context _ eq_refl)
    as [content [Hevents _]].
  injection Hevents as <-.
  exists VNone; split; [reflexivity | split; reflexivity].
Defined.

Lemma the_agent_needs_a_project_and_a_location_witness :
  FlightSearchAgent_init (N := NetScenarios.bare) (F := HostScenarios.vertex) "flight_agent"
  = Raise (Exn "ValueError"
             "GOOGLE_CLOUD_PROJECT and GOOGLE_CLOUD_LOCATION must be set in environment or .env file for Vertex AI.")
  /\ FlightSearchAgent_init (N := NetScenarios.offline) (F := HostScenarios.no_credentials)
       "flight_agent"
     = Raise HostScenarios.credentials_not_found
  /\ FlightSearchAgent_init (N := NetScenarios.offline) (F := HostScenarios.vertex)
       "flight_agent"
     = Ok HostScenarios.built.
Proof.
  split; [|split].
  - apply (proj1 (proj2 (the_agent_needs_a_project_and_a_location
                           (N := NetScenarios.bare) (F := HostScenarios.vertex)
                           "flight_agent")) tt eq_refl).
    intros [[project [Hp _]] _]; discriminate Hp.
  - apply (proj1 (proj2 (proj2 (the_agent_needs_a_project_and_a_location
                                  (N := NetScenarios.offline)
                                  (F := HostScenarios.no_credentials)
                                  "flight_agent"))) tt eq_refl).
    split; [exists "my-project"; split; [reflexivity | discriminate] | discriminate].
  - apply (proj1 (proj2 (proj2 (the_agent_needs_a_project_and_a_location
                                  (N := NetScenarios.offline) (F := HostScenarios.vertex)
                                  "flight_agent"))) tt eq_refl).
    split; [exists "my-project"; split; [reflexivity | discriminate] | discriminate].
Defined.


Lemma nothing_is_read_after_exit_witness :
  repl (B := Scenarios.plain) (I := NetScenarios.ascii_interpreter)
    (W := MoreScenarios.polite_world) 3 HostScenarios.typed Scenarios.fresh []
  = repl (B := Scenarios.plain) (I := NetScenarios.ascii_interpreter)
      (W := MoreScenarios.polite_world) 3 ["to Rome"; ""; "EXIT"] Scenarios.fresh [].
Proof.
  apply (nothing_is_read_after_exit (B := Scenarios.plain)
           (I := NetScenarios.ascii_interpreter) (W := MoreScenarios.polite_world)
           3 ["to Rome"; ""] ["to Oslo"] "EXIT" Scenarios.fresh [] eq_refl).
Defined.

Lemma every_line_before_exit_is_sent_witness :
  MoreScenarios.queries_sent
    (session_log
       (fst (fst (repl (B := Scenarios.plain) (I := NetScenarios.ascii_interpreter)
                    (W := MoreScenarios.polite_world) 3 HostScenarios.typed
                    Scenarios.fresh []))))
  = ["to Rome"; ""].
Proof.
  apply (every_line_before_exit_is_sent (B := Scenarios.plain)
           (I := NetScenarios.ascii_interpreter) (W := MoreScenarios.polite_world)
           3 ["to Rome"; ""] ["to Oslo"] "EXIT" Scenarios.fresh _ [] _
           ltac:(repeat constructor) eq_refl eq_refl).
Defined.

End HostsSpec.
